(** * grompp-error-sniffer: a shallow embedding of the error-to-context
      correlation engine ([error_finding.py], [dummies.py], [main.py])

    Conventions of the embedding.

    - A Python [str] is a [string]; one [ascii] stands for one code point
      below 256.  Whitespace and case mapping follow Python on that range.
    - A Python [int] is a [Z].  [int(s)] raises [ValueError] on a string of
      more than 4300 digits, the interpreter's default limit
      ([sys.get_int_max_str_digits()]).
    - A topology file is the text Python reads from it (after newline
      translation); iterating the open file yields [readlines text].
    - A [dict] whose iteration order the code depends on ([section_lines]) is
      an association list in insertion order; [atom_info], which is only
      looked up and tested for emptiness, is a [gmap Z AtomInfo].
    - An exception raised inside a [try] block is [None] in the option monad;
      the [except Exception] handler of each function supplies the value
      returned instead.
    - A dict that is mutated in place (the error record) is threaded
      explicitly: the function returns the record after the call.
    - [print] calls are not modelled.
    - A file that is written is the text its [write] calls produce, in
      order; an input file is the text read from it. *)

From Stdlib Require Import ZArith List String Ascii Lia Bool DecimalString.
From Stdlib Require Import PrimFloat FloatOps SpecFloat.
From stdpp Require Import base option list gmap strings sorting.

Local Open Scope Z_scope.

(** ** Python string primitives *)

Module Py.

Definition nl : ascii := ascii_of_nat 10.

(** [str.isspace] on one code point below 256. *)
Definition isspace (c : ascii) : bool :=
  let n := N_of_ascii c in
  ((9 <=? n) && (n <=? 13) || (28 <=? n) && (n <=? 32)
   || (n =? 133) || (n =? 160))%N.

(** [str.lower] on one code point below 256. *)
Definition lower_char (c : ascii) : ascii :=
  let n := N_of_ascii c in
  if ((65 <=? n) && (n <=? 90)
      || (192 <=? n) && (n <=? 222) && negb (n =? 215))%N
  then ascii_of_N (n + 32) else c.

Fixpoint lower (s : string) : string :=
  match s with
  | EmptyString => EmptyString
  | String c s' => String (lower_char c) (lower s')
  end.

Fixpoint lstrip (s : string) : string :=
  match s with
  | EmptyString => EmptyString
  | String c s' => if isspace c then lstrip s' else s
  end.

Fixpoint rstrip (s : string) : string :=
  match s with
  | EmptyString => EmptyString
  | String c s' =>
      match rstrip s' with
      | EmptyString => if isspace c then EmptyString else String c EmptyString
      | r => String c r
      end
  end.

(** [s.strip()] *)
Definition strip (s : string) : string := rstrip (lstrip s).

(** [s.split()]: the maximal runs of non-whitespace characters. *)
Fixpoint split (s : string) : list string :=
  match s with
  | EmptyString => []
  | String c s' =>
      if isspace c then split s'
      else match s' with
           | EmptyString => [String c EmptyString]
           | String c' _ =>
               if isspace c' then String c EmptyString :: split s'
               else match split s' with
                    | t :: ts => String c t :: ts
                    | [] => [String c EmptyString]
                    end
           end
  end.

(** [s.startswith(p)] *)
Definition startswith (s p : string) : bool := String.prefix p s.

(** [sub in s] *)
Fixpoint contains (sub s : string) : bool :=
  String.prefix sub s ||
  match s with
  | EmptyString => false
  | String _ s' => contains sub s'
  end.

(** Truth value of a string: [not s] is [negb (truthy s)]. *)
Definition truthy (s : string) : bool :=
  match s with EmptyString => false | _ => true end.

Definition digit_val (c : ascii) : option Z :=
  let n := N_of_ascii c in
  if ((48 <=? n) && (n <=? 57))%N then Some (Z.of_N n - 48) else None.

(** Digits after the first one; a single underscore may separate two
    digits. *)
Fixpoint int_digits (acc : Z) (after_us : bool) (s : string) : option Z :=
  match s with
  | EmptyString => if after_us then None else Some acc
  | String c s' =>
      if Ascii.eqb c "_"
      then (if after_us then None else int_digits acc true s')
      else match digit_val c with
           | Some d => int_digits (10 * acc + d) false s'
           | None => None
           end
  end.

(** [sys.get_int_max_str_digits()] at its default: a decimal string with
    more digits than this is refused by [int]. *)
Definition max_str_digits : nat := 4300.

(** The number of digits of [s]; a sign or an underscore does not count. *)
Fixpoint digit_count (s : string) : nat :=
  match s with
  | EmptyString => O
  | String c s' =>
      match digit_val c with
      | Some _ => S (digit_count s')
      | None => digit_count s'
      end
  end.

Definition int_unsigned (s : string) : option Z :=
  match s with
  | EmptyString => None
  | String c s' =>
      match digit_val c with
      | Some d =>
          n ← int_digits d false s';
          if (max_str_digits <? digit_count s)%nat then None else Some n
      | None => None
      end
  end.

(** [int(s)] in base 10; [None] is [ValueError], for a string that is not
    an integer literal as for one with more than [max_str_digits] digits. *)
Definition int (s : string) : option Z :=
  match strip s with
  | String "+" s' => int_unsigned s'
  | String "-" s' => Z.opp <$> int_unsigned s'
  | s' => int_unsigned s'
  end.

(** [str(n)] for an [int].  The code applies it to constants and to numbers
    that [int] returned, which have at most [max_str_digits] digits, so the
    limit on this conversion is never reached. *)
Definition str (n : Z) : string := NilZero.string_of_int (Z.to_int n).

(** [f"{s:>w}"] for a string: right-justified in a field of width [w],
    never truncated. *)
Definition rjust (w : nat) (s : string) : string :=
  String.concat "" (repeat " "%string (w - String.length s)%nat) +:+ s.

(** Splitting a text into the lines a file iterator yields: each line keeps
    its terminating newline; a last line without one is yielded as is. *)
Fixpoint readlines_aux (cur : string -> string) (s : string) (started : bool)
  : list string :=
  match s with
  | EmptyString => if started then [cur EmptyString] else []
  | String c s' =>
      if Ascii.eqb c nl
      then cur (String c EmptyString) :: readlines_aux (fun x => x) s' false
      else readlines_aux (fun x => cur (String c x)) s' true
  end.

Definition readlines (text : string) : list string :=
  readlines_aux (fun x => x) text false.

(** Joining lines into a text, each followed by a newline. *)
Definition unlines (ls : list string) : string :=
  String.concat "" (map (fun l => l +:+ String nl EmptyString) ls).

End Py.

(** ** Insertion-ordered dictionaries with string keys *)

Section Dict.
Context {V : Type}.

Definition dict := list (string * V).

Fixpoint dict_get (d : dict) (k : string) : option V :=
  match d with
  | [] => None
  | (k', v) :: d' => if String.eqb k' k then Some v else dict_get d' k
  end.

(** [d[k] = v]: an existing key keeps its position, a new key goes last. *)
Fixpoint dict_set (d : dict) (k : string) (v : V) : dict :=
  match d with
  | [] => [(k, v)]
  | (k', v') :: d' =>
      if String.eqb k' k then (k', v) :: d' else (k', v') :: dict_set d' k v
  end.

End Dict.
Arguments dict : clear implicits.

(** ** [error_finding.py]: [get_context_from_topology] *)

Definition sections : list string :=
  ["[ atoms ]"; "[ bonds ]"; "[ pairs ]"; "[ angles ]"; "[ dihedrals ]"]%string.

Record index_state := mk_index_state {
  section_lines : dict Z;
  section_counts : dict Z
}.

(** [section_counts[section]]; every key of [sections] is present from the
    start. *)
Definition count_of (counts : dict Z) (section : string) : Z :=
  default 0 (dict_get counts section).

(** Body of [for section in sections] for the stripped line [line] at line
    number [i]. *)
Definition visit_section (i : Z) (line : string) (st : index_state)
    (section : string) : index_state :=
  if String.eqb (Py.lower line) (Py.lower section) then
    let n := count_of (section_counts st) section + 1 in
    let counts := dict_set (section_counts st) section n in
    if String.eqb section "[ dihedrals ]" then
      if n =? 1 then
        mk_index_state (dict_set (section_lines st) "[ proper dihedrals ]" i) counts
      else if n =? 2 then
        mk_index_state (dict_set (section_lines st) "[ improper dihedrals ]" i) counts
      else mk_index_state (section_lines st) counts
    else mk_index_state (dict_set (section_lines st) section i) counts
  else st.

Definition visit_line (i : Z) (line : string) (st : index_state) : index_state :=
  fold_left (visit_section i (Py.strip line)) sections st.

(** [for i, line in enumerate(file, i)] *)
Fixpoint index_loop (i : Z) (file : list string) (st : index_state)
  : index_state :=
  match file with
  | [] => st
  | line :: rest => index_loop (i + 1) rest (visit_line i line st)
  end.

Definition index_init : index_state :=
  mk_index_state [] (map (fun s => (s, 0)) sections).

Definition index_sections (file : list string) : dict Z :=
  section_lines (index_loop 1 file index_init).

Definition get_context_from_topology (topology_file : string) : dict Z :=
  index_sections (Py.readlines topology_file).

(** ** [error_finding.py]: [extract_atom_names] *)

Record AtomInfo := mk_atom_info {
  name : string;
  type : string;
  resnr : string;
  residue : string
}.

(** [line < atoms_end] where [None] stands for [float('inf')]. *)
Definition lt_end (line : Z) (atoms_end : option Z) : bool :=
  match atoms_end with None => true | Some e => line <? e end.

(** [if line > atoms_start and line < atoms_end: atoms_end = line] *)
Definition atoms_end_step (atoms_start : Z) (atoms_end : option Z)
    (item : string * Z) : option Z :=
  let '(_, line) := item in
  if (line >? atoms_start) && lt_end line atoms_end
  then Some line else atoms_end.

(** [for section, line in section_lines.items(): ...] starting from
    [atoms_end = float('inf')]. *)
Definition find_atoms_end (section_lines : dict Z) (atoms_start : Z)
  : option Z :=
  fold_left (atoms_end_step atoms_start) section_lines None.

(** [for _ in range(n): next(file)]; [None] is [StopIteration]. *)
Fixpoint skip_lines (n : nat) (file : list string) : option (list string) :=
  match n with
  | O => Some file
  | S n' => match file with
            | [] => None
            | _ :: rest => skip_lines n' rest
            end
  end.

(** Body of [for line in file] once the line is known to be a data line. *)
Definition parse_atom_line (line : string) (atom_info : gmap Z AtomInfo)
  : option (gmap Z AtomInfo) :=
  let tokens := Py.split line in
  if (5 <=? length tokens)%nat then
    t0 ← tokens !! 0%nat;
    atom_num ← Py.int t0;
    atom_type ← tokens !! 1%nat;
    resnr ← tokens !! 2%nat;
    residue ← tokens !! 3%nat;
    atom_name ← tokens !! 4%nat;
    Some (<[atom_num := mk_atom_info atom_name atom_type resnr residue]> atom_info)
  else Some atom_info.

(** [if not line or line.startswith(';')] on the stripped line. *)
Definition is_skipped (line : string) : bool :=
  negb (Py.truthy line) || Py.startswith line ";".

Fixpoint atoms_loop (atoms_end : option Z) (line_num : Z) (file : list string)
    (atom_info : gmap Z AtomInfo) : option (gmap Z AtomInfo) :=
  match file with
  | [] => Some atom_info
  | line :: rest =>
      if negb (lt_end line_num atoms_end) then Some atom_info
      else
        let line := Py.strip line in
        if is_skipped line then atoms_loop atoms_end (line_num + 1) rest atom_info
        else
          atom_info' ← parse_atom_line line atom_info;
          atoms_loop atoms_end (line_num + 1) rest atom_info'
  end.

(** The [try] block; [None] is an exception reaching the handler. *)
Definition extract_atom_names_try (file : list string) (section_lines : dict Z)
  : option (gmap Z AtomInfo) :=
  match dict_get section_lines "[ atoms ]" with
  | None => Some ∅
  | Some atoms_start =>
      let atoms_end := find_atoms_end section_lines atoms_start in
      file' ← skip_lines (Z.to_nat atoms_start) file;
      atoms_loop atoms_end (atoms_start + 1) file' ∅
  end.

Definition extract_atom_names (topology_file : string) (section_lines : dict Z)
  : gmap Z AtomInfo :=
  default ∅ (extract_atom_names_try (Py.readlines topology_file) section_lines).

(** ** [error_finding.py]: [identify_atoms_from_context] *)

(** The error dict.  Keys that may be missing are options. *)
Record ErrorRecord := mk_error {
  error_num : Z;
  line_number : Z;
  error_msg : string;
  section : option string;
  atoms : option (list Z);
  atom_names : option (list string);
  residues : option (list string);
  atom_types : option (list string)
}.

(** [error['section'] = error_section] *)
Definition set_section (error : ErrorRecord) (error_section : string)
  : ErrorRecord :=
  mk_error (error_num error) (line_number error) (error_msg error)
           (Some error_section) (atoms error) (atom_names error)
           (residues error) (atom_types error).

(** The inner loop over [section_lines.items()]. *)
Definition is_last_section (section_lines : dict Z) (error_line start_line : Z)
  : bool :=
  negb (existsb
          (fun '(_, next_start_line) =>
             (next_start_line >? start_line) && (error_line >=? next_start_line))
          section_lines).

(** The outer loop over [section_lines.items()], with its [break]. *)
Fixpoint find_error_section (section_lines : dict Z) (error_line : Z)
    (items : dict Z) : option string :=
  match items with
  | [] => None
  | (section, start_line) :: rest =>
      if (error_line >=? start_line)
         && is_last_section section_lines error_line start_line
      then Some section
      else find_error_section section_lines error_line rest
  end.

(** [for i, line in enumerate(file, i): if i == error_line: ... break];
    [None] is the [else] branch of the loop. *)
Fixpoint find_line (i : Z) (file : list string) (error_line : Z)
  : option string :=
  match file with
  | [] => None
  | line :: rest =>
      if i =? error_line then Some (Py.strip line)
      else find_line (i + 1) rest error_line
  end.

(** [int(tokens[k])] *)
Definition int_token (tokens : list string) (k : nat) : option Z :=
  tokens !! k ≫= Py.int.

(** The section-specific extraction; [None] is an exception. *)
Definition extract_atoms (error_section : string) (tokens : list string)
  : option (list Z) :=
  if String.eqb error_section "[ bonds ]" then
    if (2 <=? length tokens)%nat then
      a ← int_token tokens 0; b ← int_token tokens 1; Some [a; b]
    else Some []
  else if String.eqb error_section "[ pairs ]" then
    if (2 <=? length tokens)%nat then
      a ← int_token tokens 0; b ← int_token tokens 1; Some [a; b]
    else Some []
  else if String.eqb error_section "[ angles ]" then
    if (3 <=? length tokens)%nat then
      a ← int_token tokens 0; b ← int_token tokens 1; c ← int_token tokens 2;
      Some [a; b; c]
    else Some []
  else if String.eqb error_section "[ proper dihedrals ]"
          || String.eqb error_section "[ improper dihedrals ]" then
    if (4 <=? length tokens)%nat then
      a ← int_token tokens 0; b ← int_token tokens 1; c ← int_token tokens 2;
      d ← int_token tokens 3; Some [a; b; c; d]
    else Some []
  else Some [].

Record resolved := mk_resolved {
  atom_name_list : list string;
  residue_info_list : list string;
  atom_type_list : list string
}.

(** Body of [for atom in atoms]. *)
Definition resolve_atom (atom_info : gmap Z AtomInfo) (r : resolved) (atom : Z)
  : resolved :=
  match atom_info !! atom with
  | Some info =>
      mk_resolved (atom_name_list r ++ [name info])
                  (residue_info_list r ++ [residue info +:+ resnr info])
                  (atom_type_list r ++ [type info])
  | None =>
      mk_resolved (atom_name_list r ++ ["Unknown-" +:+ Py.str atom])
                  (residue_info_list r ++ ["Unknown"%string])
                  (atom_type_list r ++ ["Unknown"%string])
  end.

(** [if atom_info:] with [atom_info=None] as the default argument. *)
Definition dict_truthy (atom_info : option (gmap Z AtomInfo)) : bool :=
  match atom_info with
  | Some m => negb (bool_decide (m = ∅))
  | None => false
  end.

Definition resolve_atoms (atom_info : option (gmap Z AtomInfo))
    (atoms : list Z) : resolved :=
  if dict_truthy atom_info
  then fold_left (resolve_atom (default ∅ atom_info)) atoms
                 (mk_resolved [] [] [])
  else mk_resolved [] [] [].

(** The returned tuple [(atoms, atom_name_list, residue_info_list,
    atom_type_list)]. *)
Definition correlation : Type :=
  list Z * list string * list string * list string.

Definition no_correlation : correlation := ([], [], [], []).

(** The function returns the error record as it is after the call, next to
    the tuple. *)
Definition identify_atoms_from_context (error : ErrorRecord)
    (section_lines : dict Z) (topology_file : string)
    (atom_info : option (gmap Z AtomInfo)) : ErrorRecord * correlation :=
  let error_line := line_number error in
  match find_error_section section_lines error_line section_lines with
  | None => (error, no_correlation)
  | Some error_section =>
      let error := set_section error error_section in
      match find_line 1 (Py.readlines topology_file) error_line with
      | None => (error, no_correlation)
      | Some error_line_content =>
          let tokens := Py.split error_line_content in
          match extract_atoms error_section tokens with
          | None => (error, no_correlation)
          | Some atoms =>
              let r := resolve_atoms atom_info atoms in
              (error, (atoms, atom_name_list r, residue_info_list r,
                       atom_type_list r))
          end
      end
  end.

(** ** [main.py]: the correlation loop *)

Definition correlate_error (section_lines : dict Z) (topology_file : string)
    (atom_info : gmap Z AtomInfo) (error : ErrorRecord) : ErrorRecord :=
  let '(error, (atoms, atom_names_list, residue_info_list, atom_type_list)) :=
    identify_atoms_from_context error section_lines topology_file
                                (Some atom_info) in
  mk_error (error_num error) (line_number error) (error_msg error)
           (section error) (Some atoms) (Some atom_names_list)
           (Some residue_info_list) (Some atom_type_list).

(** ** [dummies.py]: formatting *)

Module Fmt.

(** Round the rational [num / den] ([0 < den], [0 <= num]) to the nearest
    integer, ties to even. *)
Definition round_half_even (num den : Z) : Z :=
  let q := num / den in
  let r := num mod den in
  if (2 * r >? den) || ((2 * r =? den) && Z.odd q) then q + 1 else q.

(** The decimal digits of [n], at least [k] of them. *)
Definition zero_pad (k : nat) (s : string) : string :=
  String.concat "" (repeat "0"%string (k - String.length s)%nat) +:+ s.

(** [n / 10^prec] written with exactly [prec] decimals. *)
Definition fixed_digits (prec : nat) (n : Z) : string :=
  let ds := zero_pad (S prec) (Py.str n) in
  let len := String.length ds in
  let int_part := String.substring 0 (len - prec) ds in
  match prec with
  | O => int_part
  | _ => int_part +:+ "." +:+ String.substring (len - prec) prec ds
  end.

Definition sign_str (s : bool) : string := if s then "-" else "".

(** [format(x, '.{prec}f')] on the exact value of the binary64 [x]. *)
Definition fixed (prec : nat) (x : spec_float) : string :=
  match x with
  | S754_zero s => sign_str s +:+ fixed_digits prec 0
  | S754_infinity s => sign_str s +:+ "inf"
  | S754_nan => "nan"
  | S754_finite s m e =>
      let num := Zpos m * 10 ^ Z.of_nat prec * (if 0 <=? e then 2 ^ e else 1) in
      let den := if 0 <=? e then 1 else 2 ^ (- e) in
      sign_str s +:+ fixed_digits prec (round_half_even num den)
  end.

(** [f"{x:{width}.{prec}f}"] for a float [x]. *)
Definition float_f (width prec : nat) (x : float) : string :=
  Py.rjust width (fixed prec (Prim2SF x)).

End Fmt.

(** ** [dummies.py]: [generate_angle_dummy], [generate_dihedral_dummy] *)

Definition tab : string := String (ascii_of_nat 9) EmptyString.

Definition generate_angle_dummy (atom_types : list string) : option string :=
  match atom_types with
  | [t0; t1; t2] =>
      let theta0 := 120.0%float in
      let ktheta := 200.0%float in
      let ub0 := 0.0%float in
      let kub := 0.0%float in
      Some (Py.rjust 8 t0 +:+ " " +:+ Py.rjust 8 t1 +:+ " " +:+ Py.rjust 8 t2
            +:+ "     1   " +:+ Fmt.float_f 10 6 theta0
            +:+ "   " +:+ Fmt.float_f 10 6 ktheta
            +:+ "   " +:+ Fmt.float_f 10 8 ub0
            +:+ "   " +:+ Fmt.float_f 10 2 kub +:+ " ;")
  | _ => None
  end.

Definition generate_dihedral_dummy (atom_types : list string) : option string :=
  match atom_types with
  | [t0; t1; t2; t3] =>
      let phi0 := 0.0%float in
      let kphi := 0.0%float in
      let mult := 1 in
      Some (Py.rjust 8 t0 +:+ " " +:+ Py.rjust 8 t1 +:+ " " +:+ Py.rjust 8 t2
            +:+ " " +:+ Py.rjust 8 t3 +:+ tab +:+ tab +:+ "9     "
            +:+ Fmt.float_f 10 6 phi0 +:+ "     " +:+ Fmt.float_f 10 6 kphi
            +:+ "     " +:+ Py.str mult +:+ " ;")
  | _ => None
  end.

(** ** [dummies.py]: [process_errors_for_dummies] *)

(** A Python [set] of strings: a duplicate-free list in some order. *)
Definition set_add (s : list string) (x : string) : list string :=
  if existsb (String.eqb x) s then s else s ++ [x].

(** Python's order on [str]: lexicographic on code points. *)
Definition str_le (a b : string) : Prop := String.leb a b = true.

#[global] Instance str_le_dec a b : Decision (str_le a b).
Proof. unfold str_le. apply _. Defined.

(** [sorted(list(s))] *)
Definition sorted (s : list string) : list string := merge_sort str_le s.

Record dummy_state := mk_dummy_state {
  angle_dummies : list string;
  dihedral_dummies : list string;
  processed_errors : Z;
  skipped_no_atom_types : Z;
  skipped_unknown_error : Z;
  skipped_wrong_atom_count : Z
}.

Definition dummy_init : dummy_state := mk_dummy_state [] [] 0 0 0 0.

Definition add_angle (st : dummy_state) (dummy : string) : dummy_state :=
  mk_dummy_state (set_add (angle_dummies st) dummy) (dihedral_dummies st)
    (processed_errors st + 1) (skipped_no_atom_types st)
    (skipped_unknown_error st) (skipped_wrong_atom_count st).

Definition add_dihedral (st : dummy_state) (dummy : string) : dummy_state :=
  mk_dummy_state (angle_dummies st) (set_add (dihedral_dummies st) dummy)
    (processed_errors st + 1) (skipped_no_atom_types st)
    (skipped_unknown_error st) (skipped_wrong_atom_count st).

Definition skip_no_atom_types (st : dummy_state) : dummy_state :=
  mk_dummy_state (angle_dummies st) (dihedral_dummies st)
    (processed_errors st) (skipped_no_atom_types st + 1)
    (skipped_unknown_error st) (skipped_wrong_atom_count st).

Definition skip_unknown_error (st : dummy_state) : dummy_state :=
  mk_dummy_state (angle_dummies st) (dihedral_dummies st)
    (processed_errors st) (skipped_no_atom_types st)
    (skipped_unknown_error st + 1) (skipped_wrong_atom_count st).

Definition skip_wrong_atom_count (st : dummy_state) : dummy_state :=
  mk_dummy_state (angle_dummies st) (dihedral_dummies st)
    (processed_errors st) (skipped_no_atom_types st)
    (skipped_unknown_error st) (skipped_wrong_atom_count st + 1).

(** [section and kw in section.lower()] *)
Definition section_mentions (section : option string) (kw : string) : bool :=
  match section with
  | Some s => Py.truthy s && Py.contains kw (Py.lower s)
  | None => false
  end.

(** Body of [for error in errors]. *)
Definition process_error (st : dummy_state) (error : ErrorRecord)
  : dummy_state :=
  match atom_types error with
  | None | Some [] => skip_no_atom_types st
  | Some types =>
      let error_msg := Py.lower (error_msg error) in
      let section := section error in
      if Py.contains "no default u-b types" error_msg
         || Py.contains "angle type" error_msg
         || section_mentions section "angle" then
        if (length types =? 3)%nat then
          match generate_angle_dummy types with
          | Some dummy =>
              if Py.truthy dummy then add_angle st dummy
              else skip_wrong_atom_count st
          | None => skip_wrong_atom_count st
          end
        else skip_wrong_atom_count st
      else if Py.contains "no default dihedral type" error_msg
              || Py.contains "dihedral type" error_msg
              || section_mentions section "dihedral" then
        if (length types =? 4)%nat then
          match generate_dihedral_dummy types with
          | Some dummy =>
              if Py.truthy dummy then add_dihedral st dummy
              else skip_wrong_atom_count st
          | None => skip_wrong_atom_count st
          end
        else skip_wrong_atom_count st
      else skip_unknown_error st
  end.

Record dummies := mk_dummies {
  angles : list string;
  dihedrals : list string
}.

Definition process_loop (errors : list ErrorRecord) : dummy_state :=
  fold_left process_error errors dummy_init.

Definition process_errors_for_dummies (errors : list ErrorRecord) : dummies :=
  let st := process_loop errors in
  mk_dummies (sorted (angle_dummies st)) (sorted (dihedral_dummies st)).

(** ** [dummies.py]: [save_dummies] *)

Definition newline : string := String Py.nl EmptyString.

(** The text written to [output_file] by the [file.write] calls, in order;
    creating the directory and opening the file are not modelled. *)
Definition save_dummies (dummies : dummies) : string :=
  ("; Dummy parameters generated for topology errors" +:+ newline +:+ newline)
  +:+ (match angles dummies with
       | [] => EmptyString
       | _ =>
           ("[ angletypes ]" +:+ newline)
           +:+ (";      i        j        k  func       theta0       ktheta          ub0          kub"
                +:+ newline)
           +:+ String.concat "" (map (fun angle => angle +:+ newline) (angles dummies))
           +:+ newline
       end)
  +:+ (match dihedrals dummies with
       | [] => EmptyString
       | _ =>
           ("[ dihedraltypes ]" +:+ newline)
           +:+ (";      i        j        k        l  func         phi0         kphi  mult"
                +:+ newline)
           +:+ String.concat "" (map (fun dihedral => dihedral +:+ newline)
                                     (dihedrals dummies))
           +:+ newline
       end)
  +:+ ("; End of dummy parameters" +:+ newline).

(** ** [error_finding.py]: [extract_error_info]

    The pattern is
    [ERROR (\d+) \[file topol\.top, line (\d+)\]:\s+(.*?)(?=\n\n|\Z)] with
    [re.DOTALL].  It is matched piece by piece from the left.  Each greedy
    [+] takes the longest run: after [\d+] comes a literal that starts with a
    character that is not a digit, and after [\s+] comes [(.*?)] with its
    lookahead, which succeeds after any amount of whitespace (the end of the
    text satisfies [\Z]), so giving back characters never leads to a match
    that the longest run does not give. *)

Module Re.

(** [\d] on a code point below 256. *)
Definition is_digit (c : ascii) : bool :=
  match Py.digit_val c with Some _ => true | None => false end.

(** The longest prefix of [s] whose characters satisfy [p], and the rest. *)
Fixpoint span (p : ascii -> bool) (s : string) : string * string :=
  match s with
  | EmptyString => (EmptyString, EmptyString)
  | String c s' =>
      if p c then let '(m, rest) := span p s' in (String c m, rest)
      else (EmptyString, s)
  end.

(** [p+]: one character or more. *)
Definition many1 (p : ascii -> bool) (s : string) : option (string * string) :=
  match span p s with
  | (EmptyString, _) => None
  | (m, rest) => Some (m, rest)
  end.

(** A literal piece of the pattern: what follows it in [s]. *)
Fixpoint literal (lit s : string) : option string :=
  match lit with
  | EmptyString => Some s
  | String c lit' =>
      match s with
      | EmptyString => None
      | String c' s' => if Ascii.eqb c c' then literal lit' s' else None
      end
  end.

(** Two newlines in a row. *)
Definition blank : string := String Py.nl (String Py.nl EmptyString).

(** [(.*?)(?=\n\n|\Z)]: the shortest prefix that is followed by a blank line
    or by the end of the text, and the rest. *)
Fixpoint lazy_to_blank (s : string) : string * string :=
  match s with
  | EmptyString => (EmptyString, EmptyString)
  | String c s' =>
      if String.prefix blank s then (EmptyString, s)
      else let '(m, rest) := lazy_to_blank s' in (String c m, rest)
  end.

(** The pattern at the start of [s]: the three groups and the text after the
    match. *)
Definition match_here (s : string)
  : option (string * string * string * string) :=
  s1 ← literal "ERROR " s;
  '(g1, s2) ← many1 is_digit s1;
  s3 ← literal " [file topol.top, line " s2;
  '(g2, s4) ← many1 is_digit s3;
  s5 ← literal "]:" s4;
  '(_, s6) ← many1 Py.isspace s5;
  let '(g3, rest) := lazy_to_blank s6 in
  Some (g1, g2, g3, rest).

(** [re.finditer]: the matches from left to right, without overlap.  After a
    match the search resumes where the match ended: [skip] counts the
    characters of the current match still to pass over. *)
Fixpoint finditer (skip : nat) (s : string) : list (string * string * string) :=
  match s with
  | EmptyString => []
  | String _ s' =>
      match skip with
      | S k => finditer k s'
      | O =>
          match match_here s with
          | Some (g1, g2, g3, rest) =>
              (g1, g2, g3)
                :: finditer (String.length s - String.length rest - 1) s'
          | None => finditer 0 s'
          end
      end
  end.

End Re.

(** Body of [for match in matches]; [None] is an exception of [int]. *)
Definition error_of_match (m : string * string * string) : option ErrorRecord :=
  let '(g1, g2, g3) := m in
  error_num ← Py.int g1;
  line_num ← Py.int g2;
  Some (mk_error error_num line_num (Py.strip g3) None None None None None).

(** [error_content] is the text read from the error file. *)
Definition extract_error_info (error_content : string) : list ErrorRecord :=
  if negb (Py.truthy error_content) then []
  else default [] (mapM error_of_match (Re.finditer 0 error_content)).

(** ** [error_finding.py]: [save_results] *)

(** [c * n] for a one-character string. *)
Definition repeat_str (c : string) (n : nat) : string :=
  String.concat "" (repeat c n).

(** [sep.join(l)] *)
Definition join (sep : string) (l : list string) : string := String.concat sep l.

(** [key in error and error[key]] for a list-valued key. *)
Definition present_nonempty {A} (field : option (list A)) : bool :=
  match field with
  | Some (_ :: _) => true
  | _ => false
  end.

(** The text written for one error, by the [file.write] calls of the loop
    body. *)
Definition write_error (error : ErrorRecord) : string :=
  ("Error " +:+ Py.str (error_num error) +:+ ":" +:+ newline)
  +:+ ("  Line: " +:+ Py.str (line_number error) +:+ newline)
  +:+ ("  Message: " +:+ error_msg error +:+ newline)
  +:+ (if present_nonempty (atoms error) then
         ("  Atoms involved: "
          +:+ join ", " (map Py.str (default [] (atoms error))) +:+ newline)
         +:+ (if present_nonempty (atom_names error)
              then "  Atom names: "
                   +:+ join ", " (default [] (atom_names error)) +:+ newline
              else EmptyString)
         +:+ (if present_nonempty (atom_types error)
              then "  Atom types: "
                   +:+ join ", " (default [] (atom_types error)) +:+ newline
              else EmptyString)
         +:+ (if present_nonempty (residues error)
              then "  Residues: "
                   +:+ join ", " (default [] (residues error)) +:+ newline
              else EmptyString)
       else "  No atoms identified" +:+ newline)
  +:+ (newline +:+ repeat_str "-" 30 +:+ newline +:+ newline).

(** The text written to [output_file]; creating the directory and opening
    the file are not modelled. *)
Definition save_results (errors : list ErrorRecord) : string :=
  ("Topology Error Analysis Results" +:+ newline)
  +:+ (repeat_str "=" 30 +:+ newline +:+ newline)
  +:+ ("Total errors found: " +:+ Py.str (Z.of_nat (length errors))
       +:+ newline +:+ newline)
  +:+ String.concat "" (map write_error errors)
  +:+ (newline +:+ "Analysis completed." +:+ newline).

(** ** [main.py]: [main]

    The two input files are given by their contents; the result holds the
    records after the correlation loop and the contents of the two files
    written. *)

Record main_result := mk_main_result {
  main_errors : list ErrorRecord;
  analysis_results : string;
  dummy_parameters : string
}.

Definition main (errors_txt topol_top : string) : main_result :=
  let errors := extract_error_info errors_txt in
  let sections := get_context_from_topology topol_top in
  let atom_info := extract_atom_names topol_top sections in
  let errors := map (correlate_error sections topol_top atom_info) errors in
  let dummies := process_errors_for_dummies errors in
  mk_main_result errors (save_results errors) (save_dummies dummies).

(** ** Vocabulary of the statements *)

(** [line] is an occurrence of the header [h]: equal after trimming,
    compared without case. *)
Definition is_header (line h : string) : bool :=
  String.eqb (Py.lower (Py.strip line)) (Py.lower h).

(** The line numbers, counted from [i], at which header [h] occurs. *)
Fixpoint header_lines (i : Z) (h : string) (file : list string) : list Z :=
  match file with
  | [] => []
  | line :: rest =>
      if is_header line h then i :: header_lines (i + 1) h rest
      else header_lines (i + 1) h rest
  end.

(** The headers whose entry is written without looking at the count. *)
Definition plain_sections : list string :=
  ["[ atoms ]"; "[ bonds ]"; "[ pairs ]"; "[ angles ]"]%string.

(** What a line that is an occurrence of [h] does to the state. *)
Definition visit_hit (i : Z) (st : index_state) (h : string) : index_state :=
  let n := count_of (section_counts st) h + 1 in
  let counts := dict_set (section_counts st) h n in
  if String.eqb h "[ dihedrals ]" then
    if n =? 1 then
      mk_index_state (dict_set (section_lines st) "[ proper dihedrals ]" i) counts
    else if n =? 2 then
      mk_index_state (dict_set (section_lines st) "[ improper dihedrals ]" i) counts
    else mk_index_state (section_lines st) counts
  else mk_index_state (dict_set (section_lines st) h i) counts.

(** The occurrence recorded for the [t]-th appearance of [[ dihedrals ]]
    when [c] appearances were counted before the loop starts. *)
Definition nth_occurrence (c t : Z) (occ : list Z) (before : option Z)
  : option Z :=
  if c <? t then
    match occ !! Z.to_nat (t - 1 - c) with
    | Some n => Some n
    | None => before
    end
  else before.

Definition dihedral_key (t : Z) : string :=
  if t =? 1 then "[ proper dihedrals ]" else "[ improper dihedrals ]".

(** Keys are unique in a Python dict. *)
Definition dict_wf {V} (d : dict V) : Prop := NoDup (map fst d).

(** The lines of [file] paired with their line numbers, counted from [i]. *)
Fixpoint numbered (i : Z) (file : list string) : list (Z * string) :=
  match file with
  | [] => []
  | line :: rest => (i, line) :: numbered (i + 1) rest
  end.

(** The physical lines strictly between line [atoms_start] and line
    [atoms_end] ([None]: up to the end of the file). *)
Definition lines_between (file : list string) (atoms_start : Z)
    (atoms_end : option Z) : list string :=
  map snd
    (List.filter (fun p => (atoms_start <? fst p) && lt_end (fst p) atoms_end)
                 (numbered 1 file)).

(** The lines of a span that are neither blank nor comments, trimmed. *)
Definition data_lines (span : list string) : list string :=
  List.filter (fun l => negb (is_skipped l)) (map Py.strip span).

(** Reading the rows in order; [None] as soon as one row raises. *)
Fixpoint parse_rows (rows : list string) (atom_info : gmap Z AtomInfo)
  : option (gmap Z AtomInfo) :=
  match rows with
  | [] => Some atom_info
  | row :: rest => atom_info' ← parse_atom_line row atom_info;
                   parse_rows rest atom_info'
  end.

(** [e] is the least start line above [atoms_start] among the sections other
    than [[ atoms ]]; [None] when there is none. *)
Definition is_min_above (section_lines : dict Z) (atoms_start : Z)
    (e : option Z) : Prop :=
  match e with
  | Some e =>
      (exists k, k <> "[ atoms ]"%string /\ dict_get section_lines k = Some e)
      /\ atoms_start < e
      /\ forall k v, k <> "[ atoms ]"%string ->
                     dict_get section_lines k = Some v -> atoms_start < v -> e <= v
  | None =>
      forall k v, k <> "[ atoms ]"%string ->
                  dict_get section_lines k = Some v -> v <= atoms_start
  end.

(** What the correlator reports for one atom index. *)
Definition name_of (atom_info : gmap Z AtomInfo) (atom : Z) : string :=
  match atom_info !! atom with
  | Some info => name info
  | None => "Unknown-" +:+ Py.str atom
  end.

Definition residue_of (atom_info : gmap Z AtomInfo) (atom : Z) : string :=
  match atom_info !! atom with
  | Some info => residue info +:+ resnr info
  | None => "Unknown"
  end.

Definition type_of (atom_info : gmap Z AtomInfo) (atom : Z) : string :=
  match atom_info !! atom with
  | Some info => type info
  | None => "Unknown"
  end.

(** Number of leading tokens read as atom indices in each section. *)
Definition arity (error_section : string) : option nat :=
  if String.eqb error_section "[ bonds ]" then Some 2%nat
  else if String.eqb error_section "[ pairs ]" then Some 2%nat
  else if String.eqb error_section "[ angles ]" then Some 3%nat
  else if String.eqb error_section "[ proper dihedrals ]" then Some 4%nat
  else if String.eqb error_section "[ improper dihedrals ]" then Some 4%nat
  else None.

(** The angle test of the classification, on the lowercased message and the
    section name as it is stored. *)
Definition mentions_angle (error : ErrorRecord) : bool :=
  Py.contains "no default u-b types" (Py.lower (error_msg error))
  || Py.contains "angle type" (Py.lower (error_msg error))
  || match section error with
     | Some s => Py.contains "angle" s
     | None => false
     end.

(** The dihedral test of the classification. *)
Definition mentions_dihedral (error : ErrorRecord) : bool :=
  Py.contains "no default dihedral type" (Py.lower (error_msg error))
  || Py.contains "dihedral type" (Py.lower (error_msg error))
  || match section error with
     | Some s => Py.contains "dihedral" s
     | None => false
     end.

(** The section name of a record, when present, is in lower case, as the six
    names the indexer writes are. *)
Definition section_lowercase (error : ErrorRecord) : Prop :=
  forall s, section error = Some s -> Py.lower s = s.

(** What the loop body did to the four counters between [st] and [st']: the
    record counts as processed, as a wrong-arity skip, or as unrecognized,
    and the other three counters keep their value. *)
Definition counted_processed (st st' : dummy_state) : Prop :=
  processed_errors st' = processed_errors st + 1
  /\ skipped_no_atom_types st' = skipped_no_atom_types st
  /\ skipped_unknown_error st' = skipped_unknown_error st
  /\ skipped_wrong_atom_count st' = skipped_wrong_atom_count st.

Definition counted_wrong_arity (st st' : dummy_state) : Prop :=
  processed_errors st' = processed_errors st
  /\ skipped_no_atom_types st' = skipped_no_atom_types st
  /\ skipped_unknown_error st' = skipped_unknown_error st
  /\ skipped_wrong_atom_count st' = skipped_wrong_atom_count st + 1.

Definition counted_unrecognized (st st' : dummy_state) : Prop :=
  processed_errors st' = processed_errors st
  /\ skipped_no_atom_types st' = skipped_no_atom_types st
  /\ skipped_unknown_error st' = skipped_unknown_error st + 1
  /\ skipped_wrong_atom_count st' = skipped_wrong_atom_count st.

(** [rows'] holds [row] and, besides it, exactly the rows of [rows]. *)
Definition row_added (rows rows' : list string) (row : string) : Prop :=
  In row rows' /\ forall r, In r rows' <-> In r rows \/ r = row.

(** The rows one record contributes, taken on its own. *)
Definition angle_rows_of (error : ErrorRecord) : list string :=
  angle_dummies (process_error dummy_init error).

Definition dihedral_rows_of (error : ErrorRecord) : list string :=
  dihedral_dummies (process_error dummy_init error).

(** All the rows a sequence of records generates, with repetitions, in the
    order of the records. *)
Definition generated_angles (errors : list ErrorRecord) : list string :=
  flat_map angle_rows_of errors.

Definition generated_dihedrals (errors : list ErrorRecord) : list string :=
  flat_map dihedral_rows_of errors.

(** The angle row of the end-to-end scenario as the specification prints
    it. *)
Definition scenario_row_in_spec : string :=
  "      CA       CB       CC     1   120.000000   200.000000   0.00000000       0.00 ;".

(** The angle row of the end-to-end scenario as [generate_angle_dummy]
    formats it. *)
Definition scenario_row : string :=
  "      CA       CB       CC     1   120.000000   200.000000   0.00000000         0.00 ;".

(** The six keys the indexer can write. *)
Definition section_names : list string :=
  ["[ atoms ]"; "[ bonds ]"; "[ pairs ]"; "[ angles ]";
   "[ proper dihedrals ]"; "[ improper dihedrals ]"]%string.

(** The header whose occurrences an index key records. *)
Definition header_of_key (k : string) : string :=
  if String.eqb k "[ proper dihedrals ]" || String.eqb k "[ improper dihedrals ]"
  then "[ dihedrals ]" else k.

(** The entry a data row of the Atoms section stands for: its index and its
    metadata, when the row has at least five tokens and an integer index. *)
Definition row_entry (row : string) : option (Z * AtomInfo) :=
  match Py.split row with
  | t0 :: t1 :: t2 :: t3 :: t4 :: _ =>
      n ← Py.int t0; Some (n, mk_atom_info t4 t1 t2 t3)
  | _ => None
  end.

(** The row makes [parse_atom_line] raise: five tokens or more, the first
    one not an integer. *)
Definition row_raises (row : string) : bool :=
  (5 <=? length (Py.split row))%nat
  && match int_token (Py.split row) 0 with Some _ => false | None => true end.

(** No character of [s] is whitespace. *)
Fixpoint no_space (s : string) : bool :=
  match s with
  | EmptyString => true
  | String c s' => negb (Py.isspace c) && no_space s'
  end.

(** [s] can be a token of [str.split]: not empty, without whitespace. *)
Definition is_token (s : string) : bool := Py.truthy s && no_space s.

(** [s] is empty or starts with whitespace. *)
Definition at_token_end (s : string) : bool :=
  match s with
  | EmptyString => true
  | String c _ => Py.isspace c
  end.

(** Width of a string right-justified in a field of width 8. *)
Definition field_width (t : string) : nat := Nat.max 8 (String.length t).

(** No character of [s] is a newline. *)
Fixpoint no_newline (s : string) : bool :=
  match s with
  | EmptyString => true
  | String c s' => negb (Ascii.eqb c Py.nl) && no_newline s'
  end.

(** The lines of the parameter file, without their newlines. *)
Definition dummy_file_lines (d : dummies) : list string :=
  ["; Dummy parameters generated for topology errors"; ""]%string
  ++ (match angles d with
      | [] => []
      | _ => ["[ angletypes ]";
              ";      i        j        k  func       theta0       ktheta          ub0          kub"]%string
             ++ angles d ++ [""%string]
      end)
  ++ (match dihedrals d with
      | [] => []
      | _ => ["[ dihedraltypes ]";
              ";      i        j        k        l  func         phi0         kphi  mult"]%string
             ++ dihedrals d ++ [""%string]
      end)
  ++ ["; End of dummy parameters"%string].

(** Every atom type of the record is a token. *)
Definition token_types (error : ErrorRecord) : Prop :=
  forall types, atom_types error = Some types ->
                Forall (fun t => is_token t = true) types.

(** Every character of [s] satisfies [p]. *)
Fixpoint all_chars (p : ascii -> bool) (s : string) : bool :=
  match s with
  | EmptyString => true
  | String c s' => p c && all_chars p s'
  end.

(** The text of one error block as the validator prints it: the two numbers
    in digits, whitespace, and the message. *)
Definition error_block (d1 d2 ws msg : string) : string :=
  "ERROR " +:+ d1 +:+ " [file topol.top, line " +:+ d2 +:+ "]:" +:+ ws +:+ msg.

(** No run of consecutive digits of [s] has more than [limit] characters;
    [run] is the length of the run of digits that ends just before [s]. *)
Fixpoint digit_runs_within (limit run : nat) (s : string) : bool :=
  match s with
  | EmptyString => true
  | String c s' =>
      if Re.is_digit c
      then (S run <=? limit)%nat && digit_runs_within limit (S run) s'
      else digit_runs_within limit 0 s'
  end.

(** The fields of the entries of the atom table are tokens. *)
Definition info_tokens (info : AtomInfo) : Prop :=
  is_token (name info) = true /\ is_token (type info) = true
  /\ is_token (resnr info) = true /\ is_token (residue info) = true.

(** What the correlation loop of [main] makes of a parsed record [e0]: the
    same number, line and message, the four lists present, of consistent
    lengths, with token atom types, and a section that is one of the six
    names when it is present. *)
Definition enriched_from (e0 e : ErrorRecord) : Prop :=
  error_num e = error_num e0 /\ line_number e = line_number e0
  /\ error_msg e = error_msg e0
  /\ (section e = None \/ exists s, section e = Some s /\ In s section_names)
  /\ exists zs names residue_infos types,
       atoms e = Some zs /\ atom_names e = Some names
       /\ residues e = Some residue_infos /\ atom_types e = Some types
       /\ length names = length types /\ length residue_infos = length types
       /\ (types = [] \/ length types = length zs)
       /\ Forall (fun t => is_token t = true) types.


(** * Theorems *)

(** ** The embedding on small inputs *)

Example strip_line :
  Py.strip (String.append "  [ Atoms ]  " (String Py.nl EmptyString)) = "[ Atoms ]"%string.
Proof. reflexivity. Qed.

Example split_line : Py.split "  5  7  9  3 " = ["5"; "7"; "9"; "3"]%string.
Proof. reflexivity. Qed.

Example int_tokens :
  map Py.int ["12"; "+5"; "-7"; "1_000"; "007"; "1__0"; "_1"; "1_"; "x"; "1.5"; ""]%string
  = [Some 12; Some 5; Some (-7); Some 1000; Some 7; None; None; None; None;
     None; None].
Proof. reflexivity. Qed.

(** The limit on the number of digits: 4300 digits are read, 4301 are
    refused, with or without a sign; an underscore does not count. *)
Example int_digit_limit :
  Py.int (repeat_str "7" 4300) <> None
  /\ Py.int ("1_" +:+ repeat_str "7" 4299) <> None
  /\ Py.int (repeat_str "7" 4301) = None
  /\ Py.int ("-" +:+ repeat_str "7" 4301) = None.
Proof. vm_compute. repeat split; discriminate. Qed.

(** A row of the atom table whose index has 4301 digits empties the table,
    and a data line whose first token has 4301 digits gives no atoms. *)
Example atom_table_digit_limit :
  let topology_file :=
    Py.unlines ["[ atoms ]"; "1 NH3 1 ALA N 1";
                repeat_str "7" 4301 +:+ " CT1 1 ALA CA 2"]%string in
  extract_atom_names topology_file (get_context_from_topology topology_file)
  = ∅.
Proof. vm_compute. reflexivity. Qed.

Example identify_digit_limit :
  let topology_file :=
    Py.unlines ["[ angles ]"; repeat_str "7" 4301 +:+ " 2 3 5"]%string in
  let error := mk_error 1 2 "No default U-B types" None None None None None in
  identify_atoms_from_context error (get_context_from_topology topology_file)
    topology_file None
  = (set_section error "[ angles ]", ([], [], [], [])).
Proof. vm_compute. reflexivity. Qed.

Example readlines_last_line :
  Py.readlines (String.append (Py.unlines ["a"; ""]%string) "b")
  = [String.append "a" (String Py.nl EmptyString); String Py.nl EmptyString;
     "b"%string].
Proof. reflexivity. Qed.

Example float_f_rounding :
  map (Fmt.float_f 10 2) [0.125; 0.375; 2.5; -0.0]%float
  = ["      0.12"; "      0.38"; "      2.50"; "     -0.00"]%string.
Proof. vm_compute. reflexivity. Qed.

Example index_example :
  get_context_from_topology
    (Py.unlines ["[ Atoms ]"; "1 CT 1 ALA N 1"; "  [ dihedrals ]  "; "[ atoms ]";
                 "[ dihedrals ]"; "[ DIHEDRALS ]"; "[ bonds ]"]%string)
  = [("[ atoms ]", 4); ("[ proper dihedrals ]", 3);
     ("[ improper dihedrals ]", 5); ("[ bonds ]", 7)]%string.
Proof. vm_compute. reflexivity. Qed.

Example short_row_skipped :
  let topology_file :=
    Py.unlines ["[ atoms ]"; "1 NH3 1 ALA N 1"; "2 CT1 1"; "3 C 1 ALA C 3"]%string in
  size (extract_atom_names topology_file (get_context_from_topology topology_file))
  = 2%nat.
Proof. vm_compute. reflexivity. Qed.

Example dihedral_row :
  generate_dihedral_dummy ["CT1"; "CA"; "NH1"; "H"]%string
  = Some (String.append "     CT1       CA      NH1        H"
            (String.append tab
               (String.append tab "9       0.000000       0.000000     1 ;"))).
Proof. vm_compute. reflexivity. Qed.

Example sorted_order : sorted ["b"; "a"; "B"; "ab"; ""]%string = [""; "B"; "a"; "ab"; "b"]%string.
Proof. vm_compute. reflexivity. Qed.

(** ** Dictionaries *)

Section DictFacts.
Context {V : Type}.
Implicit Types (d : dict V) (k : string) (v : V).

Lemma dict_get_set_eq d k v : dict_get (dict_set d k v) k = Some v.
Proof.
  induction d as [|[k' v'] d IH]; simpl.
  - by rewrite String.eqb_refl.
  - destruct (String.eqb k' k) eqn:E; simpl; by rewrite E.
Qed.

Lemma dict_get_set_ne d k k' v :
  k <> k' -> dict_get (dict_set d k v) k' = dict_get d k'.
Proof.
  intros Hne. induction d as [|[k0 v0] d IH]; simpl.
  - by apply String.eqb_neq in Hne as ->.
  - destruct (String.eqb k0 k) eqn:E; simpl; [|by rewrite IH].
    apply String.eqb_eq in E as ->.
    by apply String.eqb_neq in Hne as ->.
Qed.

Lemma dict_get_In d k v : dict_get d k = Some v -> In (k, v) d.
Proof.
  induction d as [|[k0 v0] d IH]; simpl; [done|].
  destruct (String.eqb_spec k0 k) as [->|]; [intros [= ->]; by left|].
  intros; right; auto.
Qed.
End DictFacts.

(** ** The section indexer *)

Lemma is_header_lower line h :
  is_header line h = true -> Py.lower (Py.strip line) = Py.lower h.
Proof. unfold is_header. by intros ?%String.eqb_eq. Qed.

Lemma visit_line_hit i line st h :
  In h sections -> is_header line h = true ->
  visit_line i line st = visit_hit i st h.
Proof.
  intros Hin Hh. apply is_header_lower in Hh.
  unfold visit_line, visit_section, visit_hit. simpl fold_left.
  rewrite Hh.
  simpl in Hin.
  destruct Hin as [<-|[<-|[<-|[<-|[<-|[]]]]]]; reflexivity.
Qed.

Lemma visit_line_miss i line st :
  (forall h, In h sections -> is_header line h = false) ->
  visit_line i line st = st.
Proof.
  unfold visit_line. generalize sections. intros l Hmiss.
  induction l as [|h l IH]; [done|].
  simpl. unfold visit_section at 2.
  unfold is_header in Hmiss. rewrite (Hmiss h) by (by left).
  apply IH. intros h' Hin. apply Hmiss. by right.
Qed.

Lemma plain_in_sections h : In h plain_sections -> In h sections.
Proof. simpl. intuition. Qed.

Lemma header_exclusive line h h' :
  In h sections -> In h' sections ->
  is_header line h = true -> is_header line h' = true -> h = h'.
Proof.
  intros Hin Hin' Hh%is_header_lower Hh'%is_header_lower.
  rewrite Hh in Hh'. simpl in Hin, Hin'.
  destruct Hin as [<-|[<-|[<-|[<-|[<-|[]]]]]];
    destruct Hin' as [<-|[<-|[<-|[<-|[<-|[]]]]]];
    first [reflexivity | discriminate Hh'].
Qed.

Lemma header_cases line :
  (exists h, In h sections /\ is_header line h = true)
  \/ (forall h, In h sections -> is_header line h = false).
Proof.
  destruct (existsb (is_header line) sections) eqn:E.
  - left. apply existsb_exists in E. exact E.
  - right. intros h Hin. destruct (is_header line h) eqn:Hh; [|done].
    assert (existsb (is_header line) sections = true)
      by (apply existsb_exists; eauto).
    congruence.
Qed.

(** A hit on [h'] leaves every key other than the ones it can write. *)
Lemma visit_hit_get_other i st h' k :
  k <> h' -> k <> "[ proper dihedrals ]"%string ->
  k <> "[ improper dihedrals ]"%string ->
  dict_get (section_lines (visit_hit i st h')) k = dict_get (section_lines st) k.
Proof.
  intros Hk Hp Hi. unfold visit_hit.
  repeat case_match; simpl; rewrite ?dict_get_set_ne; auto.
Qed.

Lemma visit_hit_get_plain i st h :
  h <> "[ dihedrals ]"%string ->
  dict_get (section_lines (visit_hit i st h)) h = Some i.
Proof.
  intros Hne. unfold visit_hit.
  apply String.eqb_neq in Hne as ->. simpl. apply dict_get_set_eq.
Qed.

Lemma visit_hit_count i st h' h :
  count_of (section_counts (visit_hit i st h')) h
  = if String.eqb h' h then count_of (section_counts st) h + 1
    else count_of (section_counts st) h.
Proof.
  assert (Hc : section_counts (visit_hit i st h')
               = dict_set (section_counts st) h'
                          (count_of (section_counts st) h' + 1)).
  { unfold visit_hit. repeat case_match; reflexivity. }
  rewrite Hc. unfold count_of at 1.
  destruct (String.eqb_spec h' h) as [->|Hne].
  - by rewrite dict_get_set_eq.
  - by rewrite dict_get_set_ne.
Qed.

Lemma last_cons_Z (x : Z) l : last (x :: l) = Some (default x (last l)).
Proof.
  revert x. induction l as [|y l IH]; intros x; [done|].
  change (last (x :: y :: l)) with (last (y :: l)).
  by rewrite !IH.
Qed.

(** After the loop a plain header is mapped to its last occurrence, or is
    left as it was when it does not occur. *)
Lemma index_loop_plain h :
  In h plain_sections ->
  forall file i st,
    dict_get (section_lines (index_loop i file st)) h
    = match last (header_lines i h file) with
      | Some n => Some n
      | None => dict_get (section_lines st) h
      end.
Proof.
  intros Hplain.
  assert (Hsec := plain_in_sections _ Hplain).
  assert (Hnd : h <> "[ dihedrals ]"%string /\ h <> "[ proper dihedrals ]"%string
                /\ h <> "[ improper dihedrals ]"%string).
  { simpl in Hplain. destruct Hplain as [<-|[<-|[<-|[<-|[]]]]]; done. }
  destruct Hnd as (Hd & Hp & Hi).
  induction file as [|line rest IH]; intros i st; simpl; [done|].
  rewrite IH.
  destruct (header_cases line) as [(h' & Hin' & Hh')|Hmiss].
  - rewrite (visit_line_hit _ _ _ _ Hin' Hh').
    destruct (String.eqb_spec h h') as [<-|Hne].
    + rewrite Hh', last_cons_Z, visit_hit_get_plain by done.
      by destruct (last (header_lines (i + 1) h rest)).
    + assert (is_header line h = false) as ->.
      { destruct (is_header line h) eqn:E; [|done].
        destruct Hne. eapply header_exclusive; eauto. }
      by rewrite visit_hit_get_other.
  - rewrite visit_line_miss, (Hmiss h) by done. done.
Qed.

Lemma visit_hit_dihedral_key i st t :
  t = 1 \/ t = 2 ->
  dict_get (section_lines (visit_hit i st "[ dihedrals ]")) (dihedral_key t)
  = if count_of (section_counts st) "[ dihedrals ]" + 1 =? t then Some i
    else dict_get (section_lines st) (dihedral_key t).
Proof.
  intros Ht. unfold visit_hit. simpl String.eqb. cbv iota.
  set (c := count_of (section_counts st) "[ dihedrals ]").
  destruct (Z.eqb_spec (c + 1) 1) as [E1|E1];
    [|destruct (Z.eqb_spec (c + 1) 2) as [E2|E2]];
    destruct Ht as [-> | ->]; simpl;
    repeat match goal with
           | |- context [?a =? ?b] => destruct (Z.eqb_spec a b); try lia
           end;
    rewrite ?dict_get_set_eq; try done;
    by rewrite dict_get_set_ne.
Qed.

Lemma visit_hit_other_dihedral_key i st h' t :
  In h' sections -> h' <> "[ dihedrals ]"%string ->
  dict_get (section_lines (visit_hit i st h')) (dihedral_key t)
  = dict_get (section_lines st) (dihedral_key t).
Proof.
  intros Hin Hne. unfold visit_hit.
  apply String.eqb_neq in Hne as Hne'. rewrite Hne'. simpl.
  apply dict_get_set_ne. unfold dihedral_key. simpl in Hin.
  destruct Hin as [<-|[<-|[<-|[<-|[<-|[]]]]]]; by case_match.
Qed.

Lemma index_loop_dihedral t :
  t = 1 \/ t = 2 ->
  forall file i st,
    0 <= count_of (section_counts st) "[ dihedrals ]" ->
    dict_get (section_lines (index_loop i file st)) (dihedral_key t)
    = nth_occurrence (count_of (section_counts st) "[ dihedrals ]") t
        (header_lines i "[ dihedrals ]" file)
        (dict_get (section_lines st) (dihedral_key t)).
Proof.
  intros Ht.
  induction file as [|line rest IH]; intros i st Hc; simpl.
  { unfold nth_occurrence. by case_match. }
  destruct (header_cases line) as [(h' & Hin' & Hh')|Hmiss].
  - rewrite (visit_line_hit _ _ _ _ Hin' Hh').
    rewrite IH by (rewrite visit_hit_count; case_match; lia).
    rewrite visit_hit_count.
    destruct (String.eqb_spec h' "[ dihedrals ]") as [->|Hne].
    + rewrite Hh', visit_hit_dihedral_key by done.
      set (c := count_of (section_counts st) "[ dihedrals ]") in *.
      unfold nth_occurrence.
      destruct (Z.ltb_spec (c + 1) t), (Z.ltb_spec c t),
        (Z.eqb_spec (c + 1) t); try lia; try done.
      * replace (Z.to_nat (t - 1 - c)) with (S (Z.to_nat (t - 1 - (c + 1))))
          by lia. done.
      * replace (Z.to_nat (t - 1 - c)) with 0%nat by lia. done.
    + assert (is_header line "[ dihedrals ]" = false) as ->.
      { destruct (is_header line "[ dihedrals ]") eqn:E; [|done].
        destruct Hne. eapply header_exclusive; eauto. simpl; auto 10. }
      by rewrite visit_hit_other_dihedral_key.
  - rewrite visit_line_miss by done.
    rewrite (Hmiss "[ dihedrals ]"%string) by (simpl; auto 10).
    by apply IH.
Qed.

Lemma index_loop_count h :
  In h sections ->
  forall file i st,
    count_of (section_counts (index_loop i file st)) h
    = count_of (section_counts st) h + Z.of_nat (length (header_lines i h file)).
Proof.
  intros Hin. induction file as [|line rest IH]; intros i st; simpl; [lia|].
  rewrite IH.
  destruct (header_cases line) as [(h' & Hin' & Hh')|Hmiss].
  - rewrite (visit_line_hit _ _ _ _ Hin' Hh'), visit_hit_count.
    destruct (String.eqb_spec h' h) as [->|Hne].
    + rewrite Hh'. simpl length. lia.
    + assert (is_header line h = false) as ->; [|done].
      destruct (is_header line h) eqn:E; [|done].
      destruct Hne. eapply header_exclusive; eauto.
  - by rewrite visit_line_miss, (Hmiss h).
Qed.

Lemma index_loop_app file1 file2 i st :
  index_loop i (file1 ++ file2) st
  = index_loop (i + Z.of_nat (length file1)) file2 (index_loop i file1 st).
Proof.
  revert i st. induction file1 as [|line rest IH]; intros i st; simpl.
  - f_equal. lia.
  - rewrite IH. f_equal. lia.
Qed.

(** A third or later occurrence of [[ dihedrals ]] changes no entry. *)
Lemma visit_hit_dihedral_late i st :
  2 <= count_of (section_counts st) "[ dihedrals ]" ->
  section_lines (visit_hit i st "[ dihedrals ]") = section_lines st.
Proof.
  intros Hc. unfold visit_hit. simpl String.eqb. cbv iota.
  repeat match goal with
         | |- context [?a =? ?b] => destruct (Z.eqb_spec a b); try lia
         end.
  done.
Qed.

(** C1 as the specification states it fails: with [[ atoms ]] on lines 1 and
    3 the index holds line 3, not line 1. *)
Lemma C1_first_match_counterexample :
  let topology_file :=
    Py.unlines ["[ atoms ]"; "1 CT 1 ALA N 1"; "[ atoms ]"; "2 CT 1 ALA CA 2"]%string in
  header_lines 1 "[ atoms ]" (Py.readlines topology_file) = [1; 3]
  /\ dict_get (get_context_from_topology topology_file) "[ atoms ]" = Some 3
  /\ dict_get (get_context_from_topology topology_file) "[ atoms ]" <> Some 1.
Proof. vm_compute. repeat split; congruence. Qed.

(** C1 (amended): for each of the headers [[ atoms ]], [[ bonds ]],
    [[ pairs ]] and [[ angles ]] the index holds the line number of the LAST
    occurrence of the header (every occurrence overwrites the entry), and no
    entry when the header does not occur. *)
Theorem C1_last_occurrence_recorded (topology_file h : string) :
  In h plain_sections ->
  dict_get (get_context_from_topology topology_file) h
  = last (header_lines 1 h (Py.readlines topology_file)).
Proof.
  intros Hin. unfold get_context_from_topology, index_sections.
  rewrite (index_loop_plain h Hin). by case_match.
Qed.

Lemma C1_last_occurrence_recorded_witness :
  dict_get (get_context_from_topology
              (Py.unlines ["[ bonds ]"; "1 2 1"; " [ Bonds ] "; "2 3 1"]%string))
           "[ bonds ]"
  = Some 3.
Proof.
  rewrite (C1_last_occurrence_recorded _ "[ bonds ]");
    [reflexivity | simpl; auto].
Defined.

(** C2: the first occurrence of [[ dihedrals ]] (trimmed, compared without
    case) is recorded under the proper-dihedrals entry, the second under the
    improper-dihedrals entry, and a third or later occurrence leaves the whole
    index, hence both entries, unchanged. *)
Theorem C2_dihedral_occurrences (file : list string) :
  let occ := header_lines 1 "[ dihedrals ]" file in
  dict_get (index_sections file) "[ proper dihedrals ]" = occ !! 0%nat
  /\ dict_get (index_sections file) "[ improper dihedrals ]" = occ !! 1%nat
  /\ forall line,
       is_header line "[ dihedrals ]" = true -> (2 <= length occ)%nat ->
       index_sections (file ++ [line]) = index_sections file.
Proof.
  intros occ. unfold index_sections. split; [|split].
  - change "[ proper dihedrals ]"%string with (dihedral_key 1).
    rewrite (index_loop_dihedral 1 (or_introl eq_refl))
      by (vm_compute; discriminate).
    change (count_of (section_counts index_init) "[ dihedrals ]") with 0.
    unfold nth_occurrence. change (Z.to_nat (1 - 1 - 0)) with 0%nat.
    simpl. fold occ. by destruct (occ !! 0%nat).
  - change "[ improper dihedrals ]"%string with (dihedral_key 2).
    rewrite (index_loop_dihedral 2 (or_intror eq_refl))
      by (vm_compute; discriminate).
    change (count_of (section_counts index_init) "[ dihedrals ]") with 0.
    unfold nth_occurrence. change (Z.to_nat (2 - 1 - 0)) with 1%nat.
    simpl. fold occ. by destruct (occ !! 1%nat).
  - intros line Hh Hocc. rewrite index_loop_app. simpl.
    rewrite (visit_line_hit _ _ _ "[ dihedrals ]") by (simpl; auto 10).
    apply visit_hit_dihedral_late.
    rewrite index_loop_count by (simpl; auto 10).
    fold occ.
    change (count_of (section_counts index_init) "[ dihedrals ]") with 0. lia.
Qed.

Lemma C2_dihedral_occurrences_witness :
  let file := ["[ dihedrals ]"; "1 2 3 4 9"; "[ Dihedrals ]"; "1 2 3 4 2"]%string in
  index_sections (file ++ ["  [ DIHEDRALS ]  "%string]) = index_sections file.
Proof.
  intros file.
  apply (C2_dihedral_occurrences file); [reflexivity | simpl; lia].
Defined.

(** ** The atom table builder *)

Lemma lt_end_mono n n' e : n <= n' -> lt_end n e = false -> lt_end n' e = false.
Proof. destruct e; simpl; [|done]. lia. Qed.

Lemma numbered_ge i file p : In p (numbered i file) -> i <= fst p.
Proof.
  revert i. induction file as [|line rest IH]; intros i; simpl; [done|].
  intros [<-|Hin]; simpl; [lia|]. apply IH in Hin. lia.
Qed.

Lemma filter_nil_iff {A} (f : A -> bool) l :
  (forall x, In x l -> f x = false) -> List.filter f l = [].
Proof.
  induction l as [|x l IH]; simpl; [done|]. intros H.
  rewrite (H x) by auto. auto.
Qed.

Lemma filter_ext_in' {A} (f g : A -> bool) l :
  (forall x, In x l -> f x = g x) -> List.filter f l = List.filter g l.
Proof.
  induction l as [|x l IH]; simpl; [done|]. intros H.
  rewrite (H x), IH by auto. done.
Qed.

(** The loop reads exactly the lines numbered below [atoms_end]. *)
Lemma atoms_loop_span atoms_end file :
  forall line_num atom_info,
    atoms_loop atoms_end line_num file atom_info
    = parse_rows
        (data_lines
           (map snd (List.filter (fun p => lt_end (fst p) atoms_end)
                                 (numbered line_num file))))
        atom_info.
Proof.
  induction file as [|line rest IH]; intros line_num atom_info; [done|].
  cbn [atoms_loop numbered List.filter fst].
  destruct (lt_end line_num atoms_end) eqn:Hlt; cbn [negb].
  - cbn [map snd]. unfold data_lines. cbn [map List.filter].
    destruct (is_skipped (Py.strip line)); cbn [negb parse_rows].
    + apply IH.
    + destruct (parse_atom_line (Py.strip line) atom_info); simpl; [apply IH|done].
  - rewrite filter_nil_iff; [done|].
    intros p Hp%numbered_ge. eapply lt_end_mono; [|done]. lia.
Qed.

Lemma skip_lines_span atoms_end n :
  forall file i,
    match skip_lines n file with
    | Some file' =>
        List.filter (fun p => (i + Z.of_nat n - 1 <? fst p) && lt_end (fst p) atoms_end)
                    (numbered i file)
        = List.filter (fun p => lt_end (fst p) atoms_end)
                      (numbered (i + Z.of_nat n) file')
    | None =>
        List.filter (fun p => (i + Z.of_nat n - 1 <? fst p) && lt_end (fst p) atoms_end)
                    (numbered i file) = []
    end.
Proof.
  induction n as [|n IH]; intros file i.
  - cbn [skip_lines]. replace (i + Z.of_nat 0) with i by lia.
    apply filter_ext_in'. intros p Hp%numbered_ge.
    destruct (Z.ltb_spec (i - 1) (fst p)); [done|lia].
  - destruct file as [|line rest]; cbn [skip_lines]; [done|].
    cbn [numbered List.filter fst].
    destruct (Z.ltb_spec (i + Z.of_nat (S n) - 1) i); [lia|]. cbn [andb].
    specialize (IH rest (i + 1)).
    replace (i + 1 + Z.of_nat n - 1) with (i + Z.of_nat (S n) - 1) in IH by lia.
    replace (i + 1 + Z.of_nat n) with (i + Z.of_nat (S n)) in IH by lia.
    exact IH.
Qed.

(** The table is the one read from the data lines strictly between the start
    of [[ atoms ]] and the end found by [find_atoms_end]; an exception on the
    way gives the empty table. *)
Lemma extract_atom_names_span topology_file section_lines atoms_start :
  dict_get section_lines "[ atoms ]" = Some atoms_start ->
  0 <= atoms_start ->
  extract_atom_names topology_file section_lines
  = default ∅
      (parse_rows
         (data_lines
            (lines_between (Py.readlines topology_file) atoms_start
                           (find_atoms_end section_lines atoms_start)))
         ∅).
Proof.
  intros Hget Hpos. unfold extract_atom_names, extract_atom_names_try.
  rewrite Hget. unfold lines_between.
  set (atoms_end := find_atoms_end section_lines atoms_start).
  pose proof (skip_lines_span atoms_end (Z.to_nat atoms_start)
                (Py.readlines topology_file) 1) as Hskip.
  replace (1 + Z.of_nat (Z.to_nat atoms_start) - 1) with atoms_start in Hskip by lia.
  replace (1 + Z.of_nat (Z.to_nat atoms_start)) with (atoms_start + 1) in Hskip by lia.
  destruct (skip_lines (Z.to_nat atoms_start) (Py.readlines topology_file))
    as [file'|]; simpl; rewrite Hskip.
  - by rewrite atoms_loop_span.
  - done.
Qed.

Lemma dict_wf_get {V} (d : dict V) k v :
  dict_wf d -> In (k, v) d -> dict_get d k = Some v.
Proof.
  unfold dict_wf. induction d as [|[k0 v0] d IH]; simpl; [done|].
  intros Hnd [Heq|Hin].
  - injection Heq as -> ->. by rewrite String.eqb_refl.
  - apply NoDup_cons in Hnd as [Hk0 Hnd].
    destruct (String.eqb_spec k0 k) as [->|]; [|auto].
    destruct Hk0. apply list_elem_of_In, in_map_iff. by exists (k, v).
Qed.

Lemma find_atoms_end_fold atoms_start section_lines :
  forall acc,
    (forall a, acc = Some a -> atoms_start < a) ->
    match fold_left (atoms_end_step atoms_start) section_lines acc with
    | Some e =>
        atoms_start < e
        /\ (acc = Some e \/ exists k, In (k, e) section_lines)
        /\ (forall a, acc = Some a -> e <= a)
        /\ (forall k v, In (k, v) section_lines -> atoms_start < v -> e <= v)
    | None =>
        acc = None /\ forall k v, In (k, v) section_lines -> v <= atoms_start
    end.
Proof.
  induction section_lines as [|[k0 line] rest IH]; intros acc Hacc;
    cbn [fold_left atoms_end_step].
  { destruct acc as [a|]; [|by split].
    split; [by apply Hacc|]. split; [by left|]. split.
    - intros a' [= <-]. lia.
    - intros ? ? []. }
  set (acc' := if (line >? atoms_start) && lt_end line acc then Some line else acc).
  assert (Hacc' : forall a, acc' = Some a -> atoms_start < a).
  { subst acc'. intros a.
    destruct ((line >? atoms_start) && lt_end line acc) eqn:E; [|by auto].
    intros [= <-]. apply andb_prop in E as [E _]. lia. }
  specialize (IH acc' Hacc').
  assert (Hcase : (line >? atoms_start) && lt_end line acc = true /\ acc' = Some line
                  \/ (line >? atoms_start) && lt_end line acc = false /\ acc' = acc).
  { subst acc'. destruct ((line >? atoms_start) && lt_end line acc); auto. }
  clearbody acc'.
  destruct (fold_left (atoms_end_step atoms_start) rest acc') as [e|].
  - destruct IH as (He & Hsrc & Hle & Hmin). split; [done|].
    destruct Hcase as [[Hc Heq]|[Hc Heq]].
    + apply andb_prop in Hc as [Hgt Hlt].
      pose proof (Hle line Heq) as Hel.
      split; [|split].
      * right. destruct Hsrc as [Hs|[k Hk]].
        -- rewrite Heq in Hs. injection Hs as <-. exists k0. by left.
        -- exists k. by right.
      * intros a ->. simpl in Hlt. lia.
      * intros k v [[= <- <-]|Hin] Hv; [done|]. by eapply Hmin.
    + subst acc'. split; [|split].
      * destruct Hsrc as [Hs|[k Hk]]; [by left|].
        right. exists k. by right.
      * done.
      * intros k v [[= <- <-]|Hin] Hv; [|by eapply Hmin].
        apply andb_false_iff in Hc as [Hc|Hc]; [lia|].
        destruct acc as [a|]; simpl in Hc; [|done].
        specialize (Hle a eq_refl). lia.
  - destruct IH as (Hnone & Hall).
    destruct Hcase as [[_ Heq]|[Hc Heq]]; [congruence|].
    assert (acc = None) as -> by congruence. split; [done|].
    intros k v [[= <- <-]|Hin]; [|by eapply Hall].
    simpl in Hc. rewrite andb_true_r in Hc. lia.
Qed.

Lemma find_atoms_end_min section_lines atoms_start :
  dict_wf section_lines ->
  dict_get section_lines "[ atoms ]" = Some atoms_start ->
  is_min_above section_lines atoms_start
               (find_atoms_end section_lines atoms_start).
Proof.
  intros Hwf Hget. unfold find_atoms_end, is_min_above.
  pose proof (find_atoms_end_fold atoms_start section_lines None) as H.
  destruct (fold_left _ section_lines None) as [e|].
  - destruct H as (He & Hsrc & _ & Hmin); [done|].
    destruct Hsrc as [|[k Hk]]; [done|].
    split; [|split; [done|]].
    + exists k. split; [|by apply dict_wf_get].
      intros ->. apply (dict_wf_get _ _ _ Hwf) in Hk. rewrite Hget in Hk.
      injection Hk as ->. lia.
    + intros k' v _ Hk' Hv. eapply Hmin; [|done]. by eapply dict_get_In.
  - destruct H as [_ Hall]; [done|].
    intros k v _ Hk. eapply Hall. by eapply dict_get_In.
Qed.

Lemma parse_atom_line_raises row atom_info :
  (5 <=? length (Py.split row))%nat = true ->
  int_token (Py.split row) 0 = None ->
  parse_atom_line row atom_info = None.
Proof.
  intros Hlen Hint. unfold parse_atom_line. rewrite Hlen.
  unfold int_token in Hint.
  destruct (Py.split row !! 0%nat) as [t0|]; simpl in *; [|done].
  by rewrite Hint.
Qed.

Lemma parse_rows_raises rows row :
  In row rows ->
  (forall atom_info, parse_atom_line row atom_info = None) ->
  forall atom_info, parse_rows rows atom_info = None.
Proof.
  intros Hin Hbad. induction rows as [|r rest IH]; intros atom_info; [done|].
  simpl. destruct Hin as [->|Hin].
  - by rewrite Hbad.
  - destruct (parse_atom_line r atom_info); simpl; auto.
Qed.

(** C8: with [[ atoms ]] absent the table is empty; otherwise the end of the
    span is the least start line above the start of [[ atoms ]] among the
    other sections (end of file when there is none), and the table is read
    from exactly the physical lines strictly between start and end, blank
    lines and lines starting with [;] left out. *)
Theorem C8_atoms_span (topology_file : string) (section_lines : dict Z) :
  dict_wf section_lines ->
  (dict_get section_lines "[ atoms ]" = None ->
   extract_atom_names topology_file section_lines = ∅)
  /\ (forall atoms_start,
        dict_get section_lines "[ atoms ]" = Some atoms_start ->
        0 <= atoms_start ->
        let atoms_end := find_atoms_end section_lines atoms_start in
        is_min_above section_lines atoms_start atoms_end
        /\ extract_atom_names topology_file section_lines
           = default ∅
               (parse_rows
                  (data_lines
                     (lines_between (Py.readlines topology_file)
                                    atoms_start atoms_end))
                  ∅)).
Proof.
  intros Hwf. split.
  - intros Hnone. unfold extract_atom_names, extract_atom_names_try.
    by rewrite Hnone.
  - intros atoms_start Hget Hpos. split.
    + by apply find_atoms_end_min.
    + by apply extract_atom_names_span.
Qed.

Lemma C8_atoms_span_witness :
  let topology_file :=
    Py.unlines ["; topology"; "[ atoms ]"; "; nr type resnr residue atom";
                "1 NH3 1 ALA N 1"; ""; "2 CT1 1 ALA CA 2"; "[ bonds ]";
                "1 2 1"; "[ angles ]"]%string in
  let section_lines := get_context_from_topology topology_file in
  dict_wf section_lines
  /\ dict_get section_lines "[ atoms ]" = Some 2
  /\ find_atoms_end section_lines 2 = Some 7
  /\ data_lines (lines_between (Py.readlines topology_file) 2 (Some 7))
     = ["1 NH3 1 ALA N 1"; "2 CT1 1 ALA CA 2"]%string
  /\ extract_atom_names topology_file section_lines !! 2
     = Some (mk_atom_info "CA" "CT1" "1" "ALA").
Proof.
  intros topology_file section_lines.
  assert (Hwf : dict_wf section_lines).
  { unfold dict_wf. apply (bool_decide_unpack _). vm_compute. exact I. }
  split; [exact Hwf|]. split; [reflexivity|]. split; [reflexivity|].
  split; [reflexivity|].
  destruct (C8_atoms_span topology_file section_lines Hwf) as [_ H].
  destruct (H 2 eq_refl ltac:(lia)) as [_ ->].
  vm_compute. reflexivity.
Defined.

(** C3 as the specification states it fails: one row with a non-numeric
    index among well-formed rows empties the whole table. *)
Lemma C3_malformed_row_counterexample :
  let well_formed := ["[ atoms ]"; "1 NH3 1 ALA N 1"; "2 CT1 1 ALA CA 2"]%string in
  let with_bad_row :=
    ["[ atoms ]"; "1 NH3 1 ALA N 1"; "x HB 1 ALA HA 1"; "2 CT1 1 ALA CA 2"]%string in
  let table ls :=
    extract_atom_names (Py.unlines ls) (get_context_from_topology (Py.unlines ls)) in
  length (Py.split "x HB 1 ALA HA 1") = 6%nat
  /\ Py.int "x" = None
  /\ table well_formed !! 1 = Some (mk_atom_info "N" "NH3" "1" "ALA")
  /\ table with_bad_row !! 1 = None
  /\ table with_bad_row <> table well_formed.
Proof.
  intros well_formed with_bad_row table.
  assert (H1 : table well_formed !! 1 = Some (mk_atom_info "N" "NH3" "1" "ALA"))
    by (vm_compute; reflexivity).
  assert (H2 : table with_bad_row !! 1 = None) by (vm_compute; reflexivity).
  split; [reflexivity|]. split; [reflexivity|].
  split; [exact H1|]. split; [exact H2|].
  intros Heq. rewrite Heq, H1 in H2. discriminate.
Qed.

(** C3 (amended): a data line of the Atoms span with at least 5 tokens whose
    first token does not parse as an integer makes [extract_atom_names]
    return the empty table: the call does not fail, and every entry is
    dropped. *)
Theorem C3_malformed_row_empties_table
    (topology_file : string) (section_lines : dict Z) (atoms_start : Z)
    (line : string) :
  dict_get section_lines "[ atoms ]" = Some atoms_start ->
  0 <= atoms_start ->
  In line (lines_between (Py.readlines topology_file) atoms_start
                         (find_atoms_end section_lines atoms_start)) ->
  is_skipped (Py.strip line) = false ->
  (5 <= length (Py.split (Py.strip line)))%nat ->
  int_token (Py.split (Py.strip line)) 0 = None ->
  extract_atom_names topology_file section_lines = ∅.
Proof.
  intros Hget Hpos Hin Hskip Hlen Hint.
  rewrite (extract_atom_names_span _ _ _ Hget Hpos).
  rewrite (parse_rows_raises _ (Py.strip line)); [done| |].
  - unfold data_lines. apply filter_In. split.
    + by apply in_map.
    + by rewrite Hskip.
  - intros atom_info. apply parse_atom_line_raises; [|done].
    by apply Nat.leb_le.
Qed.

Lemma C3_malformed_row_empties_table_witness :
  let topology_file :=
    Py.unlines ["[ atoms ]"; "1 NH3 1 ALA N 1"; "x HB 1 ALA HA 1";
                "2 CT1 1 ALA CA 2"; "[ bonds ]"; "1 2 1"]%string in
  extract_atom_names topology_file (get_context_from_topology topology_file) = ∅.
Proof.
  intros topology_file.
  apply (C3_malformed_row_empties_table topology_file _ 1
           (String.append "x HB 1 ALA HA 1" (String Py.nl EmptyString))).
  - reflexivity.
  - lia.
  - vm_compute. right. left. reflexivity.
  - reflexivity.
  - vm_compute. lia.
  - reflexivity.
Defined.

(** ** The context correlator *)

Lemma resolve_fold atom_info atoms :
  forall r,
    fold_left (resolve_atom atom_info) atoms r
    = mk_resolved (atom_name_list r ++ map (name_of atom_info) atoms)
                  (residue_info_list r ++ map (residue_of atom_info) atoms)
                  (atom_type_list r ++ map (type_of atom_info) atoms).
Proof.
  induction atoms as [|atom rest IH]; intros r; simpl.
  - rewrite !app_nil_r. by destruct r.
  - rewrite IH. unfold resolve_atom, name_of, residue_of, type_of.
    destruct (atom_info !! atom); simpl; by rewrite <- !app_assoc.
Qed.

Lemma resolve_atoms_spec atom_info atoms :
  resolve_atoms atom_info atoms
  = if dict_truthy atom_info
    then mk_resolved (map (name_of (default ∅ atom_info)) atoms)
                     (map (residue_of (default ∅ atom_info)) atoms)
                     (map (type_of (default ∅ atom_info)) atoms)
    else mk_resolved [] [] [].
Proof.
  unfold resolve_atoms. destruct (dict_truthy atom_info); [|done].
  by rewrite resolve_fold.
Qed.

(** The tuple returned is either the empty one or the extracted atoms with
    their resolution. *)
Lemma identify_cases error section_lines topology_file atom_info :
  let result :=
    identify_atoms_from_context error section_lines topology_file atom_info in
  snd result = no_correlation
  \/ exists atoms,
       snd result
       = (atoms, atom_name_list (resolve_atoms atom_info atoms),
          residue_info_list (resolve_atoms atom_info atoms),
          atom_type_list (resolve_atoms atom_info atoms)).
Proof.
  unfold identify_atoms_from_context.
  repeat case_match; simpl; eauto.
Qed.

(** C4 as the specification states it fails: with an empty atom table the
    atom list [5; 7; 9] comes with empty name, residue and type lists, not
    with placeholders. *)
Lemma C4_empty_table_counterexample :
  let error := mk_error 1 3 "No default U-B types" None None None None None in
  let topology_file := Py.unlines ["[ angles ]"; "1 2 3 5"; "5  7  9  3"]%string in
  let section_lines := get_context_from_topology topology_file in
  snd (identify_atoms_from_context error section_lines topology_file (Some ∅))
  = ([5; 7; 9], [], [], []).
Proof. vm_compute. reflexivity. Qed.

(** C4 (amended): when the atom table is non-empty the name, residue and
    type lists have the length of the atom list, with the stored name, the
    stored residue name followed by the residue number and the stored type
    for an index in the table, and [Unknown-<index>], [Unknown], [Unknown]
    for an index that is not; when the table is empty or not given the three
    lists are empty. *)
Theorem C4_resolution
    (error error' : ErrorRecord) (section_lines : dict Z)
    (topology_file : string) (atom_info : option (gmap Z AtomInfo))
    (atoms : list Z) (names residue_infos types : list string) :
  identify_atoms_from_context error section_lines topology_file atom_info
  = (error', (atoms, names, residue_infos, types)) ->
  if dict_truthy atom_info then
    names = map (name_of (default ∅ atom_info)) atoms
    /\ residue_infos = map (residue_of (default ∅ atom_info)) atoms
    /\ types = map (type_of (default ∅ atom_info)) atoms
    /\ length names = length atoms
    /\ length residue_infos = length atoms
    /\ length types = length atoms
  else names = [] /\ residue_infos = [] /\ types = [].
Proof.
  intros Hid.
  pose proof (identify_cases error section_lines topology_file atom_info) as Hc.
  simpl in Hc. rewrite Hid in Hc. simpl in Hc.
  destruct Hc as [Hc|[atoms' Hc]].
  - injection Hc as -> -> -> ->. case_match; simpl; done.
  - injection Hc as -> -> -> ->. rewrite resolve_atoms_spec.
    case_match; simpl; rewrite ?length_map; done.
Qed.

Lemma C4_resolution_witness :
  let error := mk_error 1 3 "No default U-B types" None None None None None in
  let topology_file := Py.unlines ["[ angles ]"; "1 2 3 5"; "5  7  9  3"]%string in
  let section_lines := get_context_from_topology topology_file in
  let atom_info : gmap Z AtomInfo := {[ 7 := mk_atom_info "CA" "CT1" "2" "GLY" ]} in
  let names := ["Unknown-5"; "CA"; "Unknown-9"]%string in
  let residue_infos := ["Unknown"; "GLY2"; "Unknown"]%string in
  let types := ["Unknown"; "CT1"; "Unknown"]%string in
  identify_atoms_from_context error section_lines topology_file (Some atom_info)
  = (set_section error "[ angles ]", ([5; 7; 9], names, residue_infos, types))
  /\ names = map (name_of atom_info) [5; 7; 9]
  /\ residue_infos = map (residue_of atom_info) [5; 7; 9]
  /\ types = map (type_of atom_info) [5; 7; 9]
  /\ length names = 3%nat.
Proof.
  intros error topology_file section_lines atom_info names residue_infos types.
  assert (Hrun : identify_atoms_from_context error section_lines topology_file
                   (Some atom_info)
                 = (set_section error "[ angles ]",
                    ([5; 7; 9], names, residue_infos, types)))
    by (vm_compute; reflexivity).
  split; [exact Hrun|].
  pose proof (C4_resolution _ _ _ _ _ _ _ _ _ Hrun) as H.
  change (dict_truthy (Some atom_info)) with true in H. cbv iota in H.
  destruct H as (H1 & H2 & H3 & H4 & _).
  repeat split; assumption.
Defined.

Lemma is_last_section_true section_lines error_line start_line :
  is_last_section section_lines error_line start_line = true
  <-> forall k v, In (k, v) section_lines -> v <= error_line -> v <= start_line.
Proof.
  unfold is_last_section. rewrite negb_true_iff. split.
  - intros Hex k v Hin Hv.
    destruct (Z_le_gt_dec v start_line) as [|Hgt]; [done|].
    assert (existsb
              (fun '(_, next_start_line) =>
                 (next_start_line >? start_line) && (error_line >=? next_start_line))
              section_lines = true); [|congruence].
    apply existsb_exists. exists (k, v). split; [done|].
    apply andb_true_intro. split; lia.
  - intros Hall. apply not_true_is_false. intros Hex.
    apply existsb_exists in Hex as [[k v] [Hin Htest]].
    apply andb_prop in Htest as [H1 H2].
    specialize (Hall k v Hin). lia.
Qed.

Lemma find_error_section_Some section_lines error_line items s :
  find_error_section section_lines error_line items = Some s ->
  exists v, In (s, v) items /\ v <= error_line
            /\ is_last_section section_lines error_line v = true.
Proof.
  induction items as [|[k v] rest IH]; simpl; [done|].
  destruct ((error_line >=? v) && is_last_section section_lines error_line v)
    eqn:E.
  - intros [= <-]. apply andb_prop in E as [E1 E2].
    exists v. repeat split; auto. lia.
  - intros (v' & Hin & H)%IH. exists v'. split; auto.
Qed.

Lemma find_error_section_None section_lines error_line items :
  find_error_section section_lines error_line items = None ->
  forall k v, In (k, v) items ->
    (error_line >=? v) && is_last_section section_lines error_line v = false.
Proof.
  induction items as [|[k0 v0] rest IH]; simpl; [done|].
  destruct ((error_line >=? v0) && is_last_section section_lines error_line v0)
    eqn:E; [done|].
  intros Hnone k v [[= <- <-]|Hin]; eauto.
Qed.

(** No section is found only when every section starts after the error
    line. *)
Lemma find_error_section_None_all section_lines error_line :
  find_error_section section_lines error_line section_lines = None ->
  forall k v, In (k, v) section_lines -> error_line < v.
Proof.
  intros Hnone.
  assert (Hind : forall n k v, In (k, v) section_lines ->
                   (Z.to_nat (error_line - v) <= n)%nat -> error_line < v).
  { induction n as [|n IH]; intros k v Hin Hn.
    - destruct (Z_lt_le_dec error_line v) as [|Hle]; [done|].
      pose proof (find_error_section_None _ _ _ Hnone k v Hin) as Hf.
      apply andb_false_iff in Hf as [Hf|Hf]; [lia|].
      apply not_true_iff_false in Hf. destruct Hf.
      apply is_last_section_true. intros k' v' Hin' Hv'.
      destruct (Z_le_gt_dec v' v); [done|]. lia.
    - destruct (Z_lt_le_dec error_line v) as [|Hle]; [done|].
      pose proof (find_error_section_None _ _ _ Hnone k v Hin) as Hf.
      apply andb_false_iff in Hf as [Hf|Hf]; [lia|].
      apply not_true_iff_false in Hf. destruct Hf.
      apply is_last_section_true. intros k' v' Hin' Hv'.
      destruct (Z_le_gt_dec v' v); [done|].
      assert (error_line < v'); [|lia].
      apply (IH k' v' Hin'). lia. }
  intros k v Hin. by apply (Hind (Z.to_nat (error_line - v)) k v).
Qed.

Lemma find_error_section_late section_lines error_line :
  (forall k v, In (k, v) section_lines -> error_line < v) ->
  find_error_section section_lines error_line section_lines = None.
Proof.
  intros Hall.
  destruct (find_error_section section_lines error_line section_lines)
    as [s|] eqn:E; [|done].
  apply find_error_section_Some in E as (v & Hin & Hv & _).
  specialize (Hall s v Hin). lia.
Qed.

Lemma find_line_None file :
  forall i error_line,
    error_line < i \/ i + Z.of_nat (length file) <= error_line ->
    find_line i file error_line = None.
Proof.
  induction file as [|line rest IH]; intros i error_line Hout; simpl; [done|].
  destruct (Z.eqb_spec i error_line) as [->|Hne].
  - simpl in Hout. lia.
  - apply IH. simpl in Hout. lia.
Qed.

Lemma find_line_lookup file :
  forall i n line,
    file !! n = Some line ->
    find_line i file (i + Z.of_nat n) = Some (Py.strip line).
Proof.
  induction file as [|l rest IH]; intros i n line Hn; [done|].
  simpl. destruct n as [|n]; simpl in Hn.
  - injection Hn as ->. replace (i + Z.of_nat 0) with i by lia.
    by rewrite Z.eqb_refl.
  - destruct (Z.eqb_spec i (i + Z.of_nat (S n))); [lia|].
    replace (i + Z.of_nat (S n)) with (i + 1 + Z.of_nat n) by lia.
    by apply IH.
Qed.

Lemma identify_section error section_lines topology_file atom_info s :
  find_error_section section_lines (line_number error) section_lines = Some s ->
  fst (identify_atoms_from_context error section_lines topology_file atom_info)
  = set_section error s.
Proof.
  intros Hs. unfold identify_atoms_from_context. rewrite Hs.
  repeat case_match; reflexivity.
Qed.

(** C7: when every indexed section starts after the error line, or the error
    line lies beyond the last line of the topology text, the four outputs are
    empty; otherwise the section written to the record is an indexed section
    with the largest start line not above the error line. *)
Theorem C7_section_resolution
    (error : ErrorRecord) (section_lines : dict Z) (topology_file : string)
    (atom_info : option (gmap Z AtomInfo)) :
  let error_line := line_number error in
  let result :=
    identify_atoms_from_context error section_lines topology_file atom_info in
  ((forall k v, In (k, v) section_lines -> error_line < v) ->
   result = (error, no_correlation))
  /\ (Z.of_nat (length (Py.readlines topology_file)) < error_line ->
      snd result = no_correlation)
  /\ ((exists k v, In (k, v) section_lines /\ v <= error_line) ->
      exists k v,
        section (fst result) = Some k /\ In (k, v) section_lines
        /\ v <= error_line
        /\ forall k' v', In (k', v') section_lines -> v' <= error_line -> v' <= v).
Proof.
  intros error_line result. split; [|split].
  - intros Hall. subst result. unfold identify_atoms_from_context.
    fold error_line. by rewrite find_error_section_late.
  - intros Hlong. subst result. unfold identify_atoms_from_context.
    fold error_line.
    destruct (find_error_section section_lines error_line section_lines);
      [|done].
    rewrite find_line_None by lia. done.
  - intros (k0 & v0 & Hin0 & Hv0).
    destruct (find_error_section section_lines error_line section_lines)
      as [s|] eqn:E.
    + pose proof (find_error_section_Some _ _ _ _ E) as (v & Hin & Hv & Hlast).
      exists s, v. subst result.
      rewrite (identify_section _ _ _ _ s) by done.
      repeat split; auto.
      by apply is_last_section_true.
    + pose proof (find_error_section_None_all _ _ E k0 v0 Hin0). lia.
Qed.

Lemma C7_section_resolution_witness :
  let topology_file :=
    Py.unlines ["; header"; "[ bonds ]"; "1 2 1"; "[ angles ]"; "1 2 3 5"]%string in
  let section_lines := get_context_from_topology topology_file in
  let error n := mk_error 1 n "No default U-B types" None None None None None in
  identify_atoms_from_context (error 1) section_lines topology_file None
  = (error 1, no_correlation)
  /\ snd (identify_atoms_from_context (error 6) section_lines topology_file None)
     = no_correlation
  /\ exists k v,
       section (fst (identify_atoms_from_context (error 5) section_lines
                       topology_file None)) = Some k
       /\ In (k, v) section_lines /\ v <= 5
       /\ forall k' v', In (k', v') section_lines -> v' <= 5 -> v' <= v.
Proof.
  intros topology_file section_lines error. split; [|split].
  - apply (C7_section_resolution (error 1) section_lines topology_file None).
    intros k v Hin. vm_compute in Hin.
    destruct Hin as [[= <- <-]|[[= <- <-]|[]]]; simpl; lia.
  - apply (C7_section_resolution (error 6) section_lines topology_file None).
    vm_compute. reflexivity.
  - apply (C7_section_resolution (error 5) section_lines topology_file None).
    exists "[ bonds ]"%string, 2. split; [|simpl; lia].
    vm_compute. left. reflexivity.
Defined.

Lemma extract_atoms_raises s tokens n k :
  arity s = Some n -> (n <= length tokens)%nat -> (k < n)%nat ->
  int_token tokens k = None ->
  extract_atoms s tokens = None.
Proof.
  unfold arity, extract_atoms. intros Har Hlen Hk Hint.
  destruct (String.eqb s "[ bonds ]");
    [|destruct (String.eqb s "[ pairs ]");
      [|destruct (String.eqb s "[ angles ]");
        [|destruct (String.eqb s "[ proper dihedrals ]");
          [|destruct (String.eqb s "[ improper dihedrals ]");
            [|discriminate]]]]];
    injection Har as <-; simpl orb; cbv iota;
    rewrite (proj2 (Nat.leb_le _ _) Hlen);
    destruct k as [|[|[|[|k]]]]; try lia; rewrite Hint;
    repeat match goal with
           | |- context [int_token tokens ?j] => destruct (int_token tokens j)
           end;
    reflexivity.
Qed.

(** C10: the section is stored in the record before the error line is
    fetched, so when the section is resolved and then the line is missing, or
    a leading token is not a number, the call returns four empty lists with
    the record's [section] already set. *)
Theorem C10_section_set_on_failure
    (error : ErrorRecord) (section_lines : dict Z) (topology_file : string)
    (atom_info : option (gmap Z AtomInfo)) (s : string) :
  find_error_section section_lines (line_number error) section_lines = Some s ->
  (Z.of_nat (length (Py.readlines topology_file)) < line_number error
   \/ exists line n k,
        1 <= line_number error
        /\ Py.readlines topology_file !! Z.to_nat (line_number error - 1) = Some line
        /\ arity s = Some n
        /\ (n <= length (Py.split (Py.strip line)))%nat
        /\ (k < n)%nat
        /\ int_token (Py.split (Py.strip line)) k = None) ->
  let result :=
    identify_atoms_from_context error section_lines topology_file atom_info in
  result = (set_section error s, no_correlation)
  /\ section (fst result) = Some s
  /\ (section error = None -> fst result <> error).
Proof.
  intros Hs Hfail result.
  assert (Hres : result = (set_section error s, no_correlation)).
  { subst result. unfold identify_atoms_from_context. rewrite Hs.
    destruct Hfail as [Hlong|(line & n & k & Hpos & Hline & Har & Hlen & Hk & Hint)].
    - rewrite find_line_None by lia. done.
    - pose proof (find_line_lookup _ 1 _ _ Hline) as Hfl.
      replace (1 + Z.of_nat (Z.to_nat (line_number error - 1)))
        with (line_number error) in Hfl by lia.
      rewrite Hfl.
      by rewrite (extract_atoms_raises _ _ _ _ Har Hlen Hk Hint). }
  rewrite Hres. repeat split; try done.
  simpl. intros Hnone Heq. rewrite <- Heq in Hnone. discriminate.
Qed.

Lemma C10_section_set_on_failure_witness :
  let topology_file :=
    Py.unlines ["[ angles ]"; "; ai aj ak funct"; "5  x  9  3"]%string in
  let section_lines := get_context_from_topology topology_file in
  let error n := mk_error 1 n "No default U-B types" None None None None None in
  (find_error_section section_lines 3 section_lines = Some "[ angles ]"%string
   /\ int_token (Py.split "5  x  9  3") 1 = None
   /\ identify_atoms_from_context (error 3) section_lines topology_file None
      = (set_section (error 3) "[ angles ]", no_correlation))
  /\ (Z.of_nat (length (Py.readlines topology_file)) < 4
      /\ identify_atoms_from_context (error 4) section_lines topology_file None
         = (set_section (error 4) "[ angles ]", no_correlation)).
Proof.
  intros topology_file section_lines error. split.
  - split; [reflexivity|]. split; [reflexivity|].
    apply (C10_section_set_on_failure (error 3) section_lines topology_file
             None "[ angles ]"); [reflexivity|].
    right.
    exists (String.append "5  x  9  3" (String Py.nl EmptyString)), 3%nat, 1%nat.
    repeat split; try reflexivity; simpl; lia.
  - split; [vm_compute; reflexivity|].
    apply (C10_section_set_on_failure (error 4) section_lines topology_file
             None "[ angles ]"); [reflexivity|].
    left. vm_compute. reflexivity.
Defined.

(** ** The dummy parameter synthesizer *)

Lemma section_mentions_lowercase error kw :
  section_lowercase error -> Py.truthy kw = true ->
  section_mentions (section error) kw
  = match section error with
    | Some s => Py.contains kw s
    | None => false
    end.
Proof.
  intros Hlow Hkw. unfold section_mentions.
  destruct (section error) as [s|] eqn:E; [|done].
  rewrite (Hlow s E).
  destruct s; [|done]. simpl. by destruct kw.
Qed.

Lemma generate_angle_dummy_3 types :
  length types = 3%nat ->
  exists row, generate_angle_dummy types = Some row /\ Py.truthy row = true.
Proof.
  destruct types as [|t0 [|t1 [|t2 [|]]]]; try done. intros _.
  eexists. split; [reflexivity|].
  unfold Py.rjust.
  destruct (String.concat "" (repeat " "%string (8 - String.length t0)))
    as [|c r] eqn:E; simpl; [|done].
  by destruct t0.
Qed.

Lemma generate_dihedral_dummy_4 types :
  length types = 4%nat ->
  exists row, generate_dihedral_dummy types = Some row /\ Py.truthy row = true.
Proof.
  destruct types as [|t0 [|t1 [|t2 [|t3 [|]]]]]; try done. intros _.
  eexists. split; [reflexivity|].
  unfold Py.rjust.
  destruct (String.concat "" (repeat " "%string (8 - String.length t0)))
    as [|c r] eqn:E; simpl; [|done].
  by destruct t0.
Qed.

Lemma set_add_In s x y : In y (set_add s x) <-> In y s \/ y = x.
Proof.
  unfold set_add. destruct (existsb (String.eqb x) s) eqn:E.
  - apply existsb_exists in E as (x' & Hin & ->%String.eqb_eq).
    split; [auto|]. by intros [ | -> ].
  - rewrite in_app_iff. simpl. intuition.
Qed.

(** One record with atom types, by cases on the two tests and the number of
    atom types. *)
Lemma process_error_cases st error types :
  atom_types error = Some types -> types <> [] ->
  section_lowercase error ->
  process_error st error
  = if mentions_angle error then
      if (length types =? 3)%nat
      then match generate_angle_dummy types with
           | Some row => add_angle st row
           | None => skip_wrong_atom_count st
           end
      else skip_wrong_atom_count st
    else if mentions_dihedral error then
      if (length types =? 4)%nat
      then match generate_dihedral_dummy types with
           | Some row => add_dihedral st row
           | None => skip_wrong_atom_count st
           end
      else skip_wrong_atom_count st
    else skip_unknown_error st.
Proof.
  intros Hty Hne Hlow. unfold process_error, mentions_angle, mentions_dihedral.
  rewrite Hty. destruct types as [|t types']; [done|].
  rewrite !(section_mentions_lowercase error) by done.
  set (angle := _ || _ || _).
  set (dihedral := _ || _ || _).
  destruct angle.
  - destruct (Nat.eqb_spec (length (t :: types')) 3) as [E|E]; [|done].
    destruct (generate_angle_dummy_3 _ E) as (row & -> & ->). done.
  - destruct dihedral; [|done].
    destruct (Nat.eqb_spec (length (t :: types')) 4) as [E|E]; [|done].
    destruct (generate_dihedral_dummy_4 _ E) as (row & -> & ->). done.
Qed.

Lemma dict_set_In {V} (d : dict V) k v k' v' :
  In (k', v') (dict_set d k v) -> (k' = k /\ v' = v) \/ In (k', v') d.
Proof.
  induction d as [|[k0 v0] d IH]; simpl.
  - intros [[= <- <-]|[]]. by left.
  - destruct (String.eqb_spec k0 k) as [->|Hne]; simpl.
    + intros [[= <- <-]|Hin]; auto.
    + intros [Heq|Hin]; [auto|]. destruct (IH Hin); auto.
Qed.

(** Every key of the index is one of the six section names. *)
Lemma index_sections_keys file k v :
  In (k, v) (index_sections file) -> In k section_names.
Proof.
  unfold index_sections.
  assert (Hinit : forall k v, In (k, v) (section_lines index_init) ->
                              In k section_names) by (intros ? ? []).
  revert Hinit. generalize index_init, 1. revert k v.
  induction file as [|line rest IH]; intros k v st i Hst; simpl; [by apply Hst|].
  apply IH. clear IH k v.
  destruct (header_cases line) as [(h & Hin & Hh)|Hmiss];
    [|by rewrite visit_line_miss].
  rewrite (visit_line_hit _ _ _ _ Hin Hh). intros k v.
  unfold visit_hit. simpl in Hin.
  destruct Hin as [<-|[<-|[<-|[<-|[<-|[]]]]]]; simpl String.eqb; cbv iota;
    repeat case_match; simpl section_lines;
    try (intros [[-> _]|Hk]%dict_set_In; [simpl; auto 10|by eapply Hst]);
    by apply Hst.
Qed.

Lemma section_names_lowercase k : In k section_names -> Py.lower k = k.
Proof.
  simpl. intros [<-|[<-|[<-|[<-|[<-|[<-|[]]]]]]]; reflexivity.
Qed.

(** A record enriched against an index built by the indexer keeps a
    lower-case section name. *)
Lemma correlate_error_lowercase file topology_file atom_info error :
  section_lowercase error ->
  section_lowercase
    (correlate_error (index_sections file) topology_file atom_info error).
Proof.
  intros Hlow s. unfold correlate_error.
  destruct (identify_atoms_from_context _ _ _ _) as [e [[[a n] r] t]] eqn:E.
  simpl. intros Hs.
  pose proof (f_equal fst E) as Hfst. simpl in Hfst.
  destruct (find_error_section (index_sections file) (line_number error)
              (index_sections file)) as [s'|] eqn:Hf.
  - rewrite (identify_section _ _ _ _ s' Hf) in Hfst. subst e. simpl in Hs.
    injection Hs as <-.
    apply find_error_section_Some in Hf as (v & Hin & _).
    eapply section_names_lowercase, index_sections_keys, Hin.
  - unfold identify_atoms_from_context in Hfst. rewrite Hf in Hfst.
    simpl in Hfst. subst e. by apply Hlow.
Qed.

(** C6: a record with atom types is an angle when the lowercased message
    contains "no default u-b types" or "angle type" or the section name
    contains "angle"; else a dihedral when the message contains "no default
    dihedral type" or "dihedral type" or the section name contains
    "dihedral"; else it is skipped as unrecognized.  An angle with three atom
    types puts its row into the set of angle rows, leaves the dihedral rows
    alone and counts as processed; a dihedral with four atom types does the
    same for the set of dihedral rows.  In the chosen branch a number of atom
    types other than 3 (angle) or 4 (dihedral) adds one to the wrong-arity
    counter, and an unrecognized record adds one to the unrecognized counter;
    both leave the two sets of rows and the other counters as they were.  For
    the record on its own the function returns the one row under its kind,
    or no row at all. *)
Theorem C6_classification_priority
    (st : dummy_state) (error : ErrorRecord) (types : list string) :
  atom_types error = Some types -> types <> [] ->
  section_lowercase error ->
  let st' := process_error st error in
  let out := process_errors_for_dummies [error] in
  (mentions_angle error = true -> length types = 3%nat ->
   exists row,
     generate_angle_dummy types = Some row /\ st' = add_angle st row
     /\ row_added (angle_dummies st) (angle_dummies st') row
     /\ dihedral_dummies st' = dihedral_dummies st
     /\ counted_processed st st'
     /\ out = mk_dummies [row] [])
  /\ (mentions_angle error = true -> length types <> 3%nat ->
      st' = skip_wrong_atom_count st
      /\ angle_dummies st' = angle_dummies st
      /\ dihedral_dummies st' = dihedral_dummies st
      /\ counted_wrong_arity st st'
      /\ out = mk_dummies [] [])
  /\ (mentions_angle error = false -> mentions_dihedral error = true ->
      length types = 4%nat ->
      exists row,
        generate_dihedral_dummy types = Some row /\ st' = add_dihedral st row
        /\ row_added (dihedral_dummies st) (dihedral_dummies st') row
        /\ angle_dummies st' = angle_dummies st
        /\ counted_processed st st'
        /\ out = mk_dummies [] [row])
  /\ (mentions_angle error = false -> mentions_dihedral error = true ->
      length types <> 4%nat ->
      st' = skip_wrong_atom_count st
      /\ angle_dummies st' = angle_dummies st
      /\ dihedral_dummies st' = dihedral_dummies st
      /\ counted_wrong_arity st st'
      /\ out = mk_dummies [] [])
  /\ (mentions_angle error = false -> mentions_dihedral error = false ->
      st' = skip_unknown_error st
      /\ angle_dummies st' = angle_dummies st
      /\ dihedral_dummies st' = dihedral_dummies st
      /\ counted_unrecognized st st'
      /\ out = mk_dummies [] []).
Proof.
  intros Hty Hne Hlow st' out. subst st' out.
  unfold process_errors_for_dummies, process_loop. cbn [fold_left].
  rewrite (process_error_cases st error types Hty Hne Hlow).
  rewrite (process_error_cases dummy_init error types Hty Hne Hlow).
  unfold row_added, counted_processed, counted_wrong_arity,
    counted_unrecognized.
  split; [|split; [|split; [|split]]].
  - intros -> Hlen.
    destruct (generate_angle_dummy_3 _ Hlen) as (row & Hrow & _).
    exists row. apply Nat.eqb_eq in Hlen as ->. rewrite Hrow.
    cbn [add_angle angle_dummies dihedral_dummies processed_errors
           skipped_no_atom_types skipped_unknown_error
           skipped_wrong_atom_count].
    repeat split; try done; try (apply set_add_In; auto).
    all: by intros ?%set_add_In.
  - intros -> Hlen%Nat.eqb_neq. by rewrite Hlen.
  - intros -> -> Hlen.
    destruct (generate_dihedral_dummy_4 _ Hlen) as (row & Hrow & _).
    exists row. apply Nat.eqb_eq in Hlen as ->. rewrite Hrow.
    cbn [add_dihedral angle_dummies dihedral_dummies processed_errors
           skipped_no_atom_types skipped_unknown_error
           skipped_wrong_atom_count].
    repeat split; try done; try (apply set_add_In; auto).
    all: by intros ?%set_add_In.
  - intros -> -> Hlen%Nat.eqb_neq. by rewrite Hlen.
  - by intros -> ->.
Qed.

Lemma C6_classification_priority_witness :
  let error :=
    mk_error 1 12 "No default U-B types" (Some "[ angles ]"%string)
             (Some [5; 7; 9]) None None (Some ["CA"; "CB"; "CC"]%string) in
  let st := mk_dummy_state ["old row"%string] [] 4 1 2 3 in
  let st' := process_error st error in
  atom_types error = Some ["CA"; "CB"; "CC"]%string
  /\ section_lowercase error
  /\ mentions_angle error = true
  /\ exists row,
       generate_angle_dummy ["CA"; "CB"; "CC"]%string = Some row
       /\ st' = add_angle st row
       /\ row_added (angle_dummies st) (angle_dummies st') row
       /\ dihedral_dummies st' = dihedral_dummies st
       /\ counted_processed st st'
       /\ process_errors_for_dummies [error] = mk_dummies [row] [].
Proof.
  intros error st st'.
  assert (Hlow : section_lowercase error).
  { intros s Hs. injection Hs as <-. reflexivity. }
  split; [reflexivity|]. split; [exact Hlow|]. split; [reflexivity|].
  apply (C6_classification_priority st error ["CA"; "CB"; "CC"]%string);
    [reflexivity | discriminate | exact Hlow | reflexivity | reflexivity].
Defined.

(** *** The order on strings *)

Lemma leb_cons x a y b :
  String.leb (String x a) (String y b)
  = match Ascii.compare x y with
    | Lt => true
    | Eq => String.leb a b
    | Gt => false
    end.
Proof. unfold String.leb. simpl. by destruct (Ascii.compare x y). Qed.

#[global] Instance str_le_total : Total str_le.
Proof. intros a b. apply String.leb_total. Qed.

#[global] Instance str_le_antisym : AntiSymm (=) str_le.
Proof. intros a b. apply String.leb_antisym. Qed.

#[global] Instance str_le_trans : Transitive str_le.
Proof.
  unfold str_le. intros a.
  induction a as [|x a IH]; intros [|y b] [|z c]; try done.
  rewrite !leb_cons. unfold Ascii.compare.
  destruct (N.compare_spec (N_of_ascii x) (N_of_ascii y)) as [Hxy|Hxy|Hxy];
    destruct (N.compare_spec (N_of_ascii y) (N_of_ascii z)) as [Hyz|Hyz|Hyz];
    destruct (N.compare_spec (N_of_ascii x) (N_of_ascii z)) as [Hxz|Hxz|Hxz];
    try done; try lia.
  apply IH.
Qed.

(** *** Sets of rows *)

Lemma set_add_NoDup s x : NoDup s -> NoDup (set_add s x).
Proof.
  intros Hnd. unfold set_add. destruct (existsb (String.eqb x) s) eqn:E; [done|].
  apply NoDup_app. split; [done|]. split; [|apply NoDup_singleton].
  intros y Hy ->%list_elem_of_singleton.
  assert (existsb (String.eqb x) s = true); [|congruence].
  apply existsb_exists. exists x. split; [by apply list_elem_of_In|].
  apply String.eqb_refl.
Qed.

Lemma fold_set_add_In l : forall s y,
  In y (fold_left set_add l s) <-> In y s \/ In y l.
Proof.
  induction l as [|x l IH]; intros s y; simpl; [intuition|].
  rewrite IH, set_add_In. intuition.
Qed.

Lemma fold_set_add_NoDup l : forall s, NoDup s -> NoDup (fold_left set_add l s).
Proof.
  induction l as [|x l IH]; intros s Hs; simpl; [done|].
  by apply IH, set_add_NoDup.
Qed.

(** The sets after a record are the sets before with the record's own rows
    added. *)
Lemma process_error_rows st error :
  angle_dummies (process_error st error)
  = fold_left set_add (angle_rows_of error) (angle_dummies st)
  /\ dihedral_dummies (process_error st error)
     = fold_left set_add (dihedral_rows_of error) (dihedral_dummies st).
Proof.
  unfold angle_rows_of, dihedral_rows_of, process_error.
  repeat case_match; simpl; done.
Qed.

Lemma process_loop_rows errors : forall st,
  angle_dummies (fold_left process_error errors st)
  = fold_left set_add (generated_angles errors) (angle_dummies st)
  /\ dihedral_dummies (fold_left process_error errors st)
     = fold_left set_add (generated_dihedrals errors) (dihedral_dummies st).
Proof.
  unfold generated_angles, generated_dihedrals.
  induction errors as [|e errors IH]; intros st; simpl; [done|].
  destruct (IH (process_error st e)) as [-> ->].
  destruct (process_error_rows st e) as [-> ->].
  by rewrite !fold_left_app.
Qed.

(** Sorting does not depend on the order in which a set is listed. *)
Lemma sorted_same_elements l l' :
  NoDup l -> NoDup l' -> (forall x, In x l <-> In x l') ->
  sorted l = sorted l'.
Proof.
  intros Hl Hl' Hsame. unfold sorted.
  apply (StronglySorted_unique str_le).
  - apply StronglySorted_merge_sort; apply _.
  - apply StronglySorted_merge_sort; apply _.
  - rewrite !merge_sort_Permutation.
    apply NoDup_Permutation; [done|done|].
    intros x. rewrite !list_elem_of_In. apply Hsame.
Qed.

Lemma sorted_In l x : In x (sorted l) <-> In x l.
Proof.
  unfold sorted. rewrite <- !list_elem_of_In.
  by rewrite merge_sort_Permutation.
Qed.

Lemma sorted_NoDup l : NoDup l -> NoDup (sorted l).
Proof. unfold sorted. by rewrite merge_sort_Permutation. Qed.

Lemma sorted_Permutation l l' : Permutation l l' -> sorted l = sorted l'.
Proof.
  intros Hp. unfold sorted.
  apply (StronglySorted_unique str_le).
  - apply StronglySorted_merge_sort; apply _.
  - apply StronglySorted_merge_sort; apply _.
  - by rewrite !merge_sort_Permutation.
Qed.

Lemma process_loop_angles errors :
  angle_dummies (process_loop errors)
  = fold_left set_add (generated_angles errors) [].
Proof. apply (process_loop_rows errors dummy_init). Qed.

Lemma process_loop_dihedrals errors :
  dihedral_dummies (process_loop errors)
  = fold_left set_add (generated_dihedrals errors) [].
Proof. apply (process_loop_rows errors dummy_init). Qed.

Lemma sorted_fold_same l l' :
  (forall x, In x l <-> In x l') ->
  sorted (fold_left set_add l []) = sorted (fold_left set_add l' []).
Proof.
  intros Hsame. apply sorted_same_elements.
  - apply fold_set_add_NoDup. constructor.
  - apply fold_set_add_NoDup. constructor.
  - intros x. rewrite !fold_set_add_In. simpl. specialize (Hsame x). tauto.
Qed.

(** C9: both returned sequences are sorted in the order of Python strings
    and free of duplicates, they hold exactly the generated rows, they are
    the same for two record sequences that generate the same multiset of
    rows, whatever the order of the records, and they do not depend on the
    order in which the sets are listed before sorting; the result is a
    function of the record sequence alone. *)
Theorem C9_sorted_dedup_deterministic (errors : list ErrorRecord) :
  let out := process_errors_for_dummies errors in
  Sorted str_le (angles out) /\ NoDup (angles out)
  /\ Sorted str_le (dihedrals out) /\ NoDup (dihedrals out)
  /\ (forall x, In x (angles out) <-> In x (generated_angles errors))
  /\ (forall x, In x (dihedrals out) <-> In x (generated_dihedrals errors))
  /\ (forall errors',
        Permutation (generated_angles errors') (generated_angles errors) ->
        Permutation (generated_dihedrals errors') (generated_dihedrals errors) ->
        process_errors_for_dummies errors' = out)
  /\ (forall listing,
        Permutation listing (angle_dummies (process_loop errors)) ->
        sorted listing = angles out)
  /\ (forall listing,
        Permutation listing (dihedral_dummies (process_loop errors)) ->
        sorted listing = dihedrals out).
Proof.
  intros out. subst out. unfold process_errors_for_dummies. simpl.
  rewrite !process_loop_angles, !process_loop_dihedrals.
  split; [apply Sorted_merge_sort; apply _|].
  split; [apply sorted_NoDup, fold_set_add_NoDup; constructor|].
  split; [apply Sorted_merge_sort; apply _|].
  split; [apply sorted_NoDup, fold_set_add_NoDup; constructor|].
  split; [intros x; rewrite sorted_In, fold_set_add_In; simpl; tauto|].
  split; [intros x; rewrite sorted_In, fold_set_add_In; simpl; tauto|].
  split; [|split].
  - intros errors' Ha Hd.
    rewrite !process_loop_angles, !process_loop_dihedrals. f_equal.
    + apply sorted_fold_same. intros x. split; apply Permutation_in; [done|].
      by symmetry.
    + apply sorted_fold_same. intros x. split; apply Permutation_in; [done|].
      by symmetry.
  - intros listing Hp. by apply sorted_Permutation.
  - intros listing Hp. by apply sorted_Permutation.
Qed.

Lemma C9_sorted_dedup_deterministic_witness :
  let angle n types :=
    mk_error n (10 + n) "No default U-B types" (Some "[ angles ]"%string)
             None None None (Some types) in
  let dihedral n types :=
    mk_error n (20 + n) "No default Proper Dih. types"
             (Some "[ proper dihedrals ]"%string) None None None (Some types) in
  let e1 := angle 1 ["CT1"; "CA"; "NH1"]%string in
  let e2 := angle 2 ["CA"; "CB"; "CC"]%string in
  let e3 := dihedral 3 ["CT1"; "CA"; "NH1"; "H"]%string in
  let e4 := angle 4 ["CT1"; "CA"; "NH1"]%string in
  Permutation (generated_angles [e4; e3; e2; e1]) (generated_angles [e1; e2; e3; e4])
  /\ Permutation (generated_dihedrals [e4; e3; e2; e1])
                 (generated_dihedrals [e1; e2; e3; e4])
  /\ process_errors_for_dummies [e4; e3; e2; e1]
     = process_errors_for_dummies [e1; e2; e3; e4]
  /\ length (angles (process_errors_for_dummies [e1; e2; e3; e4])) = 2%nat.
Proof.
  intros angle dihedral e1 e2 e3 e4.
  assert (Ha : Permutation (generated_angles [e4; e3; e2; e1])
                           (generated_angles [e1; e2; e3; e4])).
  { apply (bool_decide_unpack _). vm_compute. exact I. }
  assert (Hd : Permutation (generated_dihedrals [e4; e3; e2; e1])
                           (generated_dihedrals [e1; e2; e3; e4])).
  { apply (bool_decide_unpack _). vm_compute. exact I. }
  split; [exact Ha|]. split; [exact Hd|]. split.
  - apply (C9_sorted_dedup_deterministic [e1; e2; e3; e4]); assumption.
  - vm_compute. reflexivity.
Defined.

(** ** The end-to-end scenario *)

Lemma find_error_section_unique section_lines error_line items s :
  (forall k v, In (k, v) items ->
     (error_line >=? v) && is_last_section section_lines error_line v = true ->
     k = s) ->
  (exists k v, In (k, v) items
     /\ (error_line >=? v) && is_last_section section_lines error_line v = true) ->
  find_error_section section_lines error_line items = Some s.
Proof.
  induction items as [|[k0 v0] rest IH]; intros Hall (k & v & Hin & Ht);
    [done|]. simpl.
  destruct ((error_line >=? v0) && is_last_section section_lines error_line v0)
    eqn:E.
  - f_equal. apply (Hall k0 v0); [by left|done].
  - apply IH.
    + intros k' v' Hin'. apply Hall. by right.
    + destruct Hin as [[= -> ->]|Hin]; [congruence|]. eauto.
Qed.

Lemma generate_angle_dummy_scenario :
  generate_angle_dummy ["CA"; "CB"; "CC"]%string = Some scenario_row.
Proof. vm_compute. reflexivity. Qed.

(** C5 as the specification states it fails: in the scenario the row is not
    the one printed in the specification; the last field is right-justified
    in ten columns after three blanks, which gives nine blanks before
    [0.00], not seven. *)
Lemma C5_row_counterexample :
  let topology_file :=
    Py.unlines ["[ atoms ]"; "5 CA 1 ALA C5 5"; "7 CB 1 ALA C7 7";
                "9 CC 1 ALA C9 9"; ""; "[ bonds ]"; "5 7 1"; "7 9 1"; "";
                "[ angles ]"; "1 2 3 5"; "5  7  9  3"]%string in
  let section_lines := get_context_from_topology topology_file in
  let atom_info := extract_atom_names topology_file section_lines in
  let error := mk_error 1 12 "No default U-B types" None None None None None in
  let error' := correlate_error section_lines topology_file atom_info error in
  dict_get section_lines "[ angles ]" = Some 10
  /\ section error' = Some "[ angles ]"%string
  /\ atom_types error' = Some ["CA"; "CB"; "CC"]%string
  /\ angles (process_errors_for_dummies [error']) = [scenario_row]
  /\ angles (process_errors_for_dummies [error']) <> [scenario_row_in_spec]
  /\ String.length scenario_row = 86%nat
  /\ String.length scenario_row_in_spec = 84%nat.
Proof.
  intros topology_file section_lines atom_info error error'.
  assert (Hrow : angles (process_errors_for_dummies [error']) = [scenario_row])
    by (vm_compute; reflexivity).
  split; [reflexivity|]. split; [reflexivity|]. split; [vm_compute; reflexivity|].
  split; [exact Hrow|]. split; [|split; reflexivity].
  rewrite Hrow. intros Heq.
  pose proof (f_equal (fun l => String.length (hd EmptyString l)) Heq) as Hlen.
  vm_compute in Hlen. discriminate.
Qed.

(** C5 (amended): with [[ angles ]] indexed at line 10 and no other section
    starting on lines 10 to 12, an error at line 12 whose topology line reads
    [5  7  9  3], and atoms 5, 7 and 9 of types CA, CB and CC, the record is
    enriched with section [[ angles ]], atoms 5, 7, 9 and atom types CA, CB,
    CC, and the synthesizer returns exactly the row [scenario_row] (nine
    blanks before the last field). *)
Theorem C5_angle_scenario
    (error : ErrorRecord) (section_lines : dict Z) (topology_file : string)
    (atom_info : gmap Z AtomInfo) (line : string) (i5 i7 i9 : AtomInfo) :
  line_number error = 12 ->
  dict_get section_lines "[ angles ]" = Some 10 ->
  (forall k v, In (k, v) section_lines -> v <= 12 ->
               v < 10 \/ (k = "[ angles ]"%string /\ v = 10)) ->
  Py.readlines topology_file !! 11%nat = Some line ->
  Py.strip line = "5  7  9  3"%string ->
  atom_info !! 5 = Some i5 -> atom_info !! 7 = Some i7 ->
  atom_info !! 9 = Some i9 ->
  type i5 = "CA"%string -> type i7 = "CB"%string -> type i9 = "CC"%string ->
  let error' := correlate_error section_lines topology_file atom_info error in
  section error' = Some "[ angles ]"%string
  /\ atoms error' = Some [5; 7; 9]
  /\ atom_types error' = Some ["CA"; "CB"; "CC"]%string
  /\ process_errors_for_dummies [error'] = mk_dummies [scenario_row] [].
Proof.
  intros Hline Hget Hsole Hlookup Hstrip H5 H7 H9 T5 T7 T9 error'.
  assert (Hsec : find_error_section section_lines 12 section_lines
                 = Some "[ angles ]"%string).
  { apply find_error_section_unique.
    - intros k v Hin [Hge Hlast]%andb_prop.
      pose proof (proj1 (is_last_section_true _ _ _) Hlast
                    "[ angles ]"%string 10 (dict_get_In _ _ _ Hget)) as Hmax.
      destruct (Hsole k v Hin) as [?|[? _]]; [lia|lia|done].
    - exists "[ angles ]"%string, 10. split; [by apply dict_get_In|].
      apply andb_true_intro. split; [done|].
      apply is_last_section_true. intros k v Hin Hv.
      destruct (Hsole k v Hin Hv) as [?|[_ ?]]; lia. }
  assert (Hfl : find_line 1 (Py.readlines topology_file) 12
                = Some "5  7  9  3"%string).
  { rewrite <- Hstrip. apply (find_line_lookup _ 1 11 _ Hlookup). }
  assert (Htruthy : dict_truthy (Some atom_info) = true).
  { simpl. apply negb_true_iff, bool_decide_eq_false. intros ->.
    by rewrite lookup_empty in H5. }
  assert (Hid : identify_atoms_from_context error section_lines topology_file
                  (Some atom_info)
                = (set_section error "[ angles ]",
                   ([5; 7; 9], map (name_of atom_info) [5; 7; 9],
                    map (residue_of atom_info) [5; 7; 9],
                    ["CA"; "CB"; "CC"]%string))).
  { unfold identify_atoms_from_context. rewrite Hline, Hsec, Hfl.
    change (extract_atoms "[ angles ]" (Py.split "5  7  9  3"))
      with (Some [5; 7; 9]).
    cbv iota. rewrite resolve_atoms_spec, Htruthy. simpl.
    unfold type_of. by rewrite H5, H7, H9, T5, T7, T9. }
  subst error'. unfold correlate_error. rewrite Hid. simpl.
  split; [done|]. split; [done|]. split; [done|].
  unfold process_errors_for_dummies, process_loop. simpl fold_left.
  unfold process_error. cbn [atom_types section error_msg].
  change (section_mentions (Some "[ angles ]"%string) "angle") with true.
  rewrite !orb_true_r.
  change (length ["CA"; "CB"; "CC"]%string =? 3)%nat with true. cbv iota.
  rewrite generate_angle_dummy_scenario.
  reflexivity.
Qed.

Lemma C5_angle_scenario_witness :
  let topology_file :=
    Py.unlines ["[ atoms ]"; "5 CA 1 ALA C5 5"; "7 CB 1 ALA C7 7";
                "9 CC 1 ALA C9 9"; ""; "[ bonds ]"; "5 7 1"; "7 9 1"; "";
                "[ angles ]"; "1 2 3 5"; "5  7  9  3"]%string in
  let section_lines := get_context_from_topology topology_file in
  let atom_info := extract_atom_names topology_file section_lines in
  let error := mk_error 1 12 "No default U-B types" None None None None None in
  dict_get section_lines "[ angles ]" = Some 10
  /\ process_errors_for_dummies
       [correlate_error section_lines topology_file atom_info error]
     = mk_dummies [scenario_row] [].
Proof.
  intros topology_file section_lines atom_info error.
  split; [reflexivity|].
  apply (C5_angle_scenario error section_lines topology_file atom_info
           (String.append "5  7  9  3" (String Py.nl EmptyString))
           (mk_atom_info "C5" "CA" "1" "ALA") (mk_atom_info "C7" "CB" "1" "ALA")
           (mk_atom_info "C9" "CC" "1" "ALA")).
  - reflexivity.
  - reflexivity.
  - intros k v Hin Hv. vm_compute in Hin.
    destruct Hin as [[= <- <-]|[[= <- <-]|[[= <- <-]|[]]]]; simpl; auto; lia.
  - reflexivity.
  - reflexivity.
  - vm_compute. reflexivity.
  - vm_compute. reflexivity.
  - vm_compute. reflexivity.
  - reflexivity.
  - reflexivity.
  - reflexivity.
Defined.

(** * Further properties of the code *)

(** ** Invariants of the section index *)

Lemma dict_set_wf {V} (d : dict V) k v : dict_wf d -> dict_wf (dict_set d k v).
Proof.
  unfold dict_wf. induction d as [|[k0 v0] d IH]; simpl; intros Hnd.
  - apply NoDup_singleton.
  - apply NoDup_cons in Hnd as [Hk0 Hnd].
    destruct (String.eqb_spec k0 k) as [->|Hne]; simpl.
    + by apply NoDup_cons.
    + apply NoDup_cons. split; [|by apply IH].
      intros Hin. apply list_elem_of_In, in_map_iff in Hin as [[k1 v1] [Hk Hin]].
      simpl in Hk. subst k1. apply dict_set_In in Hin as [[? _]|Hin]; [done|].
      apply Hk0, list_elem_of_In, in_map_iff. by exists (k0, v1).
Qed.

Lemma visit_hit_wf i st h :
  dict_wf (section_lines st) -> dict_wf (section_lines (visit_hit i st h)).
Proof.
  intros Hwf. unfold visit_hit.
  repeat case_match; simpl; try done; by apply dict_set_wf.
Qed.

Lemma index_loop_wf file : forall i st,
  dict_wf (section_lines st) -> dict_wf (section_lines (index_loop i file st)).
Proof.
  induction file as [|line rest IH]; intros i st Hwf; simpl; [done|].
  apply IH. destruct (header_cases line) as [(h & Hin & Hh)|Hmiss].
  - rewrite (visit_line_hit _ _ _ _ Hin Hh). by apply visit_hit_wf.
  - by rewrite visit_line_miss.
Qed.

Lemma index_sections_wf file : dict_wf (index_sections file).
Proof. apply index_loop_wf. apply NoDup_nil_2. Qed.

Lemma header_lines_In h file : forall i v,
  In v (header_lines i h file) ->
  i <= v /\ exists line, file !! Z.to_nat (v - i) = Some line
                         /\ is_header line h = true.
Proof.
  induction file as [|line rest IH]; intros i v; simpl; [done|].
  assert (Hrest : In v (header_lines (i + 1) h rest) ->
                  i <= v /\ exists l, (line :: rest) !! Z.to_nat (v - i) = Some l
                                      /\ is_header l h = true).
  { intros (Hle & l & Hl & Hh)%IH. split; [lia|]. exists l. split; [|done].
    replace (Z.to_nat (v - i)) with (S (Z.to_nat (v - (i + 1)))) by lia. done. }
  destruct (is_header line h) eqn:E; [|done].
  intros [<-|Hin]; [|auto]. split; [lia|]. exists line.
  by replace (Z.to_nat (i - i)) with 0%nat by lia.
Qed.

Lemma header_lines_sorted h file : forall i,
  StronglySorted Z.lt (header_lines i h file).
Proof.
  induction file as [|line rest IH]; intros i; simpl; [constructor|].
  destruct (is_header line h); [|done].
  constructor; [done|]. apply Forall_forall. intros v Hv%list_elem_of_In.
  apply header_lines_In in Hv as [Hv _]. lia.
Qed.

Lemma header_lines_nil h file i :
  header_lines i h file = [] <-> forall line, In line file -> is_header line h = false.
Proof.
  revert i. induction file as [|line rest IH]; intros i; simpl; [done|].
  destruct (is_header line h) eqn:E.
  - split; [done|]. intros H. specialize (H line (or_introl eq_refl)). congruence.
  - rewrite IH. split.
    + intros H l [<-|Hin]; auto.
    + intros H l Hin. apply H. by right.
Qed.

(** What the index holds under each of the six keys. *)
Lemma index_sections_get file k :
  In k section_names ->
  dict_get (index_sections file) k
  = if String.eqb k "[ proper dihedrals ]" then
      header_lines 1 "[ dihedrals ]" file !! 0%nat
    else if String.eqb k "[ improper dihedrals ]" then
      header_lines 1 "[ dihedrals ]" file !! 1%nat
    else last (header_lines 1 k file).
Proof.
  intros Hk. unfold index_sections. simpl in Hk.
  destruct Hk as [<-|[<-|[<-|[<-|[<-|[<-|[]]]]]]]; simpl String.eqb; cbv iota.
  1-4: rewrite index_loop_plain by (simpl; auto); by case_match.
  - change "[ proper dihedrals ]"%string with (dihedral_key 1).
    rewrite (index_loop_dihedral 1 (or_introl eq_refl))
      by (vm_compute; discriminate).
    change (count_of (section_counts index_init) "[ dihedrals ]") with 0.
    unfold nth_occurrence. change (Z.to_nat (1 - 1 - 0)) with 0%nat.
    simpl. by case_match.
  - change "[ improper dihedrals ]"%string with (dihedral_key 2).
    rewrite (index_loop_dihedral 2 (or_intror eq_refl))
      by (vm_compute; discriminate).
    change (count_of (section_counts index_init) "[ dihedrals ]") with 0.
    unfold nth_occurrence. change (Z.to_nat (2 - 1 - 0)) with 1%nat.
    simpl. by case_match.
Qed.

Lemma last_In {A} (l : list A) x : last l = Some x -> In x l.
Proof. intros H%last_Some_elem_of. by apply list_elem_of_In. Qed.

(** An entry of the index is a line number of an occurrence of its header. *)
Lemma index_sections_entry file k v :
  In (k, v) (index_sections file) ->
  In k section_names /\ In v (header_lines 1 (header_of_key k) file).
Proof.
  intros Hin. pose proof (index_sections_keys _ _ _ Hin) as Hk.
  split; [done|].
  apply (dict_wf_get _ _ _ (index_sections_wf file)) in Hin.
  rewrite (index_sections_get _ _ Hk) in Hin. unfold header_of_key.
  destruct (String.eqb k "[ proper dihedrals ]") eqn:E1; simpl.
  { apply list_elem_of_In. by eapply list_elem_of_lookup_2. }
  destruct (String.eqb k "[ improper dihedrals ]") eqn:E2; simpl.
  { apply list_elem_of_In. by eapply list_elem_of_lookup_2. }
  by apply last_In.
Qed.

(** X1: every entry of the index is keyed by one of the six section names and
    holds the number of a line of the file that is an occurrence of the
    header the key stands for. *)
Theorem index_entries_point_at_headers (file : list string) (k : string) (v : Z) :
  In (k, v) (index_sections file) ->
  In k section_names
  /\ 1 <= v <= Z.of_nat (length file)
  /\ exists line, file !! Z.to_nat (v - 1) = Some line
                  /\ is_header line (header_of_key k) = true.
Proof.
  intros (Hk & Hv)%index_sections_entry. split; [done|].
  apply header_lines_In in Hv as (Hle & line & Hline & Hh).
  split; [|by exists line].
  apply lookup_lt_Some in Hline. lia.
Qed.

Lemma index_entries_point_at_headers_witness :
  let file := ["; topology"; " [ Atoms ] "; "1 CT 1 ALA N 1"; "[ dihedrals ]";
               "[ dihedrals ]"]%string in
  In ("[ improper dihedrals ]"%string, 5) (index_sections file)
  /\ 1 <= 5 <= Z.of_nat (length file)
  /\ exists line, file !! Z.to_nat (5 - 1) = Some line
                  /\ is_header line (header_of_key "[ improper dihedrals ]") = true.
Proof.
  intros file.
  assert (Hin : In ("[ improper dihedrals ]"%string, 5) (index_sections file))
    by (vm_compute; auto).
  split; [exact Hin|].
  apply (index_entries_point_at_headers file _ _ Hin).
Defined.

Lemma NoDup_values {V} (d : dict V) :
  (forall k1 k2 v, In (k1, v) d -> In (k2, v) d -> k1 = k2) ->
  dict_wf d -> NoDup (map snd d).
Proof.
  unfold dict_wf. induction d as [|[k0 v0] d IH]; simpl; intros Hinj Hnd.
  - apply NoDup_nil_2.
  - apply NoDup_cons in Hnd as [Hk0 Hnd]. apply NoDup_cons. split.
    + intros Hin. apply list_elem_of_In, in_map_iff in Hin as [[k1 v1] [Hv Hin]].
      simpl in Hv. subst v1.
      assert (k0 = k1) as <- by (eapply Hinj; [by left|by right]).
      apply Hk0, list_elem_of_In, in_map_iff. by exists (k0, v0).
    + apply IH; [|done]. intros k1 k2 v H1 H2. eapply Hinj; by right.
Qed.

Lemma header_of_key_section k : In k section_names -> In (header_of_key k) sections.
Proof.
  simpl. intros [<-|[<-|[<-|[<-|[<-|[<-|[]]]]]]]; vm_compute; auto 10.
Qed.

Lemma header_of_key_inj k1 k2 :
  In k1 section_names -> In k2 section_names ->
  header_of_key k1 = header_of_key k2 ->
  k1 = k2 \/ (header_of_key k1 = "[ dihedrals ]"%string
              /\ header_of_key k2 = "[ dihedrals ]"%string).
Proof.
  simpl. intros [<-|[<-|[<-|[<-|[<-|[<-|[]]]]]]] [<-|[<-|[<-|[<-|[<-|[<-|[]]]]]]];
    vm_compute; intros H; auto; discriminate H.
Qed.

Lemma sorted_lookup_lt (l : list Z) i j x y :
  StronglySorted Z.lt l -> l !! i = Some x -> l !! j = Some y ->
  (i < j)%nat -> x < y.
Proof.
  intros Hs. revert i j. induction Hs as [|a l Hs IH Hall]; intros i j Hi Hj Hlt;
    [done|].
  destruct j as [|j]; [lia|]. simpl in Hj. destruct i as [|i]; simpl in Hi.
  - injection Hi as <-. rewrite Forall_forall in Hall.
    apply Hall. by eapply list_elem_of_lookup_2.
  - eapply IH; eauto. lia.
Qed.

(** X2: the index has one entry per key, and no two entries hold the same
    line number. *)
Theorem index_keys_and_lines_distinct (file : list string) :
  dict_wf (index_sections file) /\ NoDup (map snd (index_sections file)).
Proof.
  split; [apply index_sections_wf|].
  apply NoDup_values; [|apply index_sections_wf].
  intros k1 k2 v H1 H2.
  pose proof (index_sections_entry _ _ _ H1) as [Hk1 Hv1].
  pose proof (index_sections_entry _ _ _ H2) as [Hk2 Hv2].
  assert (Hh : header_of_key k1 = header_of_key k2).
  { apply header_lines_In in Hv1 as (_ & l1 & Hl1 & Hh1).
    apply header_lines_In in Hv2 as (_ & l2 & Hl2 & Hh2).
    rewrite Hl1 in Hl2. injection Hl2 as <-.
    eapply header_exclusive; eauto using header_of_key_section. }
  destruct (header_of_key_inj _ _ Hk1 Hk2 Hh) as [|[Hd1 Hd2]]; [done|].
  apply (dict_wf_get _ _ _ (index_sections_wf file)) in H1, H2.
  rewrite (index_sections_get _ _ Hk1) in H1.
  rewrite (index_sections_get _ _ Hk2) in H2.
  pose proof (header_lines_sorted "[ dihedrals ]" file 1) as Hs.
  simpl in Hk1, Hk2.
  destruct Hk1 as [<-|[<-|[<-|[<-|[<-|[<-|[]]]]]]]; try discriminate Hd1;
    destruct Hk2 as [<-|[<-|[<-|[<-|[<-|[<-|[]]]]]]]; try discriminate Hd2;
    try reflexivity; simpl in H1, H2.
  - pose proof (sorted_lookup_lt _ _ _ _ _ Hs H1 H2). lia.
  - pose proof (sorted_lookup_lt _ _ _ _ _ Hs H2 H1). lia.
Qed.

(** X3: an improper-dihedrals entry never comes alone: the proper-dihedrals
    entry is present as well and holds a smaller line number. *)
Theorem improper_after_proper (file : list string) (v2 : Z) :
  dict_get (index_sections file) "[ improper dihedrals ]" = Some v2 ->
  exists v1, dict_get (index_sections file) "[ proper dihedrals ]" = Some v1
             /\ v1 < v2.
Proof.
  rewrite !index_sections_get by (simpl; auto 10). simpl.
  intros H2.
  destruct (header_lines 1 "[ dihedrals ]" file !! 0%nat) as [v1|] eqn:H1.
  - exists v1. split; [done|].
    eapply (sorted_lookup_lt _ 0 1); eauto using header_lines_sorted.
  - apply lookup_ge_None in H1. apply lookup_lt_Some in H2. lia.
Qed.

Lemma improper_after_proper_witness :
  let file := ["[ dihedrals ]"; "1 2 3 4 9"; "[ dihedrals ]"; "1 2 3 4 2"]%string in
  dict_get (index_sections file) "[ improper dihedrals ]" = Some 3
  /\ exists v1, dict_get (index_sections file) "[ proper dihedrals ]" = Some v1
                /\ v1 < 3.
Proof.
  intros file. split; [reflexivity|].
  apply (improper_after_proper file 3). reflexivity.
Defined.

(** X4: the index is empty exactly when no line of the file is one of the
    five headers. *)
Theorem index_empty_iff_no_header (file : list string) :
  index_sections file = []
  <-> forall line h, In line file -> In h sections -> is_header line h = false.
Proof.
  split.
  - intros Hnil line h Hline Hh.
    assert (Hocc : header_lines 1 h file = []).
    { simpl in Hh. pose proof (index_sections_get file) as Hget.
      rewrite Hnil in Hget.
      destruct Hh as [<-|[<-|[<-|[<-|[<-|[]]]]]].
      1-4: match goal with
           | |- header_lines 1 ?h _ = [] =>
               specialize (Hget h ltac:(simpl; auto 10)); simpl in Hget;
               symmetry in Hget; by apply last_None in Hget
           end.
      specialize (Hget "[ proper dihedrals ]"%string ltac:(simpl; eauto 10)).
      simpl in Hget. symmetry in Hget.
      by destruct (header_lines 1 "[ dihedrals ]" file). }
    by eapply header_lines_nil.
  - intros Hnone. unfold index_sections.
    assert (H : forall i st, index_loop i file st = st); [|by rewrite H].
    induction file as [|line rest IH]; intros i st; simpl; [done|].
    rewrite visit_line_miss by (intros h Hh; apply Hnone; [by left|done]).
    apply IH. intros l h Hl. apply Hnone. by right.
Qed.

(** ** The atom table: last write wins *)

Lemma parse_atom_line_entry row atom_info :
  row_raises row = false ->
  parse_atom_line row atom_info
  = Some (match row_entry row with
          | Some (n, info) => <[n := info]> atom_info
          | None => atom_info
          end).
Proof.
  unfold row_raises, parse_atom_line, row_entry, int_token.
  destruct (Py.split row) as [|t0 [|t1 [|t2 [|t3 [|t4 ts]]]]]; try done.
  simpl. destruct (Py.int t0); simpl; done.
Qed.

Lemma parse_rows_entries rows : forall atom_info,
  (forall row, In row rows -> row_raises row = false) ->
  parse_rows rows atom_info
  = Some (fold_left (fun (m : gmap Z AtomInfo) e => <[e.1 := e.2]> m)
                    (omap row_entry rows) atom_info).
Proof.
  induction rows as [|row rest IH]; intros atom_info Hok; [done|].
  simpl. rewrite parse_atom_line_entry by (apply Hok; by left). simpl.
  rewrite IH by (intros r Hr; apply Hok; by right).
  destruct (row_entry row) as [[n info]|]; done.
Qed.

Lemma fold_insert_list_to_map (l : list (Z * AtomInfo)) :
  fold_left (fun (m : gmap Z AtomInfo) e => <[e.1 := e.2]> m) l ∅
  = list_to_map (reverse l).
Proof.
  rewrite <- (fold_left_rev_right
                (fun e (m : gmap Z AtomInfo) => <[e.1 := e.2]> m)).
  unfold reverse. rewrite <- rev_alt.
  generalize (rev l). intros l'. induction l' as [|[k v] l' IH]; [done|].
  simpl. by rewrite IH.
Qed.

(** X5: when no data row of the Atoms span raises, the table is the map of
    the rows' entries in which a later row overrides an earlier row with the
    same index; rows with fewer than five tokens contribute nothing. *)
Theorem atom_table_last_write_wins
    (topology_file : string) (section_lines : dict Z) (atoms_start : Z) :
  dict_get section_lines "[ atoms ]" = Some atoms_start ->
  0 <= atoms_start ->
  let rows :=
    data_lines (lines_between (Py.readlines topology_file) atoms_start
                              (find_atoms_end section_lines atoms_start)) in
  (forall row, In row rows -> row_raises row = false) ->
  let table := extract_atom_names topology_file section_lines in
  table = list_to_map (reverse (omap row_entry rows))
  /\ forall before after n info,
       omap row_entry rows = before ++ (n, info) :: after ->
       (forall info', ~ In (n, info') after) ->
       table !! n = Some info.
Proof.
  intros Hget Hpos rows Hok table.
  assert (Htable : table = list_to_map (reverse (omap row_entry rows))).
  { subst table. rewrite (extract_atom_names_span _ _ _ Hget Hpos). fold rows.
    rewrite parse_rows_entries by done. simpl. apply fold_insert_list_to_map. }
  split; [done|].
  intros before after n info Hsplit Hlast. rewrite Htable, Hsplit.
  rewrite reverse_app, reverse_cons, <- app_assoc. simpl.
  rewrite list_to_map_app. apply lookup_union_Some_raw. right. split.
  - apply not_elem_of_list_to_map_1. intros Hin.
    apply list_elem_of_fmap in Hin as [[n' info'] [Hn Hin]]. simpl in Hn. subst n'.
    rewrite elem_of_reverse, list_elem_of_In in Hin. exact (Hlast _ Hin).
  - simpl. apply lookup_insert_eq.
Qed.

Lemma atom_table_last_write_wins_witness :
  let topology_file :=
    Py.unlines ["[ atoms ]"; "1 NH3 1 ALA N 1"; "2 CT1 1"; "1 NH1 2 GLY N 3";
                "[ bonds ]"; "1 2 1"]%string in
  let section_lines := get_context_from_topology topology_file in
  dict_get section_lines "[ atoms ]" = Some 1
  /\ extract_atom_names topology_file section_lines !! 1
     = Some (mk_atom_info "N" "NH1" "2" "GLY").
Proof.
  intros topology_file section_lines. split; [reflexivity|].
  refine (proj2 (atom_table_last_write_wins topology_file section_lines 1
                   eq_refl ltac:(lia) _)
            [(1, mk_atom_info "N" "NH3" "1" "ALA")] [] 1
            (mk_atom_info "N" "NH1" "2" "GLY") eq_refl _).
  - intros row Hrow. vm_compute in Hrow.
    destruct Hrow as [<-|[<-|[<-|[]]]]; reflexivity.
  - intros info' [].
Defined.

Lemma lines_between_short file atoms_start atoms_end :
  Z.of_nat (length file) <= atoms_start ->
  lines_between file atoms_start atoms_end = [].
Proof.
  intros Hlen. unfold lines_between.
  assert (Hn : forall i p, In p (numbered i file) ->
                           fst p < i + Z.of_nat (length file)).
  { clear. induction file as [|l rest IH]; intros i p; simpl; [done|].
    intros [<-|Hin]; simpl; [lia|]. apply IH in Hin. lia. }
  rewrite filter_nil_iff; [done|].
  intros p Hp%Hn. apply andb_false_iff. left. lia.
Qed.

(** X6: when the file ends at or before the line recorded for [[ atoms ]],
    the table is empty and the call does not fail. *)
Theorem atom_table_start_beyond_file
    (topology_file : string) (section_lines : dict Z) (atoms_start : Z) :
  dict_get section_lines "[ atoms ]" = Some atoms_start ->
  Z.of_nat (length (Py.readlines topology_file)) <= atoms_start ->
  extract_atom_names topology_file section_lines = ∅.
Proof.
  intros Hget Hlen.
  rewrite (extract_atom_names_span _ _ _ Hget) by lia.
  by rewrite lines_between_short.
Qed.

Lemma atom_table_start_beyond_file_witness :
  extract_atom_names (Py.unlines ["1 NH3 1 ALA N 1"; "2 CT1 1 ALA CA 2"]%string)
                     [("[ atoms ]"%string, 7)] = ∅.
Proof.
  apply (atom_table_start_beyond_file _ _ 7); [reflexivity|].
  vm_compute. discriminate.
Defined.

(** ** The correlator: extraction by arity *)

Lemma extract_atoms_parsed s tokens n zs :
  arity s = Some n -> (n <= length tokens)%nat ->
  mapM Py.int (take n tokens) = Some zs ->
  extract_atoms s tokens = Some zs.
Proof.
  unfold arity, extract_atoms, int_token. intros Har Hlen Hzs.
  destruct (String.eqb s "[ bonds ]");
    [|destruct (String.eqb s "[ pairs ]");
      [|destruct (String.eqb s "[ angles ]");
        [|destruct (String.eqb s "[ proper dihedrals ]");
          [|destruct (String.eqb s "[ improper dihedrals ]");
            [|discriminate]]]]];
    injection Har as <-; simpl orb; cbv iota;
    rewrite (proj2 (Nat.leb_le _ _) Hlen);
    destruct tokens as [|t0 [|t1 [|t2 [|t3 ts]]]]; simpl in Hlen; try lia;
    simpl in Hzs |- *; by simplify_option_eq.
Qed.

Lemma extract_atoms_short s tokens :
  (arity s = None \/ exists n, arity s = Some n /\ (length tokens < n)%nat) ->
  extract_atoms s tokens = Some [].
Proof.
  unfold arity, extract_atoms. intros Har.
  destruct (String.eqb s "[ bonds ]");
    [|destruct (String.eqb s "[ pairs ]");
      [|destruct (String.eqb s "[ angles ]");
        [|destruct (String.eqb s "[ proper dihedrals ]");
          [|destruct (String.eqb s "[ improper dihedrals ]")]]]];
    simpl orb; cbv iota; try reflexivity;
    (destruct Har as [Har|(n & Har & Hlt)]; [discriminate|]);
    injection Har as <-;
    by rewrite (proj2 (Nat.leb_gt _ _) Hlt).
Qed.

Lemma extract_atoms_length s tokens zs :
  extract_atoms s tokens = Some zs ->
  zs = [] \/ arity s = Some (length zs).
Proof.
  unfold arity, extract_atoms, int_token.
  destruct (String.eqb s "[ bonds ]");
    [|destruct (String.eqb s "[ pairs ]");
      [|destruct (String.eqb s "[ angles ]");
        [|destruct (String.eqb s "[ proper dihedrals ]");
          [|destruct (String.eqb s "[ improper dihedrals ]")]]]];
    simpl orb; cbv iota;
    repeat case_match; simpl;
    repeat match goal with
           | |- context [?l !! ?k] => destruct (l !! k); simpl
           | |- context [Py.int ?t] => destruct (Py.int t); simpl
           end;
    intros [= <-]; auto.
Qed.

Lemma identify_found error section_lines topology_file atom_info s line :
  find_error_section section_lines (line_number error) section_lines = Some s ->
  1 <= line_number error ->
  Py.readlines topology_file !! Z.to_nat (line_number error - 1) = Some line ->
  identify_atoms_from_context error section_lines topology_file atom_info
  = match extract_atoms s (Py.split (Py.strip line)) with
    | Some atoms =>
        (set_section error s,
         (atoms, atom_name_list (resolve_atoms atom_info atoms),
          residue_info_list (resolve_atoms atom_info atoms),
          atom_type_list (resolve_atoms atom_info atoms)))
    | None => (set_section error s, no_correlation)
    end.
Proof.
  intros Hs Hpos Hline. unfold identify_atoms_from_context. rewrite Hs.
  pose proof (find_line_lookup _ 1 _ _ Hline) as Hfl.
  replace (1 + Z.of_nat (Z.to_nat (line_number error - 1)))
    with (line_number error) in Hfl by lia.
  by rewrite Hfl.
Qed.

(** X7: when the section of the error line is resolved, the line exists and
    its first [n] tokens, [n] the arity of the section, all parse as
    integers, the atoms returned are exactly these [n] integers in order
    (further tokens are ignored), resolved against the atom table, and the
    section is stored in the record. *)
Theorem identify_extracts_leading_tokens
    (error : ErrorRecord) (section_lines : dict Z) (topology_file : string)
    (atom_info : option (gmap Z AtomInfo)) (s line : string) (n : nat)
    (zs : list Z) :
  find_error_section section_lines (line_number error) section_lines = Some s ->
  arity s = Some n ->
  1 <= line_number error ->
  Py.readlines topology_file !! Z.to_nat (line_number error - 1) = Some line ->
  (n <= length (Py.split (Py.strip line)))%nat ->
  mapM Py.int (take n (Py.split (Py.strip line))) = Some zs ->
  identify_atoms_from_context error section_lines topology_file atom_info
  = (set_section error s,
     (zs,
      if dict_truthy atom_info then map (name_of (default ∅ atom_info)) zs else [],
      if dict_truthy atom_info then map (residue_of (default ∅ atom_info)) zs else [],
      if dict_truthy atom_info then map (type_of (default ∅ atom_info)) zs else [])).
Proof.
  intros Hs Har Hpos Hline Hlen Hzs.
  rewrite (identify_found _ _ _ _ _ _ Hs Hpos Hline).
  rewrite (extract_atoms_parsed _ _ _ _ Har Hlen Hzs).
  rewrite resolve_atoms_spec. by destruct (dict_truthy atom_info).
Qed.

Lemma identify_extracts_leading_tokens_witness :
  let topology_file :=
    Py.unlines ["[ dihedrals ]"; "1 2 3 4 9"; "[ dihedrals ]"; "4 3 2 1 2 0.0 x"]%string in
  let section_lines := get_context_from_topology topology_file in
  let error := mk_error 7 4 "No default Improper Dih. types" None None None None None in
  identify_atoms_from_context error section_lines topology_file None
  = (set_section error "[ improper dihedrals ]", ([4; 3; 2; 1], [], [], [])).
Proof.
  intros topology_file section_lines error.
  apply (identify_extracts_leading_tokens error section_lines topology_file None
           "[ improper dihedrals ]"
           (String.append "4 3 2 1 2 0.0 x" (String Py.nl EmptyString)) 4).
  - reflexivity.
  - reflexivity.
  - simpl. lia.
  - reflexivity.
  - vm_compute. lia.
  - reflexivity.
Defined.

(** X8: when the section is resolved and the line exists, but the section has
    no arity (it is [[ atoms ]]) or the line has fewer tokens than the arity,
    the call returns four empty lists, with the section stored in the
    record; no token is converted. *)
Theorem identify_too_few_tokens
    (error : ErrorRecord) (section_lines : dict Z) (topology_file : string)
    (atom_info : option (gmap Z AtomInfo)) (s line : string) :
  find_error_section section_lines (line_number error) section_lines = Some s ->
  1 <= line_number error ->
  Py.readlines topology_file !! Z.to_nat (line_number error - 1) = Some line ->
  (arity s = None
   \/ exists n, arity s = Some n /\ (length (Py.split (Py.strip line)) < n)%nat) ->
  identify_atoms_from_context error section_lines topology_file atom_info
  = (set_section error s, no_correlation).
Proof.
  intros Hs Hpos Hline Hshort.
  rewrite (identify_found _ _ _ _ _ _ Hs Hpos Hline).
  rewrite (extract_atoms_short _ _ Hshort).
  rewrite resolve_atoms_spec. by destruct (dict_truthy atom_info).
Qed.

Lemma identify_too_few_tokens_witness :
  let topology_file :=
    Py.unlines ["[ atoms ]"; "1 NH3 1 ALA N 1"; "[ angles ]"; "x y"]%string in
  let section_lines := get_context_from_topology topology_file in
  let atom_info := extract_atom_names topology_file section_lines in
  let error n := mk_error 1 n "No default U-B types" None None None None None in
  identify_atoms_from_context (error 2) section_lines topology_file (Some atom_info)
  = (set_section (error 2) "[ atoms ]", no_correlation)
  /\ identify_atoms_from_context (error 4) section_lines topology_file
       (Some atom_info)
     = (set_section (error 4) "[ angles ]", no_correlation).
Proof.
  intros topology_file section_lines atom_info error. split.
  - apply (identify_too_few_tokens (error 2) section_lines topology_file _
             "[ atoms ]" (String.append "1 NH3 1 ALA N 1" (String Py.nl EmptyString)));
      [reflexivity | simpl; lia | reflexivity | left; reflexivity].
  - apply (identify_too_few_tokens (error 4) section_lines topology_file _
             "[ angles ]" (String.append "x y" (String Py.nl EmptyString)));
      [reflexivity | simpl; lia | reflexivity |].
    right. exists 3%nat. split; [reflexivity|]. vm_compute. lia.
Defined.

(** X9: whatever the inputs, the three resolved lists have the same length,
    which is 0 or the number of atoms, and the number of atoms is 0 or the
    arity of the section stored in the record. *)
Theorem identify_result_shape
    (error : ErrorRecord) (section_lines : dict Z) (topology_file : string)
    (atom_info : option (gmap Z AtomInfo)) :
  let result :=
    identify_atoms_from_context error section_lines topology_file atom_info in
  let '(atoms, names, residue_infos, types) := snd result in
  length residue_infos = length names
  /\ length types = length names
  /\ (names = [] \/ length names = length atoms)
  /\ (atoms = []
      \/ exists s, section (fst result) = Some s
                   /\ arity s = Some (length atoms)).
Proof.
  unfold identify_atoms_from_context.
  destruct (find_error_section _ _ _) as [s|]; simpl; [|auto].
  destruct (find_line _ _ _) as [content|]; simpl; [|auto].
  destruct (extract_atoms _ _) as [zs|] eqn:E; simpl; [|auto].
  rewrite resolve_atoms_spec.
  destruct (dict_truthy atom_info); simpl; rewrite ?length_map; repeat split; auto.
  - destruct (extract_atoms_length _ _ _ E); eauto.
  - destruct (extract_atoms_length _ _ _ E); eauto.
Qed.

Lemma is_last_section_perm sl sl' error_line v :
  Permutation sl sl' ->
  is_last_section sl' error_line v = is_last_section sl error_line v.
Proof.
  intros Hp. apply eq_true_iff_eq. rewrite !is_last_section_true.
  split; intros H k w Hin; apply (H k).
  - by apply (Permutation_in _ Hp).
  - by apply (Permutation_in _ (Permutation_sym Hp)).
Qed.

Lemma NoDup_values_key {V} (d : dict V) k1 k2 v :
  NoDup (map snd d) -> In (k1, v) d -> In (k2, v) d -> k1 = k2.
Proof.
  induction d as [|[k0 v0] d IH]; simpl; [done|].
  intros [Hv0 Hnd]%NoDup_cons [H1|H1] [H2|H2].
  - congruence.
  - injection H1 as -> ->. destruct Hv0.
    apply list_elem_of_In, in_map_iff. by exists (k2, v).
  - injection H2 as -> ->. destruct Hv0.
    apply list_elem_of_In, in_map_iff. by exists (k1, v).
  - by apply IH.
Qed.

Lemma find_error_section_perm sl sl' error_line :
  Permutation sl sl' -> NoDup (map snd sl) ->
  find_error_section sl' error_line sl' = find_error_section sl error_line sl.
Proof.
  intros Hp Hnd.
  destruct (find_error_section sl error_line sl) as [s|] eqn:E.
  - apply find_error_section_Some in E as (v & Hin & Hv & Hlast).
    apply find_error_section_unique.
    + intros k w Hk [Hge Hl]%andb_prop.
      rewrite (is_last_section_perm _ _ _ _ Hp) in Hl.
      apply (Permutation_in _ (Permutation_sym Hp)) in Hk.
      assert (w = v) as ->.
      { pose proof (proj1 (is_last_section_true _ _ _) Hl s v Hin Hv).
        pose proof (proj1 (is_last_section_true _ _ _) Hlast k w Hk). lia. }
      by eapply NoDup_values_key.
    + exists s, v. split; [by apply (Permutation_in _ Hp)|].
      rewrite (is_last_section_perm _ _ _ _ Hp), Hlast.
      apply andb_true_intro. split; [lia|done].
  - apply find_error_section_late. intros k v Hin.
    apply (find_error_section_None_all _ _ E k v).
    by apply (Permutation_in _ (Permutation_sym Hp)).
Qed.

(** X10: when no two sections of the index start on the same line, the
    result of the correlator does not depend on the order of the entries of
    the index. *)
Theorem identify_index_order_irrelevant
    (error : ErrorRecord) (section_lines section_lines' : dict Z)
    (topology_file : string) (atom_info : option (gmap Z AtomInfo)) :
  Permutation section_lines section_lines' ->
  NoDup (map snd section_lines) ->
  identify_atoms_from_context error section_lines' topology_file atom_info
  = identify_atoms_from_context error section_lines topology_file atom_info.
Proof.
  intros Hp Hnd. unfold identify_atoms_from_context.
  by rewrite (find_error_section_perm _ _ _ Hp Hnd).
Qed.

Lemma identify_index_order_irrelevant_witness :
  let topology_file :=
    Py.unlines ["[ bonds ]"; "1 2 1"; "[ angles ]"; "1 2 3 5"]%string in
  let error := mk_error 1 4 "No default U-B types" None None None None None in
  identify_atoms_from_context error
    [("[ angles ]"%string, 3); ("[ bonds ]"%string, 1)] topology_file None
  = identify_atoms_from_context error
      [("[ bonds ]"%string, 1); ("[ angles ]"%string, 3)] topology_file None.
Proof.
  intros topology_file error.
  apply identify_index_order_irrelevant.
  - apply perm_swap.
  - apply (bool_decide_unpack _). vm_compute. exact I.
Defined.

(** ** The synthesizer: counters *)

Lemma set_add_length s x :
  (length s <= length (set_add s x) <= S (length s))%nat.
Proof.
  unfold set_add. destruct (existsb _ s); [lia|]. rewrite length_app. simpl. lia.
Qed.

Lemma process_error_counters st error n :
  0 <= processed_errors st -> 0 <= skipped_no_atom_types st ->
  0 <= skipped_unknown_error st -> 0 <= skipped_wrong_atom_count st ->
  processed_errors st + skipped_no_atom_types st + skipped_unknown_error st
  + skipped_wrong_atom_count st = n ->
  Z.of_nat (length (angle_dummies st) + length (dihedral_dummies st))
  <= processed_errors st ->
  let st' := process_error st error in
  0 <= processed_errors st' /\ 0 <= skipped_no_atom_types st'
  /\ 0 <= skipped_unknown_error st' /\ 0 <= skipped_wrong_atom_count st'
  /\ processed_errors st' + skipped_no_atom_types st' + skipped_unknown_error st'
     + skipped_wrong_atom_count st' = n + 1
  /\ Z.of_nat (length (angle_dummies st') + length (dihedral_dummies st'))
     <= processed_errors st'.
Proof.
  intros H1 H2 H3 H4 Hsum Hsize. unfold process_error.
  repeat case_match; simpl;
    try pose proof (set_add_length (angle_dummies st) ltac:(eassumption));
    repeat split; try lia.
  all: match goal with
       | |- context [set_add ?s ?x] => pose proof (set_add_length s x); lia
       end.
Qed.

Lemma process_fold_counters errors : forall st n,
  0 <= processed_errors st -> 0 <= skipped_no_atom_types st ->
  0 <= skipped_unknown_error st -> 0 <= skipped_wrong_atom_count st ->
  processed_errors st + skipped_no_atom_types st + skipped_unknown_error st
  + skipped_wrong_atom_count st = n ->
  Z.of_nat (length (angle_dummies st) + length (dihedral_dummies st))
  <= processed_errors st ->
  let st' := fold_left process_error errors st in
  0 <= processed_errors st' /\ 0 <= skipped_no_atom_types st'
  /\ 0 <= skipped_unknown_error st' /\ 0 <= skipped_wrong_atom_count st'
  /\ processed_errors st' + skipped_no_atom_types st' + skipped_unknown_error st'
     + skipped_wrong_atom_count st' = n + Z.of_nat (length errors)
  /\ Z.of_nat (length (angle_dummies st') + length (dihedral_dummies st'))
     <= processed_errors st'.
Proof.
  induction errors as [|e errors IH]; intros st n H1 H2 H3 H4 Hsum Hsize.
  - simpl. repeat split; auto; lia.
  - pose proof (process_error_counters st e n H1 H2 H3 H4 Hsum Hsize)
      as (K1 & K2 & K3 & K4 & Ksum & Ksize).
    pose proof (IH _ _ K1 K2 K3 K4 Ksum Ksize) as H.
    cbn [fold_left length]. cbv zeta in H |- *.
    replace (n + Z.of_nat (S (length errors)))
      with (n + 1 + Z.of_nat (length errors)) by lia.
    exact H.
Qed.

Lemma sorted_length l : length (sorted l) = length l.
Proof. unfold sorted. by rewrite merge_sort_Permutation. Qed.

(** X11: the four counters of the synthesizer add up to the number of
    records, every record being counted exactly once as processed or as one
    kind of skip, and the rows returned are never more than the records
    processed. *)
Theorem process_counters_partition (errors : list ErrorRecord) :
  let st := process_loop errors in
  let out := process_errors_for_dummies errors in
  processed_errors st + skipped_no_atom_types st + skipped_unknown_error st
  + skipped_wrong_atom_count st = Z.of_nat (length errors)
  /\ 0 <= processed_errors st /\ 0 <= skipped_no_atom_types st
  /\ 0 <= skipped_unknown_error st /\ 0 <= skipped_wrong_atom_count st
  /\ Z.of_nat (length (angles out) + length (dihedrals out))
     <= processed_errors st.
Proof.
  intros st out. subst st out. unfold process_errors_for_dummies, process_loop.
  simpl. rewrite !sorted_length.
  pose proof (process_fold_counters errors dummy_init 0) as H. simpl in H.
  destruct H as (K1 & K2 & K3 & K4 & Ksum & Ksize); try lia.
Qed.

(** ** The synthesizer: the shape of a row *)

Lemma str_app_cons x (a b : string) : String x a +:+ b = String x (a +:+ b).
Proof. reflexivity. Qed.

Lemma str_app_assoc (a b c : string) : (a +:+ b) +:+ c = a +:+ (b +:+ c).
Proof.
  induction a as [|x a IH]; [done|]. rewrite !str_app_cons. by f_equal.
Qed.

Lemma str_length_app (a b : string) :
  String.length (a +:+ b) = (String.length a + String.length b)%nat.
Proof.
  induction a as [|x a IH]; [done|]. rewrite str_app_cons.
  cbn [String.length Nat.add]. by f_equal.
Qed.

Lemma pad_S k :
  String.concat "" (repeat " "%string (S k))
  = String " " (String.concat "" (repeat " "%string k)).
Proof. by destruct k. Qed.

Lemma pad_length k : String.length (String.concat "" (repeat " "%string k)) = k.
Proof.
  induction k as [|k IH]; [done|]. rewrite pad_S.
  cbn [String.length]. by f_equal.
Qed.

Lemma rjust_length w s : String.length (Py.rjust w s) = Nat.max w (String.length s).
Proof. unfold Py.rjust. rewrite str_length_app, pad_length. lia. Qed.

Lemma split_pad k s :
  Py.split (String.concat "" (repeat " "%string k) +:+ s) = Py.split s.
Proof.
  induction k as [|k IH]; [done|]. rewrite pad_S, str_app_cons. exact IH.
Qed.

Lemma split_space s : Py.split (" " +:+ s) = Py.split s.
Proof. reflexivity. Qed.

Lemma split_cons c s :
  Py.split (String c s)
  = if Py.isspace c then Py.split s
    else match s with
         | EmptyString => [String c EmptyString]
         | String c' _ =>
             if Py.isspace c' then String c EmptyString :: Py.split s
             else match Py.split s with
                  | t :: ts => String c t :: ts
                  | [] => [String c EmptyString]
                  end
         end.
Proof. by destruct s. Qed.

Lemma split_token t s :
  is_token t = true -> at_token_end s = true ->
  Py.split (t +:+ s) = t :: Py.split s.
Proof.
  unfold is_token. intros [Ht Hns]%andb_prop Hs.
  induction t as [|c t IH]; [done|]. clear Ht.
  cbn [no_space] in Hns. apply andb_prop in Hns as [Hc%negb_true_iff Hns].
  rewrite str_app_cons, split_cons, Hc.
  destruct t as [|c2 t].
  - change (EmptyString +:+ s) with s.
    destruct s as [|c' s]; [done|]. cbn [at_token_end] in Hs. by rewrite Hs.
  - rewrite str_app_cons.
    cbn [no_space] in Hns. apply andb_prop in Hns as Hns'.
    destruct Hns' as [Hc2%negb_true_iff _]. rewrite Hc2.
    rewrite <- str_app_cons. by rewrite (IH eq_refl Hns).
Qed.

Lemma split_rjust_token t s :
  is_token t = true -> at_token_end s = true ->
  Py.split (Py.rjust 8 t +:+ s) = t :: Py.split s.
Proof.
  intros Ht Hs. unfold Py.rjust. rewrite str_app_assoc, split_pad.
  by apply split_token.
Qed.

Lemma angle_row_eq t0 t1 t2 :
  generate_angle_dummy [t0; t1; t2]
  = Some (Py.rjust 8 t0 +:+ " " +:+ Py.rjust 8 t1 +:+ " " +:+ Py.rjust 8 t2
          +:+ "     1   120.000000   200.000000   0.00000000         0.00 ;").
Proof. reflexivity. Qed.

Lemma dihedral_row_eq t0 t1 t2 t3 :
  generate_dihedral_dummy [t0; t1; t2; t3]
  = Some (Py.rjust 8 t0 +:+ " " +:+ Py.rjust 8 t1 +:+ " " +:+ Py.rjust 8 t2
          +:+ " " +:+ Py.rjust 8 t3
          +:+ tab +:+ tab +:+ "9       0.000000       0.000000     1 ;").
Proof. reflexivity. Qed.

Lemma angle_row_split types row :
  Forall (fun t => is_token t = true) types ->
  generate_angle_dummy types = Some row ->
  Py.split row
  = types ++ ["1"; "120.000000"; "200.000000"; "0.00000000"; "0.00"; ";"]%string.
Proof.
  destruct types as [|t0 [|t1 [|t2 [|]]]]; try done.
  rewrite !Forall_cons. intros (H0 & H1 & H2 & _) Hrow.
  rewrite angle_row_eq in Hrow. injection Hrow as <-.
  rewrite split_rjust_token, split_space by done.
  rewrite split_rjust_token, split_space by done.
  rewrite split_rjust_token by done. reflexivity.
Qed.

Lemma dihedral_row_split types row :
  Forall (fun t => is_token t = true) types ->
  generate_dihedral_dummy types = Some row ->
  Py.split row = types ++ ["9"; "0.000000"; "0.000000"; "1"; ";"]%string.
Proof.
  destruct types as [|t0 [|t1 [|t2 [|t3 [|]]]]]; try done.
  rewrite !Forall_cons. intros (H0 & H1 & H2 & H3 & _) Hrow.
  rewrite dihedral_row_eq in Hrow. injection Hrow as <-.
  rewrite split_rjust_token, split_space by done.
  rewrite split_rjust_token, split_space by done.
  rewrite split_rjust_token, split_space by done.
  rewrite split_rjust_token by done. reflexivity.
Qed.

(** X12: splitting a generated row on whitespace gives back the atom types
    it was generated from, followed by the fixed columns, provided each atom
    type is a token (not empty, no whitespace). *)
Theorem row_split_round_trip (types : list string) (row : string) :
  Forall (fun t => is_token t = true) types ->
  (generate_angle_dummy types = Some row ->
   Py.split row
   = types ++ ["1"; "120.000000"; "200.000000"; "0.00000000"; "0.00"; ";"]%string)
  /\ (generate_dihedral_dummy types = Some row ->
      Py.split row = types ++ ["9"; "0.000000"; "0.000000"; "1"; ";"]%string).
Proof.
  intros Htok. split.
  - by apply angle_row_split.
  - by apply dihedral_row_split.
Qed.

Lemma row_split_round_trip_witness :
  Py.split "     CT1       CA LONGTYPE_X     1   120.000000   200.000000   0.00000000         0.00 ;"
  = ["CT1"; "CA"; "LONGTYPE_X"; "1"; "120.000000"; "200.000000"; "0.00000000";
     "0.00"; ";"]%string.
Proof.
  apply (row_split_round_trip ["CT1"; "CA"; "LONGTYPE_X"]%string).
  - repeat constructor.
  - reflexivity.
Defined.

(** X13: two lists of token atom types that generate the same row are the
    same list, for angle rows and for dihedral rows; and no string is both an
    angle row and a dihedral row.  Hence the set of rows has one element per
    distinct triple or quadruple of atom types. *)
Theorem row_injective (types types' : list string) (row : string) :
  Forall (fun t => is_token t = true) types ->
  Forall (fun t => is_token t = true) types' ->
  (generate_angle_dummy types = Some row ->
   generate_angle_dummy types' = Some row -> types = types')
  /\ (generate_dihedral_dummy types = Some row ->
      generate_dihedral_dummy types' = Some row -> types = types')
  /\ (generate_angle_dummy types = Some row ->
      generate_dihedral_dummy types' = Some row -> False).
Proof.
  intros Htok Htok'. split; [|split].
  - intros H H'.
    pose proof (angle_row_split _ _ Htok H) as Hs.
    rewrite (angle_row_split _ _ Htok' H') in Hs.
    by apply app_inv_tail in Hs.
  - intros H H'.
    pose proof (dihedral_row_split _ _ Htok H) as Hs.
    rewrite (dihedral_row_split _ _ Htok' H') in Hs.
    by apply app_inv_tail in Hs.
  - intros H H'.
    pose proof (angle_row_split _ _ Htok H) as Hs.
    rewrite (dihedral_row_split _ _ Htok' H') in Hs.
    destruct types as [|t0 [|t1 [|t2 [|]]]]; try done.
    destruct types' as [|u0 [|u1 [|u2 [|u3 [|]]]]]; try done.
Qed.

Lemma row_injective_witness :
  let types := ["CT1"; "CA"; "NH1"]%string in
  let row :=
    "     CT1       CA      NH1     1   120.000000   200.000000   0.00000000         0.00 ;"%string in
  generate_angle_dummy types = Some row
  /\ (generate_dihedral_dummy ["CT1"; "CA"; "NH1"; "H"]%string = Some row -> False).
Proof.
  intros types row. split; [reflexivity|].
  apply (row_injective types ["CT1"; "CA"; "NH1"; "H"]%string row);
    [repeat constructor | repeat constructor | reflexivity].
Defined.

(** X14: a row has a fixed width: 62 characters plus one field per atom type
    for an angle row, 44 plus one field per atom type for a dihedral row,
    each field being 8 characters wide, or as wide as the atom type when that
    is longer (an atom type is never truncated). *)
Theorem row_width (types : list string) (row : string) :
  (generate_angle_dummy types = Some row ->
   String.length row = (62 + list_sum (map field_width types))%nat)
  /\ (generate_dihedral_dummy types = Some row ->
      String.length row = (44 + list_sum (map field_width types))%nat).
Proof.
  split.
  - destruct types as [|t0 [|t1 [|t2 [|]]]]; try done.
    rewrite angle_row_eq. intros [= <-].
    rewrite !str_length_app, !rjust_length. unfold field_width. simpl. lia.
  - destruct types as [|t0 [|t1 [|t2 [|t3 [|]]]]]; try done.
    rewrite dihedral_row_eq. intros [= <-].
    rewrite !str_length_app, !rjust_length. unfold field_width. simpl. lia.
Qed.

Lemma row_width_witness :
  String.length
    "      CA       CB       CC     1   120.000000   200.000000   0.00000000         0.00 ;"
  = (62 + list_sum (map field_width ["CA"; "CB"; "CC"]%string))%nat.
Proof.
  apply (row_width ["CA"; "CB"; "CC"]%string). reflexivity.
Defined.


(** ** The parameter file *)

Lemma unlines_cons l ls : Py.unlines (l :: ls) = l +:+ String Py.nl (Py.unlines ls).
Proof.
  unfold Py.unlines. destruct ls as [|l' ls]; [done|].
  cbn [map String.concat]. by rewrite str_app_assoc.
Qed.

Lemma unlines_app ls1 ls2 : Py.unlines (ls1 ++ ls2) = Py.unlines ls1 +:+ Py.unlines ls2.
Proof.
  induction ls1 as [|l ls1 IH]; [done|].
  rewrite <- app_comm_cons, !unlines_cons, IH.
  by rewrite str_app_assoc, str_app_cons.
Qed.

Lemma readlines_aux_line l : forall cur rest started,
  no_newline l = true ->
  Py.readlines_aux cur (l +:+ String Py.nl rest) started
  = cur (l +:+ newline) :: Py.readlines_aux (fun x => x) rest false.
Proof.
  induction l as [|c l IH]; intros cur rest started Hl; [done|].
  cbn [no_newline] in Hl. apply andb_prop in Hl as [Hc%negb_true_iff Hl].
  rewrite !str_app_cons. cbn [Py.readlines_aux]. rewrite Hc.
  by rewrite IH.
Qed.

(** Reading back a text written line by line gives the lines. *)
Lemma readlines_unlines ls :
  Forall (fun l => no_newline l = true) ls ->
  Py.readlines (Py.unlines ls) = map (fun l => l +:+ newline) ls.
Proof.
  unfold Py.readlines. induction 1 as [|l ls Hl _ IH]; [done|].
  rewrite unlines_cons, readlines_aux_line by done. simpl. by rewrite IH.
Qed.

Lemma block_unlines title col rows :
  (title +:+ newline) +:+ (col +:+ newline)
  +:+ String.concat "" (map (fun r => r +:+ newline) rows) +:+ newline
  = Py.unlines ([title; col] ++ rows ++ [EmptyString]).
Proof.
  change ([title; col] ++ rows ++ [EmptyString])
    with ([title] ++ [col] ++ rows ++ [EmptyString]).
  rewrite !unlines_app. reflexivity.
Qed.

Lemma save_dummies_unlines d : save_dummies d = Py.unlines (dummy_file_lines d).
Proof.
  unfold save_dummies, dummy_file_lines.
  rewrite !unlines_app.
  assert (Hblock : forall title col rows,
            match rows with
            | [] => EmptyString
            | _ => (title +:+ newline) +:+ (col +:+ newline)
                   +:+ String.concat "" (map (fun r => r +:+ newline) rows)
                   +:+ newline
            end
            = Py.unlines match rows with
                         | [] => []
                         | _ => [title; col] ++ rows ++ [EmptyString]
                         end).
  { intros title col rows. destruct rows as [|r rows]; [done|].
    apply block_unlines. }
  by rewrite !Hblock.
Qed.

Lemma no_newline_app a b :
  no_newline (a +:+ b) = no_newline a && no_newline b.
Proof.
  induction a as [|c a IH]; [done|]. rewrite str_app_cons.
  cbn [no_newline]. by rewrite IH, andb_assoc.
Qed.

Lemma no_space_no_newline t : no_space t = true -> no_newline t = true.
Proof.
  induction t as [|c t IH]; [done|]. cbn [no_space no_newline].
  intros [Hc Ht]%andb_prop. rewrite (IH Ht), andb_true_r.
  apply negb_true_iff, Ascii.eqb_neq. intros ->. by vm_compute in Hc.
Qed.

Lemma rjust_no_newline w t : no_newline t = true -> no_newline (Py.rjust w t) = true.
Proof.
  intros Ht. unfold Py.rjust. rewrite no_newline_app, Ht, andb_true_r.
  induction (w - String.length t)%nat as [|k IH]; [done|].
  by rewrite pad_S.
Qed.

Lemma row_no_newline types row :
  Forall (fun t => is_token t = true) types ->
  generate_angle_dummy types = Some row \/ generate_dihedral_dummy types = Some row ->
  no_newline row = true.
Proof.
  intros Htok.
  assert (Hnn : Forall (fun t => no_newline t = true) types).
  { eapply Forall_impl; [done|]. intros t [_ Ht]%andb_prop.
    by apply no_space_no_newline. }
  clear Htok. intros [H|H].
  - destruct types as [|t0 [|t1 [|t2 [|]]]]; try done.
    rewrite !Forall_cons in Hnn. destruct Hnn as (H0 & H1 & H2 & _).
    rewrite angle_row_eq in H. injection H as <-.
    by rewrite !no_newline_app, !rjust_no_newline.
  - destruct types as [|t0 [|t1 [|t2 [|t3 [|]]]]]; try done.
    rewrite !Forall_cons in Hnn. destruct Hnn as (H0 & H1 & H2 & H3 & _).
    rewrite dihedral_row_eq in H. injection H as <-.
    by rewrite !no_newline_app, !rjust_no_newline.
Qed.

(** Every row a record contributes is generated from its atom types. *)
Lemma rows_of_generated error row :
  In row (angle_rows_of error) \/ In row (dihedral_rows_of error) ->
  exists types, atom_types error = Some types
    /\ (generate_angle_dummy types = Some row
        \/ generate_dihedral_dummy types = Some row).
Proof.
  unfold angle_rows_of, dihedral_rows_of, process_error.
  destruct (atom_types error) as [[|t types]|]; simpl; [tauto| |tauto].
  intros H. exists (t :: types). split; [done|]. revert H.
  repeat case_match; simpl; intros Hrow; decompose [or] Hrow; subst;
    try done; auto.
Qed.

Lemma output_rows_generated errors row :
  In row (angles (process_errors_for_dummies errors))
  \/ In row (dihedrals (process_errors_for_dummies errors)) ->
  exists error types, In error errors /\ atom_types error = Some types
    /\ (generate_angle_dummy types = Some row
        \/ generate_dihedral_dummy types = Some row).
Proof.
  unfold process_errors_for_dummies. simpl.
  rewrite !sorted_In, process_loop_angles, process_loop_dihedrals.
  rewrite !fold_set_add_In. unfold generated_angles, generated_dihedrals.
  rewrite !in_flat_map. simpl.
  intros [[[]|(e & He & Hrow)]|[[]|(e & He & Hrow)]].
  - destruct (rows_of_generated e row (or_introl Hrow)) as (types & Ht & Hg).
    eauto 10.
  - destruct (rows_of_generated e row (or_intror Hrow)) as (types & Ht & Hg).
    eauto 10.
Qed.

Lemma readlines_save_dummies (errors : list ErrorRecord) :
  (forall error, In error errors -> token_types error) ->
  let d := process_errors_for_dummies errors in
  Py.readlines (save_dummies d)
  = map (fun l => l +:+ newline) (dummy_file_lines d).
Proof.
  intros Htok d. rewrite save_dummies_unlines. apply readlines_unlines.
  assert (Hrows : forall row, In row (angles d) \/ In row (dihedrals d) ->
                              no_newline row = true).
  { intros row (e & types & He & Ht & Hg)%output_rows_generated.
    eapply row_no_newline; [|done]. by apply (Htok e He). }
  unfold dummy_file_lines. rewrite !Forall_app. repeat split.
  - by repeat constructor.
  - destruct (angles d) as [|a l] eqn:E; [constructor|]. rewrite <- E in *.
    rewrite !Forall_app. repeat split; try by repeat constructor.
    apply Forall_forall. intros row Hrow%list_elem_of_In. auto.
  - destruct (dihedrals d) as [|a l] eqn:E; [constructor|]. rewrite <- E in *.
    rewrite !Forall_app. repeat split; try by repeat constructor.
    apply Forall_forall. intros row Hrow%list_elem_of_In. auto.
  - by repeat constructor.
Qed.


(** X15: when the atom types of the records are tokens, the parameter file
    written for the synthesized rows reads back, line by line, as the header
    comment and a blank line, then for each non-empty kind its section
    header, its column comment, its rows in order, one per line, and a blank
    line, then the footer comment; a kind without rows has no block. *)
Theorem save_dummies_lines (errors : list ErrorRecord) :
  (forall error, In error errors -> token_types error) ->
  let d := process_errors_for_dummies errors in
  Py.readlines (save_dummies d)
  = map (fun l => l +:+ newline) (dummy_file_lines d).
Proof.
  intros Htok d. rewrite save_dummies_unlines. apply readlines_unlines.
  assert (Hrows : forall row, In row (angles d) \/ In row (dihedrals d) ->
                              no_newline row = true).
  { intros row (e & types & He & Ht & Hg)%output_rows_generated.
    eapply row_no_newline; [|done]. by apply (Htok e He). }
  unfold dummy_file_lines. rewrite !Forall_app.
  split; [by repeat constructor|]. split; [|split; [|by repeat constructor]].
  - destruct (angles d) as [|a l] eqn:E; [constructor|]. rewrite <- E in *.
    rewrite !Forall_app. repeat split; try by repeat constructor.
    apply Forall_forall. intros row Hrow%list_elem_of_In. auto.
  - destruct (dihedrals d) as [|a l] eqn:E; [constructor|]. rewrite <- E in *.
    rewrite !Forall_app. repeat split; try by repeat constructor.
    apply Forall_forall. intros row Hrow%list_elem_of_In. auto.
Qed.

Lemma save_dummies_lines_witness :
  let error :=
    mk_error 1 12 "No default U-B types" (Some "[ angles ]"%string)
             (Some [5; 7; 9]) None None (Some ["CA"; "CB"; "CC"]%string) in
  token_types error
  /\ Py.readlines (save_dummies (process_errors_for_dummies [error]))
     = map (fun l => l +:+ newline)
         ["; Dummy parameters generated for topology errors"; "";
          "[ angletypes ]";
          ";      i        j        k  func       theta0       ktheta          ub0          kub";
          "      CA       CB       CC     1   120.000000   200.000000   0.00000000         0.00 ;";
          ""; "; End of dummy parameters"]%string.
Proof.
  intros error.
  assert (Htok : token_types error).
  { intros types [= <-]. repeat constructor. }
  split; [exact Htok|].
  rewrite (save_dummies_lines [error]).
  - vm_compute. reflexivity.
  - intros e [<-|[]]. exact Htok.
Defined.

(** ** The error log parser *)

Example parse_two_blocks :
  extract_error_info
    (Py.unlines ["ERROR 1 [file topol.top, line 12]:"; "  No default U-B types";
                 ""; "ERROR 2 [file topol.top, line 40]:";
                 "  No default Proper Dih. types"; "  for these atoms"; "";
                 "ERROR x [file topol.top, line 1]: ignored"]%string)
  = [mk_error 1 12 "No default U-B types" None None None None None;
     mk_error 2 40
       (String.append "No default Proper Dih. types"
          (String Py.nl "  for these atoms")) None None None None None].
Proof. vm_compute. reflexivity. Qed.

Lemma prefix_cons c a d b :
  String.prefix (String c a) (String d b)
  = (if Ascii.eqb c d then String.prefix a b else false).
Proof.
  simpl. destruct (ascii_dec c d) as [->|Hne].
  - by rewrite Ascii.eqb_refl.
  - by apply Ascii.eqb_neq in Hne as ->.
Qed.

Lemma literal_prefix lit : forall s,
  String.prefix lit s = false -> Re.literal lit s = None.
Proof.
  induction lit as [|c lit IH]; intros s; [by destruct s|].
  destruct s as [|d s]; [done|]. rewrite prefix_cons. simpl.
  destruct (Ascii.eqb c d); [apply IH|done].
Qed.

Lemma literal_app lit : forall s rest,
  Re.literal lit s = Some rest -> s = lit +:+ rest.
Proof.
  induction lit as [|c lit IH]; intros s rest; simpl; [by intros [= ->]|].
  destruct s as [|d s]; [done|].
  destruct (Ascii.eqb_spec c d) as [->|]; [|done].
  intros ->%IH. by rewrite str_app_cons.
Qed.

Lemma literal_here lit rest : Re.literal lit (lit +:+ rest) = Some rest.
Proof.
  induction lit as [|c lit IH]; [done|].
  rewrite str_app_cons. simpl. by rewrite Ascii.eqb_refl.
Qed.

Lemma finditer_no_error s : forall skip,
  Py.contains "ERROR " s = false -> Re.finditer skip s = [].
Proof.
  induction s as [|c s IH]; intros skip; [done|].
  cbn [Py.contains]. intros [Hp Hc]%orb_false_elim.
  cbn [Re.finditer]. destruct skip as [|k]; [|by apply IH].
  unfold Re.match_here. rewrite (literal_prefix _ _ Hp). simpl. by apply IH.
Qed.

(** X16: a text in which ["ERROR "] does not occur, the empty text among
    them, gives no record. *)
Theorem extract_error_info_no_error (error_content : string) :
  Py.contains "ERROR " error_content = false ->
  extract_error_info error_content = [].
Proof.
  intros Hc. unfold extract_error_info.
  destruct (negb (Py.truthy error_content)); [done|].
  by rewrite finditer_no_error.
Qed.

Lemma extract_error_info_no_error_witness :
  extract_error_info
    (Py.unlines ["WARNING 1 [file topol.top, line 3]:"; "  Error in the charge"]%string)
  = [].
Proof. apply extract_error_info_no_error. reflexivity. Defined.

(** *** Characters and trimming *)

Lemma digit_facts c :
  Re.is_digit c = true ->
  Py.isspace c = false /\ Ascii.eqb c "_" = false
  /\ Ascii.eqb c "+" = false /\ Ascii.eqb c "-" = false
  /\ exists v, Py.digit_val c = Some v /\ 0 <= v.
Proof.
  destruct c as [b0 b1 b2 b3 b4 b5 b6 b7].
  destruct b0, b1, b2, b3, b4, b5, b6, b7; intros H;
    try discriminate H; repeat split; try reflexivity;
    eexists; (split; [reflexivity|]); vm_compute; discriminate.
Qed.

Lemma lstrip_head s :
  Py.lstrip s = EmptyString
  \/ exists c r, Py.lstrip s = String c r /\ Py.isspace c = false.
Proof.
  induction s as [|c s IH]; [by left|]. simpl.
  destruct (Py.isspace c) eqn:E; [done|]. right. eauto.
Qed.

Lemma lstrip_noop c r : Py.isspace c = false -> Py.lstrip (String c r) = String c r.
Proof. intros H. simpl. by rewrite H. Qed.

Lemma rstrip_head c x :
  Py.isspace c = false -> exists r, Py.rstrip (String c x) = String c r.
Proof.
  intros H. simpl. destruct (Py.rstrip x); [rewrite H|]; eauto.
Qed.

Lemma rstrip_cons c s :
  Py.rstrip (String c s)
  = match Py.rstrip s with
    | EmptyString => if Py.isspace c then EmptyString else String c EmptyString
    | r => String c r
    end.
Proof. reflexivity. Qed.

Lemma rstrip_idem s : Py.rstrip (Py.rstrip s) = Py.rstrip s.
Proof.
  induction s as [|c s IH]; [done|]. rewrite rstrip_cons.
  destruct (Py.rstrip s) as [|d r] eqn:E.
  - destruct (Py.isspace c) eqn:Hc; [done|]. rewrite rstrip_cons. simpl.
    by rewrite Hc.
  - rewrite rstrip_cons, IH. done.
Qed.

(** Trimming a trimmed string changes nothing. *)
Lemma strip_idem s : Py.strip (Py.strip s) = Py.strip s.
Proof.
  unfold Py.strip.
  destruct (lstrip_head s) as [->|(c & r & -> & Hc)]; [done|].
  destruct (rstrip_head c r Hc) as [r' Hr]. rewrite Hr, lstrip_noop by done.
  by rewrite <- Hr, rstrip_idem.
Qed.

Lemma lstrip_no_space s : no_space s = true -> Py.lstrip s = s.
Proof.
  destruct s as [|c s]; [done|]. cbn [no_space].
  intros [Hc%negb_true_iff _]%andb_prop. by apply lstrip_noop.
Qed.

Lemma rstrip_no_space s : no_space s = true -> Py.rstrip s = s.
Proof.
  induction s as [|c s IH]; [done|]. cbn [no_space Py.rstrip].
  intros [Hc%negb_true_iff Hs]%andb_prop. rewrite (IH Hs).
  destruct s; [by rewrite Hc|done].
Qed.

Lemma strip_no_space s : no_space s = true -> Py.strip s = s.
Proof.
  intros H. unfold Py.strip. by rewrite lstrip_no_space, rstrip_no_space.
Qed.

Lemma digits_no_space d : all_chars Re.is_digit d = true -> no_space d = true.
Proof.
  induction d as [|c d IH]; [done|]. cbn [all_chars no_space].
  intros [Hc Hd]%andb_prop. rewrite (IH Hd), andb_true_r.
  by destruct (digit_facts c Hc) as (-> & _).
Qed.

Lemma int_digits_total d : forall acc,
  all_chars Re.is_digit d = true -> 0 <= acc ->
  exists n, Py.int_digits acc false d = Some n /\ 0 <= n.
Proof.
  induction d as [|c d IH]; intros acc Hd Hacc; [by exists acc|].
  cbn [all_chars] in Hd. apply andb_prop in Hd as [Hc Hd].
  destruct (digit_facts c Hc) as (_ & Hus & _ & _ & v & Hv & Hpos).
  cbn [Py.int_digits]. rewrite Hus, Hv. apply IH; [done|lia].
Qed.

Lemma digit_count_digits d :
  all_chars Re.is_digit d = true -> Py.digit_count d = String.length d.
Proof.
  induction d as [|c d IH]; [done|]. cbn [all_chars].
  intros [Hc Hd]%andb_prop.
  destruct (digit_facts c Hc) as (_ & _ & _ & _ & v & Hv & _).
  cbn [Py.digit_count String.length]. by rewrite Hv, (IH Hd).
Qed.

(** [int] of a non-empty string of digits: a natural number, unless the
    string has more digits than the limit. *)
Lemma int_on_digits d :
  all_chars Re.is_digit d = true -> d <> EmptyString ->
  exists n, 0 <= n
    /\ Py.int d = if (Py.max_str_digits <? String.length d)%nat
                  then None else Some n.
Proof.
  intros Hd Hne. unfold Py.int. rewrite (strip_no_space _ (digits_no_space _ Hd)).
  pose proof (digit_count_digits d Hd) as Hcount.
  destruct d as [|c d]; [done|].
  cbn [all_chars] in Hd. apply andb_prop in Hd as [Hc Hd].
  destruct (digit_facts c Hc) as (_ & _ & Hplus & Hminus & v & Hv & Hpos).
  destruct (int_digits_total d v Hd Hpos) as (n & Hn & Hn0).
  assert (Hint : Py.int_unsigned (String c d)
                 = if (Py.max_str_digits <? String.length (String c d))%nat
                   then None else Some n).
  { unfold Py.int_unsigned. rewrite Hv, Hn, Hcount. reflexivity. }
  exists n. split; [done|]. rewrite <- Hint.
  destruct c as [b0 b1 b2 b3 b4 b5 b6 b7].
  destruct b0, b1, b2, b3, b4, b5, b6, b7; try reflexivity;
    first [discriminate Hplus | discriminate Hminus].
Qed.

Lemma int_of_digits d :
  all_chars Re.is_digit d = true -> d <> EmptyString ->
  (String.length d <= Py.max_str_digits)%nat ->
  exists n, Py.int d = Some n /\ 0 <= n.
Proof.
  intros Hd Hne Hlen. destruct (int_on_digits d Hd Hne) as (n & Hn & Hint).
  exists n. split; [|done]. rewrite Hint.
  by destruct (Nat.ltb_spec Py.max_str_digits (String.length d)); [lia|].
Qed.

Lemma int_digits_nonneg d n :
  all_chars Re.is_digit d = true -> d <> EmptyString ->
  Py.int d = Some n -> 0 <= n.
Proof.
  intros Hd Hne. destruct (int_on_digits d Hd Hne) as (k & Hk & ->).
  destruct (_ <? _)%nat; [done|]. by intros [= <-].
Qed.

(** A string of more digits than the limit is refused. *)
Lemma int_digits_long d :
  all_chars Re.is_digit d = true ->
  (Py.max_str_digits < String.length d)%nat -> Py.int d = None.
Proof.
  intros Hd Hlen.
  assert (Hne : d <> EmptyString) by (intros ->; simpl in Hlen; lia).
  destruct (int_on_digits d Hd Hne) as (k & _ & ->).
  by destruct (Nat.ltb_spec Py.max_str_digits (String.length d)); [|lia].
Qed.

(** *** Substrings *)

Lemma prefix_app b : forall x t,
  String.prefix b x = true -> String.prefix b (x +:+ t) = true.
Proof.
  induction b as [|c b IH]; intros x t; [by destruct x, t|].
  destruct x as [|d x]; [done|]. rewrite str_app_cons, !prefix_cons.
  destruct (Ascii.eqb c d); [apply IH|done].
Qed.

Lemma contains_app_l b x t :
  Py.contains b x = true -> Py.contains b (x +:+ t) = true.
Proof.
  induction x as [|c x IH].
  - simpl. rewrite orb_false_r. intros H. destruct b; [|done].
    by destruct t.
  - rewrite str_app_cons. cbn [Py.contains].
    intros [H|H]%orb_prop; apply orb_true_iff.
    + left. by apply (prefix_app b (String c x) t).
    + right. by apply IH.
Qed.

Lemma contains_lstrip b s :
  Py.contains b (Py.lstrip s) = true -> Py.contains b s = true.
Proof.
  induction s as [|c s IH]; [done|]. simpl Py.lstrip.
  destruct (Py.isspace c); [|done].
  intros H%IH. cbn [Py.contains]. by rewrite H, orb_true_r.
Qed.

Lemma rstrip_prefix s : exists t, s = Py.rstrip s +:+ t.
Proof.
  induction s as [|c s [t IH]]; [by exists EmptyString|]. rewrite rstrip_cons.
  destruct (Py.rstrip s) as [|d r] eqn:E.
  - destruct (Py.isspace c).
    + by exists (String c s).
    + exists s. done.
  - exists t. rewrite str_app_cons. by f_equal.
Qed.

Lemma contains_rstrip b s :
  Py.contains b (Py.rstrip s) = true -> Py.contains b s = true.
Proof.
  intros H. destruct (rstrip_prefix s) as [t Ht]. rewrite Ht.
  by apply contains_app_l.
Qed.

Lemma contains_strip b s :
  Py.contains b s = false -> Py.contains b (Py.strip s) = false.
Proof.
  intros H. apply not_true_is_false. intros Hc. unfold Py.strip in Hc.
  apply contains_rstrip, contains_lstrip in Hc. congruence.
Qed.

(** *** The pieces of the pattern *)

Lemma span_spec p s m rest :
  Re.span p s = (m, rest) -> s = m +:+ rest /\ all_chars p m = true.
Proof.
  revert m rest. induction s as [|c s IH]; intros m rest; simpl.
  - by intros [= <- <-].
  - destruct (p c) eqn:Hc; [|by intros [= <- <-]].
    destruct (Re.span p s) as [m' rest'] eqn:E. intros [= <- <-].
    destruct (IH _ _ eq_refl) as [-> Hm]. split; [done|].
    cbn [all_chars]. by rewrite Hc, Hm.
Qed.

Lemma many1_spec p s m rest :
  Re.many1 p s = Some (m, rest) ->
  s = m +:+ rest /\ all_chars p m = true /\ m <> EmptyString.
Proof.
  unfold Re.many1. destruct (Re.span p s) as [m' rest'] eqn:E.
  destruct m' as [|c m']; [done|]. intros [= <- <-].
  destruct (span_spec _ _ _ _ E) as [-> Hm]. done.
Qed.

Lemma lazy_to_blank_spec s : forall g rest,
  Re.lazy_to_blank s = (g, rest) ->
  s = g +:+ rest /\ Py.contains Re.blank g = false
  /\ (rest = EmptyString \/ String.prefix Re.blank rest = true).
Proof.
  induction s as [|c s IH]; intros g rest.
  - intros [= <- <-]. auto.
  - cbn [Re.lazy_to_blank].
    destruct (String.prefix Re.blank (String c s)) eqn:Hp.
    + intros [= <- <-]. auto.
    + destruct (Re.lazy_to_blank s) as [m rest'] eqn:E. intros [= <- <-].
      destruct (IH _ _ eq_refl) as (Hs & Hm & Hrest).
      split; [by rewrite str_app_cons, <- Hs|]. split; [|done].
      cbn [Py.contains]. rewrite Hm, orb_false_r.
      apply not_true_is_false. intros Hpm.
      apply (prefix_app _ _ rest') in Hpm.
      rewrite str_app_cons, <- Hs in Hpm. congruence.
Qed.

(** A match is a non-empty piece of the text; its first two groups are
    non-empty strings of digits and its third holds no blank line. *)
Lemma match_here_spec s g1 g2 g3 rest :
  Re.match_here s = Some (g1, g2, g3, rest) ->
  all_chars Re.is_digit g1 = true /\ g1 <> EmptyString
  /\ all_chars Re.is_digit g2 = true /\ g2 <> EmptyString
  /\ Py.contains Re.blank g3 = false
  /\ exists c consumed, s = String c consumed +:+ rest.
Proof.
  unfold Re.match_here. intros H.
  destruct (Re.literal "ERROR " s) as [s1|] eqn:E1; [|done].
  cbn [mbind option_bind] in H.
  destruct (Re.many1 Re.is_digit s1) as [[g1' s2]|] eqn:E2; [|done].
  cbn [mbind option_bind] in H.
  destruct (Re.literal " [file topol.top, line " s2) as [s3|] eqn:E3; [|done].
  cbn [mbind option_bind] in H.
  destruct (Re.many1 Re.is_digit s3) as [[g2' s4]|] eqn:E4; [|done].
  cbn [mbind option_bind] in H.
  destruct (Re.literal "]:" s4) as [s5|] eqn:E5; [|done].
  cbn [mbind option_bind] in H.
  destruct (Re.many1 Py.isspace s5) as [[ws s6]|] eqn:E6; [|done].
  cbn [mbind option_bind] in H.
  destruct (Re.lazy_to_blank s6) as [g3' rest'] eqn:E7.
  injection H as <- <- <- <-.
  apply many1_spec in E2 as (-> & Hg1 & Hn1).
  apply many1_spec in E4 as (-> & Hg2 & Hn2).
  apply many1_spec in E6 as (-> & _ & _).
  apply lazy_to_blank_spec in E7 as (-> & Hg3 & _).
  apply literal_app in E1, E3, E5. subst.
  repeat split; try done.
  eexists _, _. rewrite <- !str_app_assoc, str_app_cons. reflexivity.
Qed.

Lemma finditer_groups s : forall skip g1 g2 g3,
  In (g1, g2, g3) (Re.finditer skip s) ->
  all_chars Re.is_digit g1 = true /\ g1 <> EmptyString
  /\ all_chars Re.is_digit g2 = true /\ g2 <> EmptyString
  /\ Py.contains Re.blank g3 = false.
Proof.
  induction s as [|c s IH]; intros skip g1 g2 g3; [done|].
  cbn [Re.finditer]. destruct skip as [|k]; [|apply IH].
  destruct (Re.match_here (String c s)) as [[[[h1 h2] h3] rest]|] eqn:E;
    [|apply IH].
  intros [[= <- <- <-]|Hin]; [|by eapply IH].
  apply match_here_spec in E. tauto.
Qed.

Lemma error_of_match_spec g1 g2 g3 e :
  error_of_match (g1, g2, g3) = Some e ->
  Py.int g1 = Some (error_num e) /\ Py.int g2 = Some (line_number e)
  /\ error_msg e = Py.strip g3
  /\ section e = None /\ atoms e = None /\ atom_names e = None
  /\ residues e = None /\ atom_types e = None.
Proof.
  unfold error_of_match. intros H. by simplify_option_eq.
Qed.

Lemma extract_error_info_In error_content e :
  In e (extract_error_info error_content) ->
  exists g1 g2 g3 skip,
    In (g1, g2, g3) (Re.finditer skip error_content)
    /\ error_of_match (g1, g2, g3) = Some e.
Proof.
  unfold extract_error_info. destruct (negb _); [done|].
  destruct (mapM error_of_match (Re.finditer 0 error_content)) as [es|] eqn:E;
    [|done].
  simpl. intros Hin%list_elem_of_In. apply mapM_Some_1 in E.
  apply list_elem_of_lookup_1 in Hin as [i Hi].
  destruct (Forall2_lookup_r _ _ _ _ _ E Hi) as ([[g1 g2] g3] & Hm & He).
  exists g1, g2, g3, 0%nat. split; [|done].
  apply list_elem_of_In. by eapply list_elem_of_lookup_2.
Qed.

(** X17: every record returned by the parser has a non-negative error number
    and line number, a message that is trimmed and holds no blank line, and
    none of the fields the correlator adds later. *)
Theorem extract_error_info_records (error_content : string) (e : ErrorRecord) :
  In e (extract_error_info error_content) ->
  0 <= error_num e /\ 0 <= line_number e
  /\ Py.strip (error_msg e) = error_msg e
  /\ Py.contains Re.blank (error_msg e) = false
  /\ section e = None /\ atoms e = None /\ atom_names e = None
  /\ residues e = None /\ atom_types e = None.
Proof.
  intros (g1 & g2 & g3 & skip & Hin & He)%extract_error_info_In.
  apply finditer_groups in Hin as (Hd1 & Hn1 & Hd2 & Hn2 & Hb).
  apply error_of_match_spec in He as (H1 & H2 & Hmsg & Hrest).
  pose proof (int_digits_nonneg g1 _ Hd1 Hn1 H1) as Hn0.
  pose proof (int_digits_nonneg g2 _ Hd2 Hn2 H2) as Hm0.
  rewrite Hmsg, strip_idem. repeat split; try tauto; try done.
  by apply contains_strip.
Qed.

Lemma extract_error_info_records_witness :
  let error_content :=
    Py.unlines ["ERROR 3 [file topol.top, line 0]:"; "  No default U-B types  ";
                ""; "junk"]%string in
  let e := mk_error 3 0 "No default U-B types" None None None None None in
  In e (extract_error_info error_content)
  /\ 0 <= error_num e /\ 0 <= line_number e
  /\ Py.strip (error_msg e) = error_msg e.
Proof.
  intros error_content e.
  assert (Hin : In e (extract_error_info error_content)) by (vm_compute; auto).
  split; [exact Hin|].
  destruct (extract_error_info_records error_content e Hin) as (H1 & H2 & H3 & _).
  auto.
Defined.

(** *** One block of the log *)

Lemma span_app p a : forall b,
  all_chars p a = true ->
  (forall c r, b = String c r -> p c = false) ->
  Re.span p (a +:+ b) = (a, b).
Proof.
  induction a as [|c a IH]; intros b Ha Hb.
  - destruct b as [|d b]; [done|]. simpl. by rewrite (Hb d b eq_refl).
  - cbn [all_chars] in Ha. apply andb_prop in Ha as [Hc Ha].
    rewrite str_app_cons. cbn [Re.span]. by rewrite Hc, IH.
Qed.

Lemma many1_app p a b :
  all_chars p a = true -> a <> EmptyString ->
  (forall c r, b = String c r -> p c = false) ->
  Re.many1 p (a +:+ b) = Some (a, b).
Proof.
  intros Ha Hne Hb. unfold Re.many1. rewrite span_app by done.
  by destruct a.
Qed.

Lemma lstrip_length s : (String.length (Py.lstrip s) <= String.length s)%nat.
Proof.
  induction s as [|c s IH]; [done|]. simpl.
  destruct (Py.isspace c); simpl; lia.
Qed.

Lemma rstrip_length s : (String.length (Py.rstrip s) <= String.length s)%nat.
Proof.
  induction s as [|c s IH]; [done|]. rewrite rstrip_cons.
  destruct (Py.rstrip s); [destruct (Py.isspace c)|]; simpl in *; lia.
Qed.

(** A non-empty trimmed string starts with a character that is not
    whitespace and is not changed by trimming on the right. *)
Lemma trimmed_spec msg :
  Py.strip msg = msg -> msg <> EmptyString ->
  (exists c r, msg = String c r /\ Py.isspace c = false)
  /\ Py.rstrip msg = msg.
Proof.
  intros Hs Hne. destruct msg as [|c r]; [done|].
  destruct (Py.isspace c) eqn:Hc.
  - exfalso. unfold Py.strip in Hs. simpl Py.lstrip in Hs. rewrite Hc in Hs.
    pose proof (rstrip_length (Py.lstrip r)). pose proof (lstrip_length r).
    rewrite Hs in H. simpl in H. lia.
  - split; [eauto|]. unfold Py.strip in Hs. by rewrite lstrip_noop in Hs.
Qed.

Lemma lazy_to_blank_app msg : forall tail,
  Py.rstrip msg = msg -> Py.contains Re.blank msg = false ->
  (tail = EmptyString \/ String.prefix Re.blank tail = true) ->
  Re.lazy_to_blank (msg +:+ tail) = (msg, tail).
Proof.
  induction msg as [|c msg IH]; intros tail Hr Hb Htail.
  - change (EmptyString +:+ tail) with tail.
    destruct Htail as [->|Hp]; [done|]. destruct tail as [|d tail]; [done|].
    cbn [Re.lazy_to_blank]. by rewrite Hp.
  - cbn [Py.contains] in Hb. apply orb_false_elim in Hb as [Hp Hb].
    assert (Hr' : Py.rstrip msg = msg /\ (msg = EmptyString -> Py.isspace c = false)).
    { rewrite rstrip_cons in Hr. destruct (Py.rstrip msg) as [|d r] eqn:E.
      - destruct (Py.isspace c); [done|]. by injection Hr as <-.
      - injection Hr as <-. split; [done|]. done. }
    destruct Hr' as [Hr' Hlast].
    rewrite str_app_cons. cbn [Re.lazy_to_blank].
    assert (Hnp : String.prefix Re.blank (String c (msg +:+ tail)) = false).
    { destruct msg as [|d msg].
      - specialize (Hlast eq_refl). change (EmptyString +:+ tail) with tail.
        unfold Re.blank. rewrite prefix_cons.
        destruct (Ascii.eqb_spec Py.nl c) as [<-|]; [|done].
        by vm_compute in Hlast.
      - rewrite str_app_cons. unfold Re.blank in *.
        rewrite !prefix_cons in Hp |- *.
        destruct (Ascii.eqb Py.nl c); [|done].
        destruct (Ascii.eqb Py.nl d); [|done].
        simpl in Hp. by destruct msg. }
    rewrite Hnp. by rewrite (IH tail Hr' Hb Htail).
Qed.

Lemma match_here_block d1 d2 ws msg tail :
  all_chars Re.is_digit d1 = true -> d1 <> EmptyString ->
  all_chars Re.is_digit d2 = true -> d2 <> EmptyString ->
  all_chars Py.isspace ws = true -> ws <> EmptyString ->
  Py.strip msg = msg -> msg <> EmptyString ->
  Py.contains Re.blank msg = false ->
  (tail = EmptyString \/ String.prefix Re.blank tail = true) ->
  Re.match_here (error_block d1 d2 ws msg +:+ tail) = Some (d1, d2, msg, tail).
Proof.
  intros Hd1 Hn1 Hd2 Hn2 Hws Hnws Hstrip Hnmsg Hblank Htail.
  destruct (trimmed_spec msg Hstrip Hnmsg) as [(c & r & Hmsg & Hc) Hr].
  unfold error_block, Re.match_here. rewrite !str_app_assoc.
  rewrite literal_here. cbn [mbind option_bind].
  rewrite many1_app; [|done|done|by intros ? ? [= <- _]].
  cbn [mbind option_bind]. rewrite literal_here. cbn [mbind option_bind].
  rewrite many1_app; [|done|done|by intros ? ? [= <- _]].
  cbn [mbind option_bind]. rewrite literal_here. cbn [mbind option_bind].
  rewrite many1_app; [|done|done|].
  - cbn [mbind option_bind]. by rewrite lazy_to_blank_app.
  - intros c' r'. rewrite Hmsg, str_app_cons. by intros [= <- _].
Qed.

Lemma finditer_skip a : forall b,
  Re.finditer (String.length a) (a +:+ b) = Re.finditer 0 b.
Proof.
  induction a as [|c a IH]; intros b.
  - change (EmptyString +:+ b) with b. by destruct b.
  - rewrite str_app_cons. cbn [String.length Re.finditer]. apply IH.
Qed.

(** *** Runs of digits *)

Lemma digit_runs_mono limit s : forall run run',
  (run' <= run)%nat ->
  digit_runs_within limit run s = true -> digit_runs_within limit run' s = true.
Proof.
  induction s as [|c s IH]; intros run run' Hle; [done|].
  cbn [digit_runs_within]. destruct (Re.is_digit c); [|done].
  intros [H1%Nat.leb_le H2]%andb_prop. apply andb_true_intro. split.
  - apply Nat.leb_le. lia.
  - apply (IH (S run)); [lia|done].
Qed.

Lemma digit_runs_suffix limit a : forall run b,
  digit_runs_within limit run (a +:+ b) = true ->
  digit_runs_within limit 0 b = true.
Proof.
  induction a as [|c a IH]; intros run b.
  - change (EmptyString +:+ b) with b. apply digit_runs_mono. lia.
  - rewrite str_app_cons. cbn [digit_runs_within]. destruct (Re.is_digit c).
    + intros [_ H]%andb_prop. by eapply IH.
    + apply IH.
Qed.

Lemma digit_runs_prefix limit d : forall run b,
  all_chars Re.is_digit d = true -> d <> EmptyString ->
  digit_runs_within limit run (d +:+ b) = true ->
  (run + String.length d <= limit)%nat.
Proof.
  induction d as [|c d IH]; intros run b Hd Hne; [done|].
  cbn [all_chars] in Hd. apply andb_prop in Hd as [Hc Hd].
  rewrite str_app_cons. cbn [digit_runs_within String.length]. rewrite Hc.
  intros [H1%Nat.leb_le H2]%andb_prop.
  destruct d as [|c' d']; [cbn [String.length]; lia|].
  apply IH in H2; [|done|done]. cbn [String.length] in *. lia.
Qed.

(** The two numbers of a match are runs of digits of the text. *)
Lemma match_here_digit_runs limit s g1 g2 g3 rest :
  Re.match_here s = Some (g1, g2, g3, rest) ->
  digit_runs_within limit 0 s = true ->
  (String.length g1 <= limit)%nat /\ (String.length g2 <= limit)%nat.
Proof.
  unfold Re.match_here. intros H Hruns.
  destruct (Re.literal "ERROR " s) as [s1|] eqn:E1; [|done].
  cbn [mbind option_bind] in H.
  destruct (Re.many1 Re.is_digit s1) as [[g1' s2]|] eqn:E2; [|done].
  cbn [mbind option_bind] in H.
  destruct (Re.literal " [file topol.top, line " s2) as [s3|] eqn:E3; [|done].
  cbn [mbind option_bind] in H.
  destruct (Re.many1 Re.is_digit s3) as [[g2' s4]|] eqn:E4; [|done].
  cbn [mbind option_bind] in H.
  destruct (Re.literal "]:" s4) as [s5|] eqn:E5; [|done].
  cbn [mbind option_bind] in H.
  destruct (Re.many1 Py.isspace s5) as [[ws s6]|] eqn:E6; [|done].
  cbn [mbind option_bind] in H.
  destruct (Re.lazy_to_blank s6) as [g3' rest'] eqn:E7.
  injection H as <- <- <- <-.
  apply many1_spec in E2 as (-> & Hg1 & Hn1).
  apply many1_spec in E4 as (-> & Hg2 & Hn2).
  apply literal_app in E1, E3. subst s s2.
  apply digit_runs_suffix in Hruns.
  pose proof (digit_runs_prefix _ _ _ _ Hg1 Hn1 Hruns) as Hlen1.
  rewrite <- str_app_assoc in Hruns. apply digit_runs_suffix in Hruns.
  pose proof (digit_runs_prefix _ _ _ _ Hg2 Hn2 Hruns) as Hlen2.
  lia.
Qed.

Lemma digit_runs_tail limit c s :
  digit_runs_within limit 0 (String c s) = true ->
  digit_runs_within limit 0 s = true.
Proof.
  change (String c s) with (String c EmptyString +:+ s).
  apply digit_runs_suffix.
Qed.

Lemma finditer_digit_runs limit s : forall skip g1 g2 g3,
  digit_runs_within limit 0 s = true ->
  In (g1, g2, g3) (Re.finditer skip s) ->
  (String.length g1 <= limit)%nat /\ (String.length g2 <= limit)%nat.
Proof.
  induction s as [|c s IH]; intros skip g1 g2 g3 Hruns; [done|].
  pose proof (digit_runs_tail _ _ _ Hruns) as Htail.
  cbn [Re.finditer]. destruct skip as [|k]; [|by apply IH].
  destruct (Re.match_here (String c s)) as [[[[h1 h2] h3] rest]|] eqn:E;
    [|by apply IH].
  intros [[= <- <- <-]|Hin]; [|by eapply IH].
  by eapply match_here_digit_runs.
Qed.

(** Without a run of more digits than [int] accepts, every match is
    converted. *)
Lemma finditer_converts s skip :
  digit_runs_within Py.max_str_digits 0 s = true ->
  exists es, mapM error_of_match (Re.finditer skip s) = Some es.
Proof.
  intros Hruns.
  apply (mapM_is_Some_2 error_of_match). apply Forall_forall.
  intros [[g1 g2] g3] Hin%list_elem_of_In.
  destruct (finditer_digit_runs _ _ _ _ _ _ Hruns Hin) as [Hl1 Hl2].
  apply finditer_groups in Hin as (Hd1 & Hn1 & Hd2 & Hn2 & _).
  destruct (int_of_digits g1 Hd1 Hn1 Hl1) as (n & Hn & _).
  destruct (int_of_digits g2 Hd2 Hn2 Hl2) as (m & Hm & _).
  unfold compose, error_of_match. rewrite Hn, Hm. simpl. eauto.
Qed.

(** X18: a block [ERROR <n> [file topol.top, line <m>]:], whitespace, and a
    non-empty trimmed message without blank line, with two numbers that
    [int] accepts, followed by the end of the text or by a blank line and
    more text.  When the rest of the text has no run of more digits than
    [int] accepts, the result is the record of the block followed by the
    records of the rest, parsed on its own.  When the rest holds a match with
    a number that [int] refuses, the result is empty: the record of the block
    is lost with the others. *)
Theorem extract_error_info_block
    (d1 d2 ws msg tail : string) (n m : Z) :
  all_chars Re.is_digit d1 = true -> Py.int d1 = Some n ->
  all_chars Re.is_digit d2 = true -> Py.int d2 = Some m ->
  all_chars Py.isspace ws = true -> ws <> EmptyString ->
  Py.strip msg = msg -> msg <> EmptyString ->
  Py.contains Re.blank msg = false ->
  (tail = EmptyString \/ String.prefix Re.blank tail = true) ->
  let text := error_block d1 d2 ws msg +:+ tail in
  (digit_runs_within Py.max_str_digits 0 tail = true ->
   extract_error_info text
   = mk_error n m msg None None None None None :: extract_error_info tail)
  /\ (forall g1 g2 g3,
        In (g1, g2, g3) (Re.finditer 0 tail) ->
        Py.int g1 = None \/ Py.int g2 = None ->
        extract_error_info text = []).
Proof.
  intros Hd1 Hn Hd2 Hm Hws Hnws Hstrip Hnmsg Hblank Htail text. subst text.
  assert (Hn1 : d1 <> EmptyString) by (by intros ->).
  assert (Hn2 : d2 <> EmptyString) by (by intros ->).
  pose proof (match_here_block d1 d2 ws msg tail Hd1 Hn1 Hd2 Hn2 Hws Hnws
                Hstrip Hnmsg Hblank Htail) as Hmatch.
  assert (Hshape : exists c a, error_block d1 d2 ws msg = String c a).
  { unfold error_block. eexists _, _. by rewrite str_app_cons. }
  destruct Hshape as (c & a & Hshape). rewrite Hshape in Hmatch |- *.
  rewrite str_app_cons in Hmatch |- *.
  unfold extract_error_info at 1 3. cbn [Py.truthy negb Re.finditer].
  rewrite Hmatch.
  replace (String.length (String c (a +:+ tail)) - String.length tail - 1)%nat
    with (String.length a)
    by (cbn [String.length]; rewrite str_length_app; lia).
  rewrite finditer_skip.
  assert (Herr : error_of_match (d1, d2, msg)
                 = Some (mk_error n m msg None None None None None)).
  { unfold error_of_match. rewrite Hn, Hm. simpl. by rewrite Hstrip. }
  split.
  - intros Hruns. destruct (finditer_converts tail 0 Hruns) as [es Hes].
    assert (Hcons : mapM error_of_match ((d1, d2, msg) :: Re.finditer 0 tail)
                    = Some (mk_error n m msg None None None None None :: es)).
    { apply mapM_Some_2. constructor; [done|]. by apply mapM_Some_1. }
    rewrite Hcons. simpl. f_equal. unfold extract_error_info.
    destruct tail as [|t tail]; [by injection Hes as <-|].
    cbn [Py.truthy negb]. by rewrite Hes.
  - intros g1 g2 g3 Hin Hnone.
    destruct (mapM error_of_match ((d1, d2, msg) :: Re.finditer 0 tail))
      as [es|] eqn:E; [|done].
    exfalso. apply mapM_Some_1, Forall2_cons_inv_l in E
      as (e & es' & _ & Hall & _).
    apply list_elem_of_In, list_elem_of_lookup_1 in Hin as [i Hi].
    destruct (Forall2_lookup_l _ _ _ _ _ Hall Hi) as (e' & _ & He').
    apply error_of_match_spec in He' as (H1 & H2 & _).
    destruct Hnone; congruence.
Qed.

Lemma extract_error_info_block_witness :
  let ws := String.append newline "  " in
  let tail :=
    Py.unlines [""; ""; "ERROR 2 [file topol.top, line 40]:";
                "  No default Proper Dih. types"]%string in
  let long := repeat_str "7" 4301 in
  let tail' :=
    Re.blank +:+ error_block "2" long " " "No default Proper Dih. types" in
  extract_error_info (error_block "1" "12" ws "No default U-B types" +:+ tail)
  = mk_error 1 12 "No default U-B types" None None None None None
      :: extract_error_info tail
  /\ Py.int long = None
  /\ extract_error_info (error_block "1" "12" ws "No default U-B types" +:+ tail')
     = [].
Proof.
  intros ws tail long tail'.
  set (msg := "No default U-B types"%string).
  assert (Hlong : Py.int long = None) by (vm_compute; reflexivity).
  assert (H1 : all_chars Re.is_digit "1" = true) by reflexivity.
  assert (H2 : Py.int "1" = Some 1) by (vm_compute; reflexivity).
  assert (H3 : all_chars Re.is_digit "12" = true) by reflexivity.
  assert (H4 : Py.int "12" = Some 12) by (vm_compute; reflexivity).
  assert (H5 : all_chars Py.isspace ws = true) by reflexivity.
  assert (H6 : ws <> EmptyString) by discriminate.
  assert (H7 : Py.strip msg = msg) by reflexivity.
  assert (H8 : msg <> EmptyString) by discriminate.
  assert (H9 : Py.contains Re.blank msg = false) by reflexivity.
  assert (Htail : tail = EmptyString \/ String.prefix Re.blank tail = true)
    by (right; reflexivity).
  assert (Htail' : tail' = EmptyString \/ String.prefix Re.blank tail' = true)
    by (right; vm_compute; reflexivity).
  assert (Hruns : digit_runs_within Py.max_str_digits 0 tail = true)
    by (vm_compute; reflexivity).
  assert (Hin : In ("2"%string, long, "No default Proper Dih. types"%string)
                   (Re.finditer 0 tail')) by (vm_compute; auto).
  split; [|split; [exact Hlong|]].
  - exact (proj1 (extract_error_info_block "1" "12" ws msg tail 1 12
                    H1 H2 H3 H4 H5 H6 H7 H8 H9 Htail) Hruns).
  - exact (proj2 (extract_error_info_block "1" "12" ws msg tail' 1 12
                    H1 H2 H3 H4 H5 H6 H7 H8 H9 Htail') _ _ _ Hin
                 (or_intror Hlong)).
Defined.

(** ** The whole run *)

Example main_example :
  let r :=
    main (Py.unlines ["ERROR 1 [file topol.top, line 7]:";
                      "  No default U-B types"; "";
                      "ERROR 2 [file topol.top, line 9]:";
                      "  No default Proper Dih. types"]%string)
         (Py.unlines ["[ atoms ]"; "1 CT1 1 ALA CA 1"; "2 C 1 ALA C 2";
                      "3 O 1 ALA O 3"; ""; "[ angles ]"; "1 2 3 5";
                      "[ dihedrals ]"; "1 2 3 4 9"]%string) in
  Py.readlines (dummy_parameters r)
  = map (fun l => l +:+ newline)
      ["; Dummy parameters generated for topology errors"; "";
       "[ angletypes ]";
       ";      i        j        k  func       theta0       ktheta          ub0          kub";
       "     CT1        C        O     1   120.000000   200.000000   0.00000000         0.00 ;";
       "";
       "[ dihedraltypes ]";
       ";      i        j        k        l  func         phi0         kphi  mult";
       String.append "     CT1        C        O  Unknown"
         (String.append tab (String.append tab
            "9       0.000000       0.000000     1 ;"));
       ""; "; End of dummy parameters"]%string
  /\ Py.readlines (analysis_results r)
     = map (fun l => l +:+ newline)
         ["Topology Error Analysis Results"; "=============================="; "";
          "Total errors found: 2"; "";
          "Error 1:"; "  Line: 7"; "  Message: No default U-B types";
          "  Atoms involved: 1, 2, 3"; "  Atom names: CA, C, O";
          "  Atom types: CT1, C, O"; "  Residues: ALA1, ALA1, ALA1";
          ""; "------------------------------"; "";
          "Error 2:"; "  Line: 9"; "  Message: No default Proper Dih. types";
          "  Atoms involved: 1, 2, 3, 4";
          "  Atom names: CA, C, O, Unknown-4";
          "  Atom types: CT1, C, O, Unknown";
          "  Residues: ALA1, ALA1, ALA1, Unknown";
          ""; "------------------------------"; "";
          ""; "Analysis completed."]%string.
Proof. vm_compute. split; reflexivity. Qed.

Lemma split_tokens s : Forall (fun t => is_token t = true) (Py.split s).
Proof.
  induction s as [|c s IH]; [constructor|]. rewrite split_cons.
  destruct (Py.isspace c) eqn:Hc; [done|].
  assert (Hone : is_token (String c EmptyString) = true)
    by (unfold is_token; simpl; by rewrite Hc).
  destruct s as [|c' s']; [by repeat constructor|].
  destruct (Py.isspace c'); [by constructor|].
  destruct (Py.split (String c' s')) as [|t ts]; [by repeat constructor|].
  apply Forall_cons in IH as [Ht Hts]. constructor; [|done].
  unfold is_token in *. cbn [Py.truthy no_space]. rewrite Hc. simpl.
  by apply andb_prop in Ht as [_ ->].
Qed.

Lemma lookup_token (tokens : list string) k t :
  Forall (fun t => is_token t = true) tokens -> tokens !! k = Some t ->
  is_token t = true.
Proof. intros HF Hk. by apply (Forall_lookup_1 _ _ _ _ HF Hk). Qed.

Lemma parse_atom_line_tokens row (m m' : gmap Z AtomInfo) :
  (forall n i, m !! n = Some i -> info_tokens i) ->
  parse_atom_line row m = Some m' ->
  forall n i, m' !! n = Some i -> info_tokens i.
Proof.
  intros Hm. unfold parse_atom_line.
  pose proof (split_tokens row) as Htok.
  destruct (5 <=? length (Py.split row))%nat; [|by intros [= <-]].
  intros Hp. simplify_option_eq. intros n i.
  rewrite lookup_insert. case_decide; [|by apply Hm].
  intros [= <-]. unfold info_tokens. simpl.
  repeat split; by eapply lookup_token.
Qed.

Lemma atoms_loop_tokens atoms_end file : forall line_num (m m' : gmap Z AtomInfo),
  (forall n i, m !! n = Some i -> info_tokens i) ->
  atoms_loop atoms_end line_num file m = Some m' ->
  forall n i, m' !! n = Some i -> info_tokens i.
Proof.
  induction file as [|line rest IH]; intros line_num m m' Hm; simpl.
  - by intros [= <-].
  - destruct (negb (lt_end line_num atoms_end)); [by intros [= <-]|].
    destruct (is_skipped (Py.strip line)); [by apply IH|].
    destruct (parse_atom_line (Py.strip line) m) as [m1|] eqn:E; [|done].
    simpl. apply IH. by eapply parse_atom_line_tokens.
Qed.

Lemma extract_atom_names_tokens topology_file section_lines n i :
  extract_atom_names topology_file section_lines !! n = Some i -> info_tokens i.
Proof.
  unfold extract_atom_names, extract_atom_names_try.
  destruct (dict_get section_lines "[ atoms ]") as [atoms_start|];
    [|simpl; by rewrite lookup_empty].
  destruct (skip_lines _ _) as [file'|]; simpl; [|by rewrite lookup_empty].
  destruct (atoms_loop _ _ file' ∅) as [m'|] eqn:E; simpl;
    [|by rewrite lookup_empty].
  eapply atoms_loop_tokens; [|done]. intros ? ?. by rewrite lookup_empty.
Qed.

Lemma type_of_token (m : gmap Z AtomInfo) atom :
  (forall n i, m !! n = Some i -> info_tokens i) ->
  is_token (type_of m atom) = true.
Proof.
  intros Hm. unfold type_of. destruct (m !! atom) as [i|] eqn:E; [|done].
  by destruct (Hm _ _ E) as (_ & ? & _).
Qed.

Lemma correlate_error_shape section_lines topology_file
    (atom_info : gmap Z AtomInfo) error :
  let e := correlate_error section_lines topology_file atom_info error in
  error_num e = error_num error /\ line_number e = line_number error
  /\ error_msg e = error_msg error
  /\ (section e = section error
      \/ exists s v, section e = Some s /\ In (s, v) section_lines)
  /\ exists zs,
       atoms e = Some zs
       /\ ((atom_names e = Some [] /\ residues e = Some []
            /\ atom_types e = Some [])
           \/ (atom_info <> ∅
               /\ atom_names e = Some (map (name_of atom_info) zs)
               /\ residues e = Some (map (residue_of atom_info) zs)
               /\ atom_types e = Some (map (type_of atom_info) zs))).
Proof.
  unfold correlate_error, identify_atoms_from_context.
  destruct (find_error_section _ _ _) as [s|] eqn:Hs; simpl.
  2: { repeat split; auto. exists []. auto 10. }
  assert (Hsec : exists s' v, Some s = Some s' /\ In (s', v) section_lines).
  { apply find_error_section_Some in Hs as (v & Hin & _). eauto. }
  destruct (find_line _ _ _) as [content|]; simpl.
  2: { repeat split; auto. exists []. auto 10. }
  destruct (extract_atoms _ _) as [zs|]; simpl.
  2: { repeat split; auto. exists []. auto 10. }
  rewrite resolve_atoms_spec. simpl.
  destruct (bool_decide (atom_info = ∅)) eqn:E; simpl.
  - repeat split; auto. exists zs. auto 10.
  - apply bool_decide_eq_false in E. repeat split; auto. exists zs. auto 10.
Qed.

Lemma correlate_error_enriched file topology_file atom_info e0 :
  section e0 = None ->
  (forall n i, atom_info !! n = Some i -> info_tokens i) ->
  enriched_from e0 (correlate_error (index_sections file) topology_file
                                    atom_info e0).
Proof.
  intros Hsec0 Htok.
  pose proof (correlate_error_shape (index_sections file) topology_file
                atom_info e0) as H. cbv zeta in H.
  destruct H as (H1 & H2 & H3 & Hsec & zs & Ha & Hlists).
  unfold enriched_from. repeat split; try done.
  - destruct Hsec as [->|(s & v & Hs & Hin)]; [by left|].
    right. exists s. split; [done|]. by eapply index_sections_keys.
  - exists zs.
    destruct Hlists as [(Hn & Hr & Ht)|(Hne & Hn & Hr & Ht)].
    + exists [], [], []. repeat split; auto.
    + exists (map (name_of atom_info) zs), (map (residue_of atom_info) zs),
        (map (type_of atom_info) zs).
      rewrite !length_map. repeat split; auto.
      apply Forall_forall. intros t (z & -> & _)%list_elem_of_fmap.
      by apply type_of_token.
Qed.

(** X19: the records after the correlation loop of [main] are the parsed
    records in the same order, each with its number, line and message
    unchanged, the four lists present (names, residues and types of one
    length, which is 0 or the number of atoms), atom types that are tokens,
    and a section that is one of the six names when it is present. *)
Theorem main_records_enriched (errors_txt topol_top : string) :
  Forall2 enriched_from (extract_error_info errors_txt)
          (main_errors (main errors_txt topol_top)).
Proof.
  unfold main. simpl. apply Forall2_fmap_r, Forall_Forall2_diag, Forall_forall.
  intros e0 He0%list_elem_of_In.
  apply extract_error_info_In in He0 as (g1 & g2 & g3 & skip & _ & He).
  apply error_of_match_spec in He as (_ & _ & _ & Hsec & _).
  apply correlate_error_enriched; [done|].
  intros n i. apply extract_atom_names_tokens.
Qed.

Lemma process_no_types errors :
  (forall e, In e errors -> atom_types e = Some [] \/ atom_types e = None) ->
  process_errors_for_dummies errors = mk_dummies [] [].
Proof.
  intros Hnone.
  assert (Hrows : forall e, In e errors ->
                            angle_rows_of e = [] /\ dihedral_rows_of e = []).
  { intros e He. unfold angle_rows_of, dihedral_rows_of, process_error.
    by destruct (Hnone e He) as [-> | ->]. }
  unfold process_errors_for_dummies.
  rewrite process_loop_angles, process_loop_dihedrals.
  assert (generated_angles errors = [] /\ generated_dihedrals errors = [])
    as [-> ->]; [|done].
  unfold generated_angles, generated_dihedrals.
  induction errors as [|e errors IH]; [done|]. simpl.
  destruct (Hrows e (or_introl eq_refl)) as [-> ->]. simpl.
  apply IH; intros; [apply Hnone|apply Hrows]; by right.
Qed.

(** X20: when the atom table is empty (no [[ atoms ]] section, or a row that
    made the table builder give up), a run generates no placeholder at all,
    whatever the errors: the parameter file holds its two comment lines
    only. *)
Theorem main_empty_table_no_dummies (errors_txt topol_top : string) :
  extract_atom_names topol_top (get_context_from_topology topol_top) = ∅ ->
  dummy_parameters (main errors_txt topol_top)
  = Py.unlines ["; Dummy parameters generated for topology errors"; "";
                "; End of dummy parameters"]%string.
Proof.
  intros Hempty. unfold main. simpl. rewrite Hempty.
  rewrite process_no_types; [reflexivity|].
  intros e (e0 & <- & _)%in_map_iff. left.
  pose proof (correlate_error_shape (get_context_from_topology topol_top)
                topol_top ∅ e0) as H. cbv zeta in H.
  destruct H as (_ & _ & _ & _ & zs & _ & [(_ & _ & Ht)|(Hne & _)]);
    [done|by destruct Hne].
Qed.

Lemma main_empty_table_no_dummies_witness :
  dummy_parameters
    (main (Py.unlines ["ERROR 1 [file topol.top, line 5]:";
                       "  No default U-B types"]%string)
          (Py.unlines ["[ atoms ]"; "1 CT1 1 ALA CA 1"; "x C 1 ALA C 2";
                       "[ angles ]"; "1 2 3 5"]%string))
  = Py.unlines ["; Dummy parameters generated for topology errors"; "";
                "; End of dummy parameters"]%string.
Proof.
  apply main_empty_table_no_dummies. vm_compute. reflexivity.
Defined.


Lemma rows_of_kind error row :
  (In row (angle_rows_of error) ->
   exists types, atom_types error = Some types
                 /\ generate_angle_dummy types = Some row)
  /\ (In row (dihedral_rows_of error) ->
      exists types, atom_types error = Some types
                    /\ generate_dihedral_dummy types = Some row).
Proof.
  unfold angle_rows_of, dihedral_rows_of, process_error.
  destruct (atom_types error) as [[|t types]|]; simpl; [tauto| |tauto].
  split; intros Hrow; exists (t :: types); (split; [done|]); revert Hrow;
    repeat case_match; simpl; intros Hrow; decompose [or] Hrow; subst;
    try done.
Qed.

Lemma output_rows_of_kind errors row :
  (In row (angles (process_errors_for_dummies errors)) ->
   exists error types, In error errors /\ atom_types error = Some types
                       /\ generate_angle_dummy types = Some row)
  /\ (In row (dihedrals (process_errors_for_dummies errors)) ->
      exists error types, In error errors /\ atom_types error = Some types
                          /\ generate_dihedral_dummy types = Some row).
Proof.
  unfold process_errors_for_dummies. simpl.
  rewrite !sorted_In, process_loop_angles, process_loop_dihedrals.
  rewrite !fold_set_add_In. unfold generated_angles, generated_dihedrals.
  rewrite !in_flat_map. simpl.
  split; intros [[]|(e & He & Hrow)].
  - destruct (proj1 (rows_of_kind e row) Hrow) as (types & Ht & Hg). eauto 10.
  - destruct (proj2 (rows_of_kind e row) Hrow) as (types & Ht & Hg). eauto 10.
Qed.

Lemma main_token_types errors_txt topol_top error :
  In error (main_errors (main errors_txt topol_top)) -> token_types error.
Proof.
  unfold main. simpl. intros (e0 & <- & _)%in_map_iff types Ht.
  pose proof (correlate_error_shape (get_context_from_topology topol_top)
                topol_top
                (extract_atom_names topol_top
                   (get_context_from_topology topol_top)) e0) as H.
  cbv zeta in H.
  destruct H as (_ & _ & _ & _ & zs & _ & [(_ & _ & Ht')|(_ & _ & _ & Ht')]);
    rewrite Ht' in Ht; injection Ht as <-; [constructor|].
  apply Forall_forall. intros t (z & -> & _)%list_elem_of_fmap.
  apply type_of_token. intros n i. apply extract_atom_names_tokens.
Qed.

(** X21: whatever the two input files, the parameter file written by [main]
    reads back line by line as the header comment, the blocks of the
    non-empty kinds with one row per line, and the footer; and every row
    splits on whitespace into the atom types of one of the records followed
    by the fixed columns of its kind. *)
Theorem main_parameter_file (errors_txt topol_top : string) :
  let r := main errors_txt topol_top in
  let d := process_errors_for_dummies (main_errors r) in
  Py.readlines (dummy_parameters r)
  = map (fun l => l +:+ newline) (dummy_file_lines d)
  /\ (forall row, In row (angles d) ->
        exists error types,
          In error (main_errors r) /\ atom_types error = Some types
          /\ Py.split row
             = types ++ ["1"; "120.000000"; "200.000000"; "0.00000000";
                         "0.00"; ";"]%string)
  /\ (forall row, In row (dihedrals d) ->
        exists error types,
          In error (main_errors r) /\ atom_types error = Some types
          /\ Py.split row
             = types ++ ["9"; "0.000000"; "0.000000"; "1"; ";"]%string).
Proof.
  intros r d. split; [|split].
  - apply (readlines_save_dummies (main_errors r)).
    intros e He. by eapply main_token_types.
  - intros row Hrow.
    destruct (proj1 (output_rows_of_kind _ row) Hrow) as (e & types & He & Ht & Hg).
    exists e, types. split; [done|]. split; [done|].
    apply angle_row_split; [|done]. by apply (main_token_types _ _ _ He).
  - intros row Hrow.
    destruct (proj2 (output_rows_of_kind _ row) Hrow) as (e & types & He & Ht & Hg).
    exists e, types. split; [done|]. split; [done|].
    apply dihedral_row_split; [|done]. by apply (main_token_types _ _ _ He).
Qed.

(** *** The report *)









